(** * Tab lifecycle of [extensions::TabHelper] (atom/browser/extensions/tab_helper.cc)

    A shallow embedding of the tab helper's attach / detach / placeholder /
    pinned-tab code, and the properties its specification states about it.

    The helper lives inside a browser process: it reads and writes its own
    members, and it calls into collaborators it does not own (the tab strip
    of a window, the native window, the guest view of a surface, the tab
    manager, the task runner).  The embedding keeps that split:

    - the helper's members, the guest flags it reads and writes, the strips
      and observer lists of the windows and the window registry are explicit
      state in [World];
    - a call that only asks a collaborator to do something (load, hide,
      destroy, deactivate, ...) is recorded, in call order, in [trace];
    - a task handed to the task runner is queued in [posted_tasks] and runs
      only when the environment runs it;
    - a dereference of a pointer that holds no object, a failed [DCHECK] and
      an out-of-range strip index are fatal: the computation yields [None];
    - notifications the collaborators send to the helper ([DidAttach],
      [TabReplacedAt], [TabDetachedAt], [WillCloseWindow],
      [OnBrowserSetLastActive], ...) are entry points of their own,
      delivered by the environment: where the helper asks the strip for a
      replacement it returns right after the strip does, so that the
      strip's report composes with the call;
    - the one report that reaches the helper in the middle of one of its own
      calls, the strip's [TabPinnedStateChanged] inside [SetPinned], is
      delivered where it arrives, by the strip. *)

From Stdlib Require Import ZArith Bool List Lia.
From stdpp Require Import base option list gmap strings.

Local Open Scope Z_scope.

(** ** Data model *)

(** Surfaces ([content::WebContents*]) and windows ([Browser*]) are known by
    their identity. *)
Abbreviation WebContents := nat (only parsing).
Abbreviation BrowserPtr := nat (only parsing).

(** [TabStripModel::kNoTab]. *)
Definition kNoTab : Z := -1.

(** The members of a [TabHelper], with the window id its constructor stores
    in the surface's [SessionTabHelper] ([SetWindowId] / [window_id()]). *)
Record TabHelper := mkTabHelper {
  index_ : Z;
  pinned_ : bool;
  is_placeholder_ : bool;
  window_closing_ : bool;
  browser_ : option BrowserPtr;
  session_window_id : Z
}.

(** What the helper reads and writes of a surface's [brave::TabViewGuest]. *)
Record TabViewGuest := mkGuest {
  attached : bool;
  can_run_in_detached_state : bool;
  guest_instance_id : Z;
  attach_params : list (string * string)
}.

(** A window: its session id, the ordered strip of surfaces, and the
    observers registered with the strip and with the native window. *)
Record Browser := mkBrowser {
  session_id : Z;
  tab_strip : list WebContents;
  strip_observers : list WebContents;
  window_observers : list WebContents
}.

(** Requests made to collaborators. *)
Inductive Event :=
| UserGestureDone (c : WebContents)
| Load (c : WebContents)
| Destroy (c : WebContents)
| WasHidden (c : WebContents)
| TabIdChanged (c : WebContents)
| GuestDetachGuest (c : WebContents)
| GuestAttachGuest (c : WebContents) (guest_instance : Z)
| RequestToClosePage (b : BrowserPtr)
| Deactivate (b : BrowserPtr)
| Hide (b : BrowserPtr)
| CreatedNullContents (b : BrowserPtr) (old_contents null_contents : WebContents)
| SetTabPinned (b : BrowserPtr) (strip_index : Z) (pinned : bool).

(** A task bound with [base::Bind] and handed to the task runner. *)
Inductive Task :=
| DestroyTabTask (tab : WebContents).

Record World := mkWorld {
  helpers : gmap nat TabHelper;
  guests : gmap nat TabViewGuest;
  controllers : gmap nat (list string);
  browsers : gmap nat Browser;
  browser_list : list BrowserPtr;
  last_active : option BrowserPtr;
  discarded : gset nat;
  trying_to_quit : bool;
  posted_tasks : list Task;
  trace : list Event
}.

#[global] Instance Event_eq_dec : EqDecision Event.
Proof. solve_decision. Defined.

#[global] Instance Task_eq_dec : EqDecision Task.
Proof. solve_decision. Defined.

(** *** Field updates *)

Definition set_index_ (v : Z) (h : TabHelper) : TabHelper :=
  mkTabHelper v (pinned_ h) (is_placeholder_ h) (window_closing_ h)
              (browser_ h) (session_window_id h).

Definition set_pinned_ (v : bool) (h : TabHelper) : TabHelper :=
  mkTabHelper (index_ h) v (is_placeholder_ h) (window_closing_ h)
              (browser_ h) (session_window_id h).

Definition set_is_placeholder_ (v : bool) (h : TabHelper) : TabHelper :=
  mkTabHelper (index_ h) (pinned_ h) v (window_closing_ h)
              (browser_ h) (session_window_id h).

Definition set_window_closing_ (v : bool) (h : TabHelper) : TabHelper :=
  mkTabHelper (index_ h) (pinned_ h) (is_placeholder_ h) v
              (browser_ h) (session_window_id h).

Definition set_browser_ (v : option BrowserPtr) (h : TabHelper) : TabHelper :=
  mkTabHelper (index_ h) (pinned_ h) (is_placeholder_ h) (window_closing_ h)
              v (session_window_id h).

Definition set_can_run_in_detached_state (v : bool) (g : TabViewGuest)
  : TabViewGuest :=
  mkGuest (attached g) v (guest_instance_id g) (attach_params g).

Definition set_attach_params (v : list (string * string)) (g : TabViewGuest)
  : TabViewGuest :=
  mkGuest (attached g) (can_run_in_detached_state g) (guest_instance_id g) v.

Definition set_tab_strip (v : list WebContents) (b : Browser) : Browser :=
  mkBrowser (session_id b) v (strip_observers b) (window_observers b).

Definition set_strip_observers (v : list WebContents) (b : Browser) : Browser :=
  mkBrowser (session_id b) (tab_strip b) v (window_observers b).

Definition set_window_observers (v : list WebContents) (b : Browser) : Browser :=
  mkBrowser (session_id b) (tab_strip b) (strip_observers b) v.

Definition with_helpers (v : gmap nat TabHelper) (w : World) : World :=
  mkWorld v (guests w) (controllers w) (browsers w) (browser_list w)
          (last_active w) (discarded w) (trying_to_quit w) (posted_tasks w)
          (trace w).

Definition with_guests (v : gmap nat TabViewGuest) (w : World) : World :=
  mkWorld (helpers w) v (controllers w) (browsers w) (browser_list w)
          (last_active w) (discarded w) (trying_to_quit w) (posted_tasks w)
          (trace w).

Definition with_controllers (v : gmap nat (list string)) (w : World) : World :=
  mkWorld (helpers w) (guests w) v (browsers w) (browser_list w)
          (last_active w) (discarded w) (trying_to_quit w) (posted_tasks w)
          (trace w).

Definition with_browsers (v : gmap nat Browser) (w : World) : World :=
  mkWorld (helpers w) (guests w) (controllers w) v (browser_list w)
          (last_active w) (discarded w) (trying_to_quit w) (posted_tasks w)
          (trace w).

Definition with_posted_tasks (v : list Task) (w : World) : World :=
  mkWorld (helpers w) (guests w) (controllers w) (browsers w) (browser_list w)
          (last_active w) (discarded w) (trying_to_quit w) v (trace w).

Definition with_trace (v : list Event) (w : World) : World :=
  mkWorld (helpers w) (guests w) (controllers w) (browsers w) (browser_list w)
          (last_active w) (discarded w) (trying_to_quit w) (posted_tasks w) v.

(** ** The monad of the embedding: state passing with fatal errors *)

Definition M (A : Type) : Type := World → option (A * World).

Definition ret {A} (a : A) : M A := λ w, Some (a, w).

Definition bind {A B} (m : M A) (k : A → M B) : M B :=
  λ w, match m w with
       | Some (a, w') => k a w'
       | None => None
       end.

(** A fatal assertion or a dereference of nothing. *)
Definition crash {A} : M A := λ _, None.

Definition gets {A} (f : World → A) : M A := λ w, Some (f w, w).

Definition modify (f : World → World) : M unit := λ w, Some (tt, f w).

Declare Scope tab_scope.
Delimit Scope tab_scope with tab.
Notation "'let*' x ':=' c1 'in' c2" := (bind c1 (λ x, c2))
  (at level 10, x name, c1 at level 100, c2 at level 200) : tab_scope.
Notation "c1 >> c2" := (bind c1 (λ _, c2))
  (at level 100, c2 at level 200, right associativity) : tab_scope.
Local Open Scope tab_scope.

(** [TabHelper::FromWebContents]: the helper attached to a surface, if any. *)
Definition FromWebContents (c : WebContents) : M (option TabHelper) :=
  gets (λ w, helpers w !! c).

(** Reading a member through a helper pointer. *)
Definition helper (c : WebContents) : M TabHelper :=
  let* o := FromWebContents c in
  match o with
  | Some h => ret h
  | None => crash
  end.

(** Writing a member through a helper pointer. *)
Definition update_helper (c : WebContents) (f : TabHelper → TabHelper) : M unit :=
  let* h := helper c in
  modify (λ w, with_helpers (<[c := f h]> (helpers w)) w).

(** [TabHelper::guest]: [TabViewGuest::FromWebContents] and [DCHECK(guest)]. *)
Definition guest (self : WebContents) : M TabViewGuest :=
  let* o := gets (λ w, guests w !! self) in
  match o with
  | Some g => ret g
  | None => crash
  end.

Definition update_guest (c : WebContents) (f : TabViewGuest → TabViewGuest)
  : M unit :=
  let* g := guest c in
  modify (λ w, with_guests (<[c := f g]> (guests w)) w).

(** Dereferencing a [Browser*]. *)
Definition browser_object (b : BrowserPtr) : M Browser :=
  let* o := gets (λ w, browsers w !! b) in
  match o with
  | Some br => ret br
  | None => crash
  end.

Definition update_browser (b : BrowserPtr) (f : Browser → Browser) : M unit :=
  let* br := browser_object b in
  modify (λ w, with_browsers (<[b := f br]> (browsers w)) w).

(** A request to a collaborator. *)
Definition emit (e : Event) : M unit :=
  modify (λ w, with_trace (trace w ++ [e]) w).

(** [base::ThreadTaskRunnerHandle::Get()->PostTask]. *)
Definition PostTask (t : Task) : M unit :=
  modify (λ w, with_posted_tasks (posted_tasks w ++ [t]) w).

(** ** Accessors declared in tab_helper.h *)

(** Modelled from the spec: the inline accessors [is_pinned()],
    [is_placeholder()], [get_index()] and [browser()] are declared in
    atom/browser/extensions/tab_helper.h, which is absent; the spec's
    TabRecord exposes [pinned], [is_placeholder], [slot_index] and the owning
    window as plain fields, so each accessor returns its member. *)
Definition is_pinned (h : TabHelper) : bool := pinned_ h.
Definition is_placeholder (h : TabHelper) : bool := is_placeholder_ h.
Definition get_index (h : TabHelper) : Z := index_ h.
Definition browser (h : TabHelper) : option BrowserPtr := browser_ h.

(** [BrowserList::GetInstance()->GetLastActive()]. *)
Definition GetLastActive : M (option BrowserPtr) := gets last_active.

(** ** Placeholder flag and pinned-tab reconciliation *)

(** [TabHelper::SetPlaceholder]. *)
Definition SetPlaceholder (self : WebContents) (is_placeholder : bool) : M unit :=
  update_helper self (set_is_placeholder_ is_placeholder) >>
  if negb is_placeholder
  then update_guest self (set_can_run_in_detached_state true)
  else ret tt.

(** [TabHelper::MaybeAttachOrCreatePinnedTab].  The guard is a chain of [||]:
    the guest is only looked at when the three member tests let it. *)
Definition MaybeAttachOrCreatePinnedTab (self : WebContents) : M unit :=
  let* h := helper self in
  if window_closing_ h || negb (is_pinned h) || negb (is_placeholder h)
  then ret tt
  else
    let* g := guest self in
    let* last := GetLastActive in
    if negb (attached g) || negb (bool_decide (browser_ h = last))
    then ret tt
    else
      SetPlaceholder self false >>
      emit (UserGestureDone self) >>
      emit (Load self).

(** [TabHelper::MaybeRequestWindowClose]. *)
Definition MaybeRequestWindowClose (self : WebContents) : M unit :=
  let* h := helper self in
  if window_closing_ h
  then match browser h with
       | Some b => emit (RequestToClosePage b)
       | None => ret tt
       end
  else ret tt.

(** ** Destruction of superfluous placeholders *)

(** [TabHelper::DestroyTab] (static): [DCHECK(guest)], then
    [guest->Destroy(true)].  The destruction itself is the guest's: what it
    sets off in the helper is [WebContentsDestroyed], an entry point of its
    own. *)
Definition DestroyTab (tab : WebContents) : M unit :=
  guest tab >>
  emit (Destroy tab).

(** What the task runner does with a task once it runs it. *)
Definition run_task (t : Task) : M unit :=
  match t with
  | DestroyTabTask tab => DestroyTab tab
  end.

(** The task runner runs the oldest posted task, if there is one. *)
Definition RunNextTask : M unit :=
  let* q := gets posted_tasks in
  match q with
  | [] => ret tt
  | t :: rest => modify (with_posted_tasks rest) >> run_task t
  end.

(** [TabHelper::IsDiscarded]: asks the tab manager. *)
Definition IsDiscarded (self : WebContents) : M bool :=
  gets (λ w, bool_decide (self ∈ discarded w)).

(** [TabHelper::DidAttach]. *)
Definition DidAttach (self : WebContents) : M unit :=
  MaybeRequestWindowClose self >>
  let* h := helper self in
  if is_placeholder h
  then
    update_guest self (set_can_run_in_detached_state false) >>
    let* h := helper self in
    let* is_discarded := IsDiscarded self in
    if negb (pinned_ h) && negb is_discarded
    then PostTask (DestroyTabTask self)
    else MaybeAttachOrCreatePinnedTab self
  else ret tt.

(** ** Window close *)

(** [browser_shutdown::IsTryingToQuit]. *)
Definition IsTryingToQuit : M bool := gets trying_to_quit.

(** [BrowserList::GetInstance()->size()]. *)
Definition BrowserList_size : M nat := gets (λ w, length (browser_list w)).

(** [TabHelper::WillCloseWindow].  The result is the value of
    [*prevent_default] when the call returns. *)
Definition WillCloseWindow (self : WebContents) (prevent_default : bool)
  : M bool :=
  update_helper self (set_window_closing_ false) >>
  let* h := helper self in
  let* quitting := IsTryingToQuit in
  let* size := BrowserList_size in
  match browser h with
  | Some b =>
      if is_pinned h && negb (is_placeholder h) && negb quitting
         && (1 <? size)%nat
      then emit (Deactivate b) >> emit (Hide b) >> ret prevent_default
      else ret prevent_default
  | None => ret prevent_default
  end.

(** ** Window bookkeeping *)

(** [base::ObserverList]: an observer is listed at most once, and removing
    one that is not listed does nothing. *)
Definition AddObserver (self : WebContents) (l : list WebContents)
  : list WebContents :=
  if bool_decide (self ∈ l) then l else l ++ [self].

Definition RemoveObserver (self : WebContents) (l : list WebContents)
  : list WebContents :=
  filter (λ o, o ≠ self) l.

(** [TabHelper::OnBrowserRemoved]. *)
Definition OnBrowserRemoved (self : WebContents) (brw : option BrowserPtr)
  : M unit :=
  MaybeRequestWindowClose self >>
  let* h := helper self in
  match browser_ h with
  | Some b =>
      if bool_decide (browser_ h = brw)
      then
        update_browser b
          (λ br, set_window_observers
                   (RemoveObserver self (window_observers br)) br) >>
        update_browser b
          (λ br, set_strip_observers
                   (RemoveObserver self (strip_observers br)) br) >>
        update_helper self (set_browser_ None) >>
        update_helper self (set_index_ kNoTab)
      else ret tt
  | None => ret tt
  end.

(** [TabHelper::OnBrowserSetLastActive]. *)
Definition OnBrowserSetLastActive (self : WebContents) (brw : BrowserPtr)
  : M unit :=
  MaybeRequestWindowClose self >>
  MaybeAttachOrCreatePinnedTab self.

(** [TabHelper::UpdateBrowser]. *)
Definition UpdateBrowser (self : WebContents) (brw : option BrowserPtr)
  : M unit :=
  update_helper self (set_browser_ brw) >>
  match brw with
  | Some b =>
      update_browser b
        (λ br, set_strip_observers
                 (AddObserver self (strip_observers br)) br) >>
      update_browser b
        (λ br, set_window_observers
                 (AddObserver self (window_observers br)) br)
  | None => crash
  end.

(** ** The tab strip *)

(** [TabStripModel::GetIndexOfWebContents]: the position of the first slot
    that holds the surface, or [kNoTab]. *)
Fixpoint index_from (i : Z) (c : WebContents) (strip : list WebContents) : Z :=
  match strip with
  | [] => kNoTab
  | x :: rest => if bool_decide (x = c) then i else index_from (i + 1) c rest
  end.

Definition GetIndexOfWebContents (strip : list WebContents) (c : WebContents)
  : Z :=
  index_from 0 c strip.

(** [TabStripModel::ContainsIndex]. *)
Definition ContainsIndex (strip : list WebContents) (index : Z) : bool :=
  (0 <=? index) && (index <? Z.of_nat (length strip)).

(** [TabStripModel::ReplaceWebContentsAt]: the slot must exist; its occupant
    is replaced. *)
Definition ReplaceWebContentsAt (b : BrowserPtr) (index : Z)
    (new_contents : WebContents) : M unit :=
  let* br := browser_object b in
  if ContainsIndex (tab_strip br) index
  then update_browser b
         (λ br, set_tab_strip
                  (<[Z.to_nat index := new_contents]> (tab_strip br)) br)
  else crash.

(** [TabHelper::get_tab_strip_index]. *)
Definition get_tab_strip_index (self : WebContents) : M Z :=
  let* h := helper self in
  match browser h with
  | Some b =>
      let* br := browser_object b in
      ret (GetIndexOfWebContents (tab_strip br) self)
  | None => ret kNoTab
  end.

(** Every surface of every strip, window by window in registry order. *)
Definition all_tabs (w : World) : list WebContents :=
  flat_map (λ b, match browsers w !! b with
                 | Some br => tab_strip br
                 | None => []
                 end) (browser_list w).

(** [TabContentsIterator]: the surfaces the iterator visits, in its order. *)
Definition TabContentsIterator : M (list WebContents) := gets all_tabs.

(** The loop of [TabHelper::GetTabStripIndex] over the surfaces still to
    visit. *)
Fixpoint GetTabStripIndex_from (tabs : list WebContents) (window_id index : Z)
  : M Z :=
  match tabs with
  | [] => ret kNoTab
  | c :: rest =>
      let* tab_helper := FromWebContents c in
      match tab_helper with
      | Some h =>
          if (get_index h =? index) && (session_window_id h =? window_id)
          then get_tab_strip_index c
          else GetTabStripIndex_from rest window_id index
      | None => GetTabStripIndex_from rest window_id index
      end
  end.

(** [TabHelper::GetTabStripIndex] (static). *)
Definition GetTabStripIndex (window_id index : Z) : M Z :=
  let* tabs := TabContentsIterator in
  GetTabStripIndex_from tabs window_id index.

(** ** Attach and detach *)

(** The loop of [TabHelper::AttachGuest] over the windows of the registry
    still to visit. *)
Fixpoint AttachGuest_from (bs : list BrowserPtr) (self : WebContents)
    (window_id index : Z) : M bool :=
  match bs with
  | [] => ret false
  | b :: rest =>
      let* br := browser_object b in
      if session_id br =? window_id
      then
        update_helper self (set_index_ index) >>
        let* h := helper self in
        let* strip_index := GetTabStripIndex window_id (index_ h) in
        ReplaceWebContentsAt b strip_index self >>
        ret true
      else AttachGuest_from rest self window_id index
  end.

(** [TabHelper::AttachGuest]. *)
Definition AttachGuest (self : WebContents) (window_id index : Z) : M bool :=
  let* g := guest self in
  if attached g
  then crash
  else
    let* bs := gets browser_list in
    AttachGuest_from bs self window_id index.

(** The constructor of [TabHelper]. *)
Definition new_TabHelper : TabHelper :=
  mkTabHelper kNoTab false false false None (-1).

(** An identity no surface of the world has. *)
Definition fresh_contents (w : World) : WebContents :=
  fresh (dom (helpers w) ∪ dom (guests w) ∪ dom (controllers w)).

(** Modelled from the spec: [TabManager::CreateNullContents] (the tab manager
    is absent); the hosting collaborator materialises a new surface, which
    comes with a freshly constructed helper, an unattached guest and an empty
    history.  The guest instance id is the guest manager's to choose: the
    surface's identity stands for it. *)
Definition CreateNullContents (b : BrowserPtr) (old_contents : WebContents)
  : M WebContents :=
  let* c := gets fresh_contents in
  modify (λ w, with_helpers (<[c := new_TabHelper]> (helpers w)) w) >>
  modify (λ w, with_guests
                 (<[c := mkGuest false false (Z.of_nat c) []]> (guests w)) w) >>
  modify (λ w, with_controllers (<[c := []]> (controllers w)) w) >>
  emit (CreatedNullContents b old_contents c) >>
  ret c.

(** [NavigationController::CopyStateFrom]: the target's history becomes a copy
    of the source's. *)
Definition CopyStateFrom (target source : WebContents) : M unit :=
  modify (λ w, with_controllers
                 (<[target := default [] (controllers w !! source)]>
                    (controllers w)) w).

(** [TabHelper::DetachGuest]. *)
Definition DetachGuest (self : WebContents) : M (option WebContents) :=
  let* g := guest self in
  if attached g
  then
    let* h := helper self in
    match browser_ h with
    | None => crash
    | Some b =>
        let* null_contents := CreateNullContents b self in
        CopyStateFrom null_contents self >>
        helper null_contents >>
        let* h := helper self in
        update_helper null_contents (set_index_ (index_ h)) >>
        let* h := helper self in
        update_helper null_contents (set_pinned_ (pinned_ h)) >>
        let* h := helper self in
        update_helper null_contents (set_window_closing_ (window_closing_ h)) >>
        update_helper self (set_window_closing_ false) >>
        SetPlaceholder null_contents true >>
        let* h := helper self in
        match browser_ h with
        | None => crash
        | Some b' =>
            let* strip_index := get_tab_strip_index self in
            ReplaceWebContentsAt b' strip_index null_contents >>
            ret (Some null_contents)
        end
    end
  else ret None.

(** ** Strip observer callbacks *)

(** [TabHelper::TabReplacedAt] after its first test, from its first
    statement to the point where the old guest is about to be asked to
    detach: the copy of the index and the pin flag, the bookkeeping of the
    window, the hiding of the old surface and the carry-over of the attach
    parameters. *)
Definition TabReplacedAt_transfer (self old_contents new_contents : WebContents)
  : M unit :=
  let* h := helper self in
  let old_browser := browser_ h in
  guest self >>
  helper new_contents >>
  let* h := helper self in
  update_helper new_contents (set_index_ (index_ h)) >>
  let* h := helper self in
  update_helper new_contents (set_pinned_ (pinned_ h)) >>
  OnBrowserRemoved self old_browser >>
  UpdateBrowser new_contents old_browser >>
  guest new_contents >>
  emit (WasHidden old_contents) >>
  let* old_guest := guest self in
  update_guest new_contents (set_attach_params (attach_params old_guest)) >>
  emit (TabIdChanged new_contents).

(** The last two statements of [TabHelper::TabReplacedAt]: the old guest is
    asked to detach and the new one to attach. *)
Definition TabReplacedAt_handover (self new_contents : WebContents) : M unit :=
  emit (GuestDetachGuest self) >>
  let* new_guest := guest new_contents in
  emit (GuestAttachGuest new_contents (guest_instance_id new_guest)).

(** [TabHelper::TabReplacedAt].  The strip argument and the [index] argument
    are not used by the body. *)
Definition TabReplacedAt (self : WebContents) (tab_strip_model : BrowserPtr)
    (old_contents new_contents : WebContents) (index : Z) : M unit :=
  if bool_decide (old_contents ≠ self)
  then ret tt
  else
    TabReplacedAt_transfer self old_contents new_contents >>
    TabReplacedAt_handover self new_contents.

(** [TabHelper::TabDetachedAt]. *)
Definition TabDetachedAt (self : WebContents) (contents : WebContents)
    (index : Z) : M unit :=
  if bool_decide (contents ≠ self)
  then ret tt
  else
    let* h := helper self in
    OnBrowserRemoved self (browser_ h).

(** [TabHelper::TabPinnedStateChanged]. *)
Definition TabPinnedStateChanged (self : WebContents)
    (tab_strip_model : BrowserPtr) (contents : WebContents) (index : Z)
  : M unit :=
  if bool_decide (contents ≠ self)
  then ret tt
  else MaybeAttachOrCreatePinnedTab self.

(** ** Pinning *)

(** The strip reports a change of pin state to its observers, one after the
    other. *)
Fixpoint NotifyTabPinnedStateChanged (observers : list WebContents)
    (tab_strip_model : BrowserPtr) (contents : WebContents) (index : Z)
  : M unit :=
  match observers with
  | [] => ret tt
  | observer :: rest =>
      TabPinnedStateChanged observer tab_strip_model contents index >>
      NotifyTabPinnedStateChanged rest tab_strip_model contents index
  end.

(** [TabStripModel::SetTabPinned]: the slot must exist; pinning is the
    strip's own business and is recorded as a request.  Modelled from the
    spec: the window notifies its observers of a pin-state change; the
    strip does so before it returns, for the surface in the slot.  The
    strip's own pin flags are not part of the model, the helper asks only
    when its own flag changes. *)
Definition TabStripModel_SetTabPinned (b : BrowserPtr) (index : Z)
    (pinned : bool) : M unit :=
  let* br := browser_object b in
  if ContainsIndex (tab_strip br) index
  then
    emit (SetTabPinned b index pinned) >>
    match tab_strip br !! Z.to_nat index with
    | Some contents =>
        NotifyTabPinnedStateChanged (strip_observers br) b contents index
    | None => crash
    end
  else crash.

(** [TabHelper::SetPinned]. *)
Definition SetPinned (self : WebContents) (pinned : bool) : M unit :=
  let* h := helper self in
  if bool_decide (pinned = pinned_ h)
  then ret tt
  else
    update_helper self (set_pinned_ pinned) >>
    let* h := helper self in
    match browser h with
    | Some b =>
        let* strip_index := get_tab_strip_index self in
        TabStripModel_SetTabPinned b strip_index pinned
    | None => ret tt
    end >>
    let* h := helper self in
    if pinned_ h
    then SetPlaceholder self true
    else SetPlaceholder self false.

(** ** Vocabulary of the specification *)

(** Number of load instructions issued to a surface. *)
Definition loads (c : WebContents) (t : list Event) : nat :=
  count_occ Event_eq_dec t (Load c).

(** The five preconditions of a promotion.  The last one compares the two
    window pointers the way the code does: two null pointers are equal, so
    a tab without window meets it when no window is last active. *)
Definition promotion_ready (w : World) (h : TabHelper) (g : TabViewGuest) : Prop :=
  is_pinned h = true ∧ is_placeholder h = true ∧ attached g = true ∧
  window_closing_ h = false ∧ browser_ h = last_active w.

#[global] Instance promotion_ready_dec w h g : Decision (promotion_ready w h g).
Proof. unfold promotion_ready. apply _. Defined.

(** The fifth precondition in the words of the specification: the tab has
    an owning window, and that window is the last-active one. *)
Definition owning_window_last_active (w : World) (h : TabHelper) : Prop :=
  ∃ b, browser_ h = Some b ∧ last_active w = Some b.

(** The world a promotion leaves behind. *)
Definition promoted (self : WebContents) (h : TabHelper) (g : TabViewGuest)
    (w : World) : World :=
  with_trace (trace w ++ [UserGestureDone self; Load self])
    (with_guests (<[self := set_can_run_in_detached_state true g]> (guests w))
      (with_helpers (<[self := set_is_placeholder_ false h]> (helpers w)) w)).

(** The member preconditions of a promotion: what pinning leaves to the
    window registry and the guest. *)
Definition reconciliation_candidate (h : TabHelper) : Prop :=
  is_pinned h = true ∧ is_placeholder h = true.

(** What [DidAttach] does before it looks at the pin and discard state of a
    placeholder. *)
Definition attach_prologue (self : WebContents) : M unit :=
  MaybeRequestWindowClose self >>
  update_guest self (set_can_run_in_detached_state false).

(** The state in which [WillCloseWindow] steps in. *)
Definition close_protected (w : World) (h : TabHelper) : Prop :=
  is_Some (browser h) ∧ is_pinned h = true ∧ is_placeholder h = false ∧
  trying_to_quit w = false ∧ (1 < length (browser_list w))%nat.

(** The tab sits in a slot of the strip of the window it belongs to. *)
Definition in_own_strip (w : World) (self : WebContents) (h : TabHelper) : Prop :=
  ∀ b, browser_ h = Some b →
       ∃ br, browsers w !! b = Some br ∧ self ∈ tab_strip br.

(** No window among [bs] has the session id [window_id]. *)
Definition no_window_with_id (w : World) (window_id : Z) (bs : list BrowserPtr)
  : Prop :=
  Forall (λ b, ∃ br, browsers w !! b = Some br ∧ session_id br ≠ window_id) bs.

(** [c] is the occupant of slot [index] of the window with session id
    [window_id]: it sits in the strip of window [b], its record carries that
    index and that window id, and no other tab of any strip does. *)
Definition slot_occupant (w : World) (window_id index : Z) (b : BrowserPtr)
    (c : WebContents) : Prop :=
  (∃ hc br, helpers w !! c = Some hc ∧ get_index hc = index ∧
            session_window_id hc = window_id ∧ browser_ hc = Some b ∧
            browsers w !! b = Some br ∧ c ∈ tab_strip br) ∧
  ∀ c' h', c' ∈ all_tabs w → helpers w !! c' = Some h' →
           get_index h' = index → session_window_id h' = window_id → c' = c.

(** The strip's report of a pin-state change reaches the record of a
    placeholder that is ready for a promotion but for its pin flag: its
    guest is attached, no close is pending, its window is the last-active
    one and the tab observes the strip of that window. *)
Definition report_promotes (w : World) (self : WebContents) (h : TabHelper)
    (g : TabViewGuest) : Prop :=
  is_placeholder h = true ∧ attached g = true ∧ window_closing_ h = false ∧
  ∃ b br, browser_ h = Some b ∧ last_active w = Some b ∧
          browsers w !! b = Some br ∧ self ∈ strip_observers br.

(** The request [SetPinned] makes to the strip of the owning window. *)
Definition pin_request (w : World) (self : WebContents) (h : TabHelper)
    (pinned : bool) : list Event :=
  match browser_ h with
  | Some b =>
      match browsers w !! b with
      | Some br =>
          [SetTabPinned b (GetIndexOfWebContents (tab_strip br) self) pinned]
      | None => []
      end
  | None => []
  end.

(** The close request [MaybeRequestWindowClose] makes for a helper. *)
Definition close_request (h : TabHelper) : list Event :=
  if window_closing_ h
  then match browser h with
       | Some b => [RequestToClosePage b]
       | None => []
       end
  else [].

(** The window's observer lists once the old surface has left them and the
    new one has joined. *)
Definition replaced_browser (self new_contents : WebContents) (br : Browser)
  : Browser :=
  mkBrowser (session_id br) (tab_strip br)
    (AddObserver new_contents (RemoveObserver self (strip_observers br)))
    (AddObserver new_contents (RemoveObserver self (window_observers br))).

(** The world of [TabReplacedAt] once the records, the observer lists and the
    attach parameters have been carried over and the old surface has been
    hidden, before any guest is asked to detach or attach. *)
Definition bookkeeping_done (w : World) (self new_contents : WebContents)
    (h : TabHelper) (g : TabViewGuest) (hn : TabHelper) (gn : TabViewGuest)
    (b : BrowserPtr) (br : Browser) : World :=
  with_trace
    (trace w ++ close_request h ++ [WasHidden self; TabIdChanged new_contents])
    (with_guests
       (<[new_contents := set_attach_params (attach_params g) gn]> (guests w))
       (with_browsers
          (<[b := replaced_browser self new_contents br]> (browsers w))
          (with_helpers
             (<[new_contents :=
                  set_browser_ (Some b)
                    (set_pinned_ (pinned_ h) (set_index_ (index_ h) hn))]>
                (<[self := set_index_ kNoTab (set_browser_ None h)]>
                   (helpers w)))
             w))).

(** The world a computation leaves; the world it was given if it is fatal. *)
Definition world_after {A} (m : M A) (w : World) : World :=
  match m w with
  | Some (_, w') => w'
  | None => w
  end.

(** ** Scenarios

    Window 1 (session id 11) and window 2 (session id 12) are open; the
    surface under test is surface 0. *)

Definition attached_guest : TabViewGuest :=
  mkGuest true false 7 [("src", "https://example.org/")].

Definition detached_guest : TabViewGuest :=
  mkGuest false true 9 [].

Definition window_1 (strip : list WebContents) : Browser :=
  mkBrowser 11 strip [0%nat] [0%nat].

Definition window_2 : Browser := mkBrowser 12 [] [] [].

(** One tab, with the given helper, in slot 0 of window 1. *)
Definition one_tab_world (h : TabHelper) (last : option BrowserPtr) : World :=
  mkWorld {[ 0%nat := h ]} {[ 0%nat := attached_guest ]}
    {[ 0%nat := ["https://example.org/"] ]}
    {[ 1%nat := window_1 [0%nat]; 2%nat := window_2 ]}
    [1%nat; 2%nat] last ∅ false [] [].

(** A pinned placeholder of window 1. *)
Definition pinned_placeholder : TabHelper :=
  mkTabHelper 0 true true false (Some 1%nat) 11.

(** A pinned placeholder that belongs to no window, in a world without
    windows. *)
Definition orphan_placeholder : TabHelper :=
  mkTabHelper kNoTab true true false None (-1).

Definition orphan_world : World :=
  mkWorld {[ 0%nat := orphan_placeholder ]} {[ 0%nat := attached_guest ]}
    ∅ ∅ [] None ∅ false [] [].

(** Scenario A: window 2 is last active. *)
Definition scenario_A : World := one_tab_world pinned_placeholder (Some 2%nat).

(** Scenario B: window 1 is last active. *)
Definition scenario_B : World := one_tab_world pinned_placeholder (Some 1%nat).

(** An unpinned placeholder, as a tab move leaves it behind. *)
Definition move_placeholder : TabHelper :=
  mkTabHelper 0 false true false (Some 1%nat) 11.

Definition moved_tab_world : World :=
  one_tab_world move_placeholder (Some 1%nat).

(** A loaded tab the user sees in window 1, logical index 5. *)
Definition real_tab : TabHelper :=
  mkTabHelper 5 false false false (Some 1%nat) 11.

Definition real_tab_world : World := one_tab_world real_tab (Some 1%nat).

(** A pinned tab whose content is loaded. *)
Definition pinned_real_tab : TabHelper :=
  mkTabHelper 0 true false false (Some 1%nat) 11.

Definition pinned_tab_world : World :=
  one_tab_world pinned_real_tab (Some 1%nat).

(** The pinned, loaded tab with a destruction task still in the queue. *)
Definition promoted_with_task : World :=
  with_posted_tasks [DestroyTabTask 0] pinned_tab_world.

(** A tab of window 2 on which a close is pending. *)
Definition closing_tab : TabHelper :=
  mkTabHelper 0 false false true (Some 2%nat) 12.

(** Scenario C: the pinned, loaded tab 0 in window 1, and tab 3 in window 2
    with a close pending. *)
Definition scenario_C : World :=
  mkWorld {[ 0%nat := pinned_real_tab; 3%nat := closing_tab ]}
    {[ 0%nat := attached_guest; 3%nat := attached_guest ]} ∅
    {[ 1%nat := window_1 [0%nat]; 2%nat := mkBrowser 12 [3%nat] [3%nat] [3%nat] ]}
    [1%nat; 2%nat] (Some 1%nat) ∅ false [] [].

(** Surface 5 is not attached yet; slot 0 of window 1 holds the loaded tab 0,
    whose logical index is 5. *)
Definition attach_world : World :=
  mkWorld {[ 0%nat := real_tab; 5%nat := new_TabHelper ]}
    {[ 0%nat := attached_guest; 5%nat := detached_guest ]} ∅
    {[ 1%nat := window_1 [0%nat]; 2%nat := window_2 ]}
    [1%nat; 2%nat] (Some 1%nat) ∅ false [] [].

(** Scenario D: the strip of window 1 has just put surface 1 where surface 0
    was, in slot 2; the logical index of surface 0 is 5. *)
Definition scenario_D : World :=
  mkWorld {[ 0%nat := real_tab; 1%nat := new_TabHelper ]}
    {[ 0%nat := attached_guest; 1%nat := detached_guest ]} ∅
    {[ 1%nat := window_1 [7%nat; 8%nat; 1%nat]; 2%nat := window_2 ]}
    [1%nat; 2%nat] (Some 1%nat) ∅ false [] [].

(** ** Moving a tab between windows *)

(** [TabHelper::SetTabIndex]. *)
Definition SetTabIndex (self : WebContents) (index : Z) : M unit :=
  update_helper self (set_index_ index).

(** [TabStripModel::DetachWebContentsAt]: nothing to detach from an empty
    strip; otherwise the slot must exist, and it is removed, the later slots
    moving up. *)
Definition DetachWebContentsAt (b : BrowserPtr) (index : Z) : M unit :=
  let* br := browser_object b in
  match tab_strip br with
  | [] => ret tt
  | _ :: _ =>
      if ContainsIndex (tab_strip br) index
      then update_browser b
             (λ br, set_tab_strip (delete (Z.to_nat index) (tab_strip br)) br)
      else crash
  end.

(** [TabStripModel::AppendWebContents]: the surface takes a new slot at the
    end of the strip; bringing it to the foreground is the strip's own
    business. *)
Definition AppendWebContents (b : BrowserPtr) (contents : WebContents)
    (foreground : bool) : M unit :=
  update_browser b (λ br, set_tab_strip (tab_strip br ++ [contents]) br).

(** [TabHelper::SetBrowser].  What the strip tells its observers about the
    detach and the new slot is the strip's to deliver, like every other
    callback. *)
Definition SetBrowser (self : WebContents) (brw : option BrowserPtr) : M unit :=
  let* h := helper self in
  if bool_decide (brw = browser_ h)
  then ret tt
  else
    match browser_ h with
    | Some b =>
        let* strip_index := get_tab_strip_index self in
        (if bool_decide (strip_index ≠ kNoTab)
         then
           let* strip_index := get_tab_strip_index self in
           DetachWebContentsAt b strip_index
         else ret tt) >>
        let* h := helper self in
        OnBrowserRemoved self (browser_ h)
    | None => ret tt
    end >>
    match brw with
    | Some _ =>
        UpdateBrowser self brw >>
        let* h := helper self in
        match browser_ h with
        | Some b => AppendWebContents b self false
        | None => crash
        end
    | None => update_helper self (set_browser_ None)
    end.

(** ** A program logic for the embedding *)

(** Partial correctness: from a world in [P], a run of [m] that is not fatal
    ends with a result and a world in [Q]. *)
Definition hoare {A} (P : World → Prop) (m : M A) (Q : A → World → Prop)
  : Prop :=
  ∀ w a w', P w → m w = Some (a, w') → Q a w'.

(** The entry points of the helper: what its callers and the collaborators
    it observes can ask of it. *)
Inductive Call :=
| CallAttachGuest (self : WebContents) (window_id index : Z)
| CallDetachGuest (self : WebContents)
| CallDidAttach (self : WebContents)
| CallWillCloseWindow (self : WebContents) (prevent_default : bool)
| CallOnBrowserRemoved (self : WebContents) (brw : option BrowserPtr)
| CallOnBrowserSetLastActive (self : WebContents) (brw : BrowserPtr)
| CallTabReplacedAt (self : WebContents) (strip : BrowserPtr)
    (old_contents new_contents : WebContents) (index : Z)
| CallTabDetachedAt (self contents : WebContents) (index : Z)
| CallTabPinnedStateChanged (self : WebContents) (strip : BrowserPtr)
    (contents : WebContents) (index : Z)
| CallSetPinned (self : WebContents) (pinned : bool)
| CallSetPlaceholder (self : WebContents) (is_placeholder : bool)
| CallSetTabIndex (self : WebContents) (index : Z)
| CallSetBrowser (self : WebContents) (brw : option BrowserPtr)
| CallRunNextTask.

(** A call, its result dropped. *)
Definition call (c : Call) : M unit :=
  match c with
  | CallAttachGuest self window_id index =>
      AttachGuest self window_id index >> ret tt
  | CallDetachGuest self => DetachGuest self >> ret tt
  | CallDidAttach self => DidAttach self
  | CallWillCloseWindow self prevent_default =>
      WillCloseWindow self prevent_default >> ret tt
  | CallOnBrowserRemoved self brw => OnBrowserRemoved self brw
  | CallOnBrowserSetLastActive self brw => OnBrowserSetLastActive self brw
  | CallTabReplacedAt self strip old_contents new_contents index =>
      TabReplacedAt self strip old_contents new_contents index
  | CallTabDetachedAt self contents index => TabDetachedAt self contents index
  | CallTabPinnedStateChanged self strip contents index =>
      TabPinnedStateChanged self strip contents index
  | CallSetPinned self pinned => SetPinned self pinned
  | CallSetPlaceholder self is_placeholder => SetPlaceholder self is_placeholder
  | CallSetTabIndex self index => SetTabIndex self index
  | CallSetBrowser self brw => SetBrowser self brw
  | CallRunNextTask => RunNextTask
  end.

(** The calls that add a slot to a strip or remove one: [SetBrowser], and a
    posted task, which destroys its surface, whose destruction ends in
    [SetBrowser(nullptr)]. *)
Definition moves_tab (c : Call) : bool :=
  match c with
  | CallSetBrowser _ _ => true
  | CallRunNextTask => true
  | _ => false
  end.

(** A sequence of calls, one after the other. *)
Fixpoint calls (cs : list Call) : M unit :=
  match cs with
  | [] => ret tt
  | c :: rest => call c >> calls rest
  end.

(** No record has a close pending. *)
Definition no_pending_close (w : World) : Prop :=
  ∀ c h, helpers w !! c = Some h → window_closing_ h = false.

(** No close request has been made to any window. *)
Definition no_close_request (w : World) : Prop :=
  ∀ b, RequestToClosePage b ∉ trace w.

(** No close is pending and none was requested. *)
Definition quiet_close (w : World) : Prop :=
  no_pending_close w ∧ no_close_request w.

(** The number of slots of each window's strip. *)
Definition strip_sizes (w : World) : gmap nat nat :=
  (λ br, length (tab_strip br)) <$> browsers w.

(** The requests that end with slots leaving a strip, once the collaborator
    acts on them: the destruction of a surface and the close of a window's
    page. *)
Definition removes_slots (e : Event) : bool :=
  match e with
  | Destroy _ | RequestToClosePage _ => true
  | _ => false
  end.

(** [w0] comes from [w] by steps that keep every strip at its size: the
    strips have the sizes they had in [w], no close is pending, and no
    request made since [w] removes slots. *)
Definition in_place (w w0 : World) : Prop :=
  strip_sizes w0 = strip_sizes w ∧ no_pending_close w0 ∧
  ∃ t, trace w0 = trace w ++ t ∧ Forall (λ e, removes_slots e = false) t.

(** A record that names a window is registered with that window: the tab
    observes the strip and the native window of the window it belongs to. *)
Definition owners_observe (w : World) : Prop :=
  ∀ c h b, helpers w !! c = Some h → browser_ h = Some b →
    ∃ br, browsers w !! b = Some br ∧
          c ∈ strip_observers br ∧ c ∈ window_observers br.

(** ** Call sequences of the scenarios *)

(** The loaded tab is pinned, gives its slot to a placeholder, survives a
    window close, sees another window come to the front, is renumbered and
    is attached again. *)
Definition pin_and_detach : list Call :=
  [CallSetPinned 0%nat true; CallDetachGuest 0%nat;
   CallWillCloseWindow 0%nat true; CallOnBrowserSetLastActive 0%nat 2%nat;
   CallSetTabIndex 0%nat 3; CallDidAttach 0%nat].

(** Surface 5 takes the slot of tab 0, the strip reports the replacement,
    and the new tab is pinned. *)
Definition attach_and_pin : list Call :=
  [CallAttachGuest 5%nat 11 5; CallTabReplacedAt 0%nat 1%nat 0%nat 5%nat 0;
   CallSetPinned 5%nat true; CallTabPinnedStateChanged 5%nat 1%nat 5%nat 0].

(** Window 2 goes away under tab 3, which moves to window 1; tab 0 leaves
    its window. *)
Definition move_between_windows : list Call :=
  [CallOnBrowserRemoved 3%nat (Some 2%nat); CallSetBrowser 3%nat (Some 1%nat);
   CallSetBrowser 0%nat None; CallWillCloseWindow 3%nat false].

(** Surface 1 has been bookkept under window 1 and sits in slot 2 of its
    strip, twice over: the strip holds it in slots 2 and 3. *)
Definition third_slot_world : World :=
  mkWorld {[ 1%nat := set_browser_ (Some 1%nat) new_TabHelper ]}
    {[ 1%nat := detached_guest ]} ∅
    {[ 1%nat := window_1 [7%nat; 8%nat; 1%nat; 1%nat]; 2%nat := window_2 ]}
    [1%nat; 2%nat] (Some 1%nat) ∅ false [] [].

(** ** Dictionaries *)

(** [base::Value], as far as the helper builds values, and what
    [DictionaryValue::MergeDictionary] leaves under a key that both
    dictionaries have: the incoming value, unless both values are
    dictionaries, which it merges in turn. *)
Class BaseValue (Value : Type) := {
  VBool : bool → Value;
  VInt : Z → Value;
  VString : string → Value;
  merge_value : Value → Value → Value
}.

(** Values without nested dictionaries: a merge keeps the incoming value. *)
Inductive Scalar :=
| SBool (b : bool)
| SInt (n : Z)
| SString (s : string).

#[global] Instance Scalar_value : BaseValue Scalar :=
  {| VBool := SBool; VInt := SInt; VString := SString;
     merge_value := λ _ v, v |}.

(** [DictionaryValue::MergeDictionary]. *)
Definition MergeDictionary `{BaseValue Value}
    (d values : gmap string Value) : gmap string Value :=
  union_with (λ old v, Some (merge_value old v)) d values.

(** [TabHelper::SetTabValues], on the dictionary [values_] of the helper. *)
Definition SetTabValues `{BaseValue Value}
    (values_ values : gmap string Value) : gmap string Value :=
  MergeDictionary values_ values.

(** What [CreateTabValue] asks of the collaborators of a surface: the
    session ids of the tab and of its window, the browser context, the
    committed navigation entry, the loading and audio state, the tab
    manager, and the active surface of each strip. *)
Record TabFacts := mkTabFacts {
  IdForTab : Z;
  IdForWindowContainingTab : Z;
  IsOffTheRecord : bool;
  GetURL : string;
  GetLastCommittedEntry : option string;
  IsLoading : bool;
  WasRecentlyAudible : bool;
  IsTabAutoDiscardable : bool;
  GetActiveWebContents : BrowserPtr → option WebContents
}.

(** [TabHelper::is_active]. *)
Definition is_active (facts : TabFacts) (self : WebContents) : M bool :=
  let* h := helper self in
  match browser h with
  | Some b => ret (bool_decide (GetActiveWebContents facts b = Some self))
  | None => ret false
  end.

(** The keys [CreateTabValue] sets, in the order in which it sets them. *)
Definition computed_keys : list string :=
  ["id"; "windowId"; "incognito"; "active"; "url"; "title"; "status";
   "audible"; "discarded"; "autoDiscardable"; "highlighted"; "index";
   "pinned"; "selected"]%string.

(** [TabHelper::CreateTabValue] (static), given the dictionary [values_] of
    the helper of [contents]. *)
Definition CreateTabValue `{BaseValue Value} (facts : TabFacts)
    (values_ : gmap string Value) (contents : WebContents)
  : M (gmap string Value) :=
  let* tab_helper := helper contents in
  let* active := is_active facts contents in
  let auto_discardable := IsTabAutoDiscardable facts in
  let result := values_ in
  let entry := GetLastCommittedEntry facts in
  let result := <["id" := VInt (IdForTab facts)]> result in
  let result := <["windowId" := VInt (IdForWindowContainingTab facts)]> result in
  let result := <["incognito" := VBool (IsOffTheRecord facts)]> result in
  let result := <["active" := VBool active]> result in
  let result := <["url" := VString (GetURL facts)]> result in
  let result := <["title" := VString (default ""%string entry)]> result in
  let result :=
    <["status" := VString (if IsLoading facts then "loading" else "complete")]>
      result in
  let result := <["audible" := VBool (WasRecentlyAudible facts)]> result in
  let* discarded := IsDiscarded contents in
  let result := <["discarded" := VBool discarded]> result in
  let result := <["autoDiscardable" := VBool auto_discardable]> result in
  let result := <["highlighted" := VBool active]> result in
  let* tab_helper := helper contents in
  let result := <["index" := VInt (get_index tab_helper)]> result in
  let result := <["pinned" := VBool (is_pinned tab_helper)]> result in
  let result := <["selected" := VBool active]> result in
  ret result.

(** The browser context a tab is created in: its partition, the partition
    of the context it was derived from, if any, and whether it has a guest
    manager. *)
Record Profile := mkProfile {
  partition_with_prefix : string;
  original_context : option string;
  GetGuestManager : bool
}.

(** [TabHelper::CreateTab] (static), the overload that takes a dictionary:
    the parameters it hands to [GuestViewManager::CreateGuest]. *)
Definition CreateTab `{BaseValue Value} (profile : Profile)
    (create_params : gmap string Value) : option (gmap string Value) :=
  if GetGuestManager profile
  then
    let params := create_params in
    let params :=
      <["partition" := VString (partition_with_prefix profile)]> params in
    let params :=
      match original_context profile with
      | Some parent => <["parent_partition" := VString parent]> params
      | None => params
      end in
    Some params
  else None.

(** ** The table of render views *)

(** [std::map::operator[]] on [render_view_map_]: a key that is not in the
    table is entered with a value-initialised pair. *)
Definition subscript (m : gmap Z (Z * Z)) (k : Z) : (Z * Z) * gmap Z (Z * Z) :=
  match m !! k with
  | Some v => (v, m)
  | None => ((0, 0), <[k := (0, 0)]> m)
  end.

(** [TabHelper::RenderViewCreated], given [session_id()] and the process and
    routing ids of the view. *)
Definition RenderViewCreated (tab_session_id process_id routing_id : Z)
    (render_view_map_ : gmap Z (Z * Z)) : gmap Z (Z * Z) :=
  <[tab_session_id := (process_id, routing_id)]> render_view_map_.

(** [TabHelper::GetTabById] (static), the overload that takes the id only.
    [FromID] stands for [RenderViewHost::FromID] followed by
    [WebContents::FromRenderViewHost]. *)
Definition GetTabById (FromID : Z → Z → option WebContents) (tab_id : Z)
    (render_view_map_ : gmap Z (Z * Z))
  : option WebContents * gmap Z (Z * Z) :=
  let '(v1, m1) := subscript render_view_map_ tab_id in
  let '(v2, m2) := subscript m1 tab_id in
  (FromID (fst v1) (snd v2), m2).

(** [TabHelper::GetTabById] (static), the overload that takes a browser
    context.  [IsSameContext] compares the context of a surface with the
    context asked for; [IdForTab_of] is [TabHelper::IdForTab]. *)
Definition GetTabById_in_context (FromID : Z → Z → option WebContents)
    (IsSameContext : WebContents → bool) (IdForTab_of : WebContents → Z)
    (tab_id : Z) (render_view_map_ : gmap Z (Z * Z))
  : option WebContents * gmap Z (Z * Z) :=
  let '(contents, m) := GetTabById FromID tab_id render_view_map_ in
  match contents with
  | Some c =>
      if IsSameContext c
      then if tab_id =? IdForTab_of c then (Some c, m) else (None, m)
      else (None, m)
  | None => (None, m)
  end.

(** [TabHelper::WebContentsDestroyed], given [session_id()], on the world
    and the table. *)
Definition WebContentsDestroyed (tab_session_id : Z) (self : WebContents)
    (s : World * gmap Z (Z * Z)) : option (unit * (World * gmap Z (Z * Z))) :=
  match (let* h := helper self in
         match browser h with
         | Some _ => SetBrowser self None
         | None => ret tt
         end) (fst s) with
  | Some (_, w') => Some (tt, (w', delete tab_session_id (snd s)))
  | None => None
  end.

(** ** Scenarios for tab values and creation parameters *)

(** A stored value that claims the id of the tab, and a value of the
    embedder's own. *)
Definition stored_values : gmap string Scalar :=
  {[ "id"%string := SInt 999 ]}.

Definition theme_values : gmap string Scalar :=
  {[ "theme"%string := SString "dark" ]}.

(** What the collaborators say about the loaded tab 0: tab id 42 in
    window 11, which has surface 0 active. *)
Definition real_tab_facts : TabFacts :=
  mkTabFacts 42 11 false "https://example.org/" (Some "Example"%string)
    false false true (λ _, Some 0%nat).

(** A profile derived from the default one. *)
Definition private_profile : Profile :=
  mkProfile "persist:private" (Some "persist:default"%string) true.

(** Creation parameters in which the caller asks for a partition. *)
Definition requested_params : gmap string Scalar :=
  {[ "partition"%string := SString "persist:default" ]}.

(** ** Proof support *)

Ltac unfold_monad :=
  unfold update_helper, update_guest, update_browser, helper, guest,
    browser_object, emit, PostTask, FromWebContents, GetLastActive,
    bind, ret, crash, gets, modify in *.

(** Projections of an updated world. *)
Ltac wsimpl :=
  cbn [helpers guests controllers browsers browser_list last_active discarded
       trying_to_quit posted_tasks trace with_helpers with_guests
       with_controllers with_browsers with_posted_tasks with_trace] in *.

(** Run the straight-line part of a body: reduce, and read every record back
    from the maps. *)
Ltac run := repeat (cbn; simplify_map_eq).

(** Equality of two maps that differ from a common one at [x] and [y]. *)
Ltac map_cases i x y :=
  apply map_eq; intros i;
  destruct (decide (i = x)) as [->|];
  [|destruct (decide (i = y)) as [->|]]; by simplify_map_eq.

(** Closed goals about the scenarios are settled by evaluation. *)
Ltac by_computation := vm_compute; reflexivity.

#[local] Arguments fresh_contents : simpl never.

Lemma with_helpers_id w : with_helpers (helpers w) w = w.
Proof. by destruct w. Qed.

(** Two worlds with the same components are the same world. *)
Lemma world_eq w1 w2 :
  helpers w1 = helpers w2 → guests w1 = guests w2 →
  controllers w1 = controllers w2 → browsers w1 = browsers w2 →
  browser_list w1 = browser_list w2 → last_active w1 = last_active w2 →
  discarded w1 = discarded w2 → trying_to_quit w1 = trying_to_quit w2 →
  posted_tasks w1 = posted_tasks w2 → trace w1 = trace w2 →
  w1 = w2.
Proof. destruct w1, w2. cbn. by intros -> -> -> -> -> -> -> -> -> ->. Qed.

(** *** Running and inverting a sequence *)

Lemma bind_run {A B} (m : M A) (k : A → M B) w a w1 :
  m w = Some (a, w1) → bind m k w = k a w1.
Proof. unfold bind. by intros ->. Qed.

Lemma helper_run w c h : helpers w !! c = Some h → helper c w = Some (h, w).
Proof. intros Hh. unfold_monad. by rewrite Hh. Qed.

Lemma get_tab_strip_index_run w self h b br :
  helpers w !! self = Some h → browser_ h = Some b →
  browsers w !! b = Some br →
  get_tab_strip_index self w
  = Some (GetIndexOfWebContents (tab_strip br) self, w).
Proof.
  intros Hh Hb Hbr. unfold get_tab_strip_index. unfold_monad.
  rewrite Hh. unfold browser. by rewrite Hb, Hbr.
Qed.

Lemma bind_inv {A B} (m : M A) (k : A → M B) w b w' :
  bind m k w = Some (b, w') →
  ∃ a w1, m w = Some (a, w1) ∧ k a w1 = Some (b, w').
Proof.
  unfold bind. destruct (m w) as [[a w1]|]; [|done]. intros Hk. eauto.
Qed.

Lemma helper_inv w c h w' :
  helper c w = Some (h, w') → w' = w ∧ helpers w !! c = Some h.
Proof.
  unfold_monad. destruct (helpers w !! c); [|done]. by intros [= <- <-].
Qed.

Lemma update_helper_inv w c f w' :
  update_helper c f w = Some (tt, w') →
  ∃ h, helpers w !! c = Some h ∧
       w' = with_helpers (<[c := f h]> (helpers w)) w.
Proof.
  unfold_monad. destruct (helpers w !! c) as [h|]; [|done].
  cbn. intros [= <-]. eauto.
Qed.

Lemma update_browser_inv w b f w' :
  update_browser b f w = Some (tt, w') →
  ∃ br, browsers w !! b = Some br ∧
        w' = with_browsers (<[b := f br]> (browsers w)) w.
Proof.
  unfold_monad. destruct (browsers w !! b) as [br|]; [|done].
  cbn. intros [= <-]. eauto.
Qed.


Lemma loads_app c t1 t2 : loads c (t1 ++ t2) = (loads c t1 + loads c t2)%nat.
Proof. apply count_occ_app. Qed.

Lemma fresh_contents_fresh w :
  helpers w !! fresh_contents w = None ∧
  guests w !! fresh_contents w = None ∧
  controllers w !! fresh_contents w = None.
Proof.
  pose proof (is_fresh (dom (helpers w) ∪ dom (guests w) ∪ dom (controllers w)))
    as Hf.
  fold (fresh_contents w) in Hf.
  rewrite !not_elem_of_union in Hf. destruct Hf as [[H1 H2] H3].
  apply not_elem_of_dom in H1. apply not_elem_of_dom in H2.
  apply not_elem_of_dom in H3. done.
Qed.

(** *** The strip index of a surface *)

Lemma index_from_range i c strip :
  c ∈ strip →
  i ≤ index_from i c strip < i + Z.of_nat (length strip) ∧
  strip !! Z.to_nat (index_from i c strip - i) = Some c.
Proof.
  revert i. induction strip as [|x rest IH]; intros i Hin.
  - by apply not_elem_of_nil in Hin.
  - cbn [index_from]. case_bool_decide as Hx.
    + subst x. rewrite Z.sub_diag. cbn. split; [lia|done].
    + apply elem_of_cons in Hin as [->|Hin]; [done|].
      destruct (IH (i + 1) Hin) as [Hr Hl]. cbn [length]. split; [lia|].
      replace (Z.to_nat (index_from (i + 1) c rest - i))
        with (S (Z.to_nat (index_from (i + 1) c rest - (i + 1)))) by lia.
      done.
Qed.

Lemma index_from_absent i c strip : c ∉ strip → index_from i c strip = kNoTab.
Proof.
  revert i. induction strip as [|x rest IH]; intros i Hn; [done|].
  cbn. apply not_elem_of_cons in Hn as [Hne Hn].
  rewrite bool_decide_eq_false_2 by done. by apply IH.
Qed.

Lemma GetIndexOfWebContents_contains strip c :
  c ∈ strip →
  ContainsIndex strip (GetIndexOfWebContents strip c) = true ∧
  strip !! Z.to_nat (GetIndexOfWebContents strip c) = Some c.
Proof.
  intros Hin. unfold GetIndexOfWebContents, ContainsIndex.
  destruct (index_from_range 0 c strip Hin) as [Hr Hl].
  rewrite Z.sub_0_r in Hl. split; [|done].
  apply andb_true_iff. split; [apply Z.leb_le|apply Z.ltb_lt]; lia.
Qed.

Lemma GetIndexOfWebContents_absent strip c :
  c ∉ strip → ContainsIndex strip (GetIndexOfWebContents strip c) = false.
Proof.
  intros Hn. unfold GetIndexOfWebContents. by rewrite index_from_absent.
Qed.

Lemma get_tab_strip_index_pure w c i w' :
  get_tab_strip_index c w = Some (i, w') → w' = w.
Proof.
  unfold get_tab_strip_index. unfold_monad. intros H.
  repeat (case_match; simplify_eq); done.
Qed.

Lemma GetTabStripIndex_from_pure tabs window_id index w i w' :
  GetTabStripIndex_from tabs window_id index w = Some (i, w') → w' = w.
Proof.
  induction tabs as [|c rest IH]; cbn [GetTabStripIndex_from].
  - unfold ret. by intros [= _ <-].
  - unfold bind, FromWebContents, gets.
    destruct (helpers w !! c) as [h|]; [|done].
    case_match; [|done]. apply get_tab_strip_index_pure.
Qed.

Lemma GetTabStripIndex_pure window_id index w i w' :
  GetTabStripIndex window_id index w = Some (i, w') → w' = w.
Proof.
  unfold GetTabStripIndex, bind, TabContentsIterator, gets.
  apply GetTabStripIndex_from_pure.
Qed.

(** *** Reconciliation *)

Section Reconciliation.
Context (w : World) (self : WebContents) (h : TabHelper) (g : TabViewGuest).
Hypothesis Hh : helpers w !! self = Some h.
Hypothesis Hg : guests w !! self = Some g.

Lemma MaybeAttachOrCreatePinnedTab_ready :
  promotion_ready w h g →
  MaybeAttachOrCreatePinnedTab self w = Some (tt, promoted self h g w).
Proof using Hh Hg.
  intros (Hp & Hph & Ha & Hc & Hb).
  unfold MaybeAttachOrCreatePinnedTab, SetPlaceholder. unfold_monad.
  rewrite Hh. cbn. rewrite Hc, Hp, Hph. cbn. rewrite Hg. cbn. rewrite Ha. cbn.
  rewrite bool_decide_eq_true_2 by done. cbn.
  rewrite Hh. cbn. rewrite Hg. cbn.
  unfold promoted, with_trace, with_guests, with_helpers. cbn.
  rewrite <- app_assoc. reflexivity.
Qed.

Lemma MaybeAttachOrCreatePinnedTab_skip :
  ¬ promotion_ready w h g →
  MaybeAttachOrCreatePinnedTab self w = Some (tt, w).
Proof using Hh Hg.
  intros Hn.
  unfold MaybeAttachOrCreatePinnedTab. unfold_monad.
  rewrite Hh. cbn.
  destruct (window_closing_ h) eqn:Hc; [done|].
  destruct (is_pinned h) eqn:Hp; [|done].
  destruct (is_placeholder h) eqn:Hph; [|done].
  cbn. rewrite Hg. cbn.
  destruct (attached g) eqn:Ha; [|done].
  cbn. case_bool_decide as Hb; [|done].
  exfalso. apply Hn. unfold promotion_ready. done.
Qed.

Lemma promoted_helper :
  helpers (promoted self h g w) !! self = Some (set_is_placeholder_ false h).
Proof. cbn. apply lookup_insert_eq. Qed.

Lemma promoted_loads :
  loads self (trace (promoted self h g w)) = S (loads self (trace w)).
Proof.
  change (trace (promoted self h g w))
    with (trace w ++ [UserGestureDone self; Load self]).
  rewrite loads_app. unfold loads at 2.
  rewrite count_occ_cons_neq by discriminate.
  rewrite count_occ_cons_eq by reflexivity. cbn. lia.
Qed.

Lemma promoted_changes : promoted self h g w ≠ w.
Proof.
  intros Heq. apply (f_equal (λ x, length (trace x))) in Heq.
  cbn in Heq. rewrite length_app in Heq. cbn in Heq. lia.
Qed.
End Reconciliation.

Lemma MaybeAttachOrCreatePinnedTab_cases w self w' :
  MaybeAttachOrCreatePinnedTab self w = Some (tt, w') →
  w' = w ∨
  ∃ h g, helpers w !! self = Some h ∧ guests w !! self = Some g ∧
         promotion_ready w h g ∧ w' = promoted self h g w.
Proof.
  intros H.
  destruct (helpers w !! self) as [h|] eqn:Hh; cycle 1.
  { unfold MaybeAttachOrCreatePinnedTab in H. unfold_monad. by rewrite Hh in H. }
  destruct (window_closing_ h || negb (is_pinned h) || negb (is_placeholder h))
    eqn:Hfast.
  { left. unfold MaybeAttachOrCreatePinnedTab in H. unfold_monad.
    rewrite Hh in H. cbn in H. rewrite Hfast in H. congruence. }
  destruct (guests w !! self) as [g|] eqn:Hg; cycle 1.
  { unfold MaybeAttachOrCreatePinnedTab in H. unfold_monad.
    rewrite Hh in H. cbn in H. rewrite Hfast in H. cbn in H. by rewrite Hg in H. }
  destruct (decide (promotion_ready w h g)) as [Hr|Hn].
  - rewrite (MaybeAttachOrCreatePinnedTab_ready w self h g Hh Hg Hr) in H.
    right. exists h, g. by simplify_eq.
  - rewrite (MaybeAttachOrCreatePinnedTab_skip w self h g Hh Hg Hn) in H.
    left. by simplify_eq.
Qed.

(** Scenario A: the placeholder sits in window 1 while window 2 is last
    active, and stays a placeholder. *)
Example scenario_A_not_promoted :
  MaybeAttachOrCreatePinnedTab 0%nat scenario_A = Some (tt, scenario_A).
Proof. by_computation. Qed.

(** Scenario B: window 1 is last active; the placeholder is promoted and one
    load is issued. *)
Example scenario_B_promoted :
  let w' := world_after (MaybeAttachOrCreatePinnedTab 0%nat) scenario_B in
  MaybeAttachOrCreatePinnedTab 0%nat scenario_B = Some (tt, w') ∧
  helpers w' !! 0%nat = Some pinned_real_tab ∧
  trace w' = [UserGestureDone 0; Load 0].
Proof.
  intros w'. split; [by_computation|]. split; by_computation.
Qed.

(** C1, as the code has it.  [MaybeAttachOrCreatePinnedTab] promotes the tab
    if and only if it is pinned, a placeholder, its guest is attached, no
    window close is pending on it and its window pointer equals the
    registry's last-active window pointer.  The two pointers are equal when
    the tab's owning window is the last-active window, and also when the tab
    has no window and no window is last active.  A promotion clears
    [is_placeholder_], lets the guest run detached again, signals that the
    user gesture is done and issues exactly one load; when a precondition
    fails the call returns the world it was given. *)
Theorem MaybeAttachOrCreatePinnedTab_promotes_iff w self h g :
  helpers w !! self = Some h → guests w !! self = Some g →
  (promotion_ready w h g ↔
     MaybeAttachOrCreatePinnedTab self w = Some (tt, promoted self h g w)) ∧
  (¬ promotion_ready w h g →
     MaybeAttachOrCreatePinnedTab self w = Some (tt, w)) ∧
  is_placeholder_ <$> helpers (promoted self h g w) !! self = Some false ∧
  can_run_in_detached_state <$> guests (promoted self h g w) !! self
    = Some true ∧
  trace (promoted self h g w) = trace w ++ [UserGestureDone self; Load self] ∧
  loads self (trace (promoted self h g w)) = S (loads self (trace w)) ∧
  (promotion_ready w h g ↔
     is_pinned h = true ∧ is_placeholder h = true ∧ attached g = true ∧
     window_closing_ h = false ∧
     (owning_window_last_active w h ∨
      browser_ h = None ∧ last_active w = None)).
Proof.
  intros Hh Hg. split; [split|].
  - by apply MaybeAttachOrCreatePinnedTab_ready.
  - intros Hrun. destruct (decide (promotion_ready w h g)) as [|Hn]; [done|].
    rewrite (MaybeAttachOrCreatePinnedTab_skip w self h g Hh Hg Hn) in Hrun.
    exfalso. apply (promoted_changes w self h g). congruence.
  - split; [by apply MaybeAttachOrCreatePinnedTab_skip|].
    split; [by rewrite promoted_helper|].
    split; [cbn; by rewrite lookup_insert_eq|].
    split; [done|]. split; [apply promoted_loads|].
    unfold promotion_ready, owning_window_last_active. split.
    + intros (Hp & Hph & Ha & Hc & Hb). repeat (split; [done|]).
      destruct (browser_ h) as [b|] eqn:Hbh.
      * left. exists b. done.
      * right. done.
    + intros (Hp & Hph & Ha & Hc & Hb). repeat (split; [done|]).
      destruct Hb as [(b & Hbh & Hl)|[Hbh Hl]]; congruence.
Qed.

Lemma MaybeAttachOrCreatePinnedTab_promotes_iff_witness :
  helpers scenario_B !! 0%nat = Some pinned_placeholder ∧
  guests scenario_B !! 0%nat = Some attached_guest ∧
  MaybeAttachOrCreatePinnedTab 0%nat scenario_B
    = Some (tt, promoted 0%nat pinned_placeholder attached_guest scenario_B) ∧
  loads 0%nat (trace (promoted 0%nat pinned_placeholder attached_guest scenario_B))
    = 1%nat.
Proof.
  split; [reflexivity|]. split; [reflexivity|].
  destruct (MaybeAttachOrCreatePinnedTab_promotes_iff
              scenario_B 0%nat pinned_placeholder attached_guest
              eq_refl eq_refl) as (Hiff & _ & _ & _ & _ & Hloads & _).
  split; [apply Hiff; by vm_compute|].
  rewrite Hloads. by_computation.
Defined.

(** C1, as stated, fails.  The pinned placeholder of [orphan_world] belongs
    to no window and no window is last active: its owning window is not the
    last-active window, and yet reconciliation promotes it, clears
    [is_placeholder_] and issues a load. *)
Lemma MaybeAttachOrCreatePinnedTab_promotes_tab_without_window :
  let w' := world_after (MaybeAttachOrCreatePinnedTab 0%nat) orphan_world in
  helpers orphan_world !! 0%nat = Some orphan_placeholder ∧
  browser_ orphan_placeholder = None ∧
  ¬ owning_window_last_active orphan_world orphan_placeholder ∧
  MaybeAttachOrCreatePinnedTab 0%nat orphan_world = Some (tt, w') ∧
  is_placeholder_ <$> helpers w' !! 0%nat = Some false ∧
  trace orphan_world = [] ∧
  trace w' = [UserGestureDone 0; Load 0].
Proof.
  intros w'. split; [by_computation|]. split; [reflexivity|].
  split; [intros (b & Hb & _); discriminate Hb|].
  split; [by_computation|]. split; [by_computation|].
  split; by_computation.
Qed.

(** C6.  A second [MaybeAttachOrCreatePinnedTab] right after a first one
    returns the world the first one left: whether the first call promoted or
    skipped, the pair of calls has the effect of one, and no second load is
    issued. *)
Theorem MaybeAttachOrCreatePinnedTab_idempotent w self w1 :
  MaybeAttachOrCreatePinnedTab self w = Some (tt, w1) →
  MaybeAttachOrCreatePinnedTab self w1 = Some (tt, w1) ∧
  (MaybeAttachOrCreatePinnedTab self >> MaybeAttachOrCreatePinnedTab self) w
    = MaybeAttachOrCreatePinnedTab self w.
Proof.
  intros H.
  cut (MaybeAttachOrCreatePinnedTab self w1 = Some (tt, w1)).
  { intros H2. split; [done|]. unfold bind. by rewrite H. }
  destruct (MaybeAttachOrCreatePinnedTab_cases w self w1 H)
    as [->|(h & g & Hh & Hg & Hr & ->)]; [done|].
  unfold MaybeAttachOrCreatePinnedTab. unfold_monad.
  rewrite promoted_helper. cbn. by rewrite !orb_true_r.
Qed.

Lemma MaybeAttachOrCreatePinnedTab_idempotent_witness :
  let w1 := promoted 0%nat pinned_placeholder attached_guest scenario_B in
  MaybeAttachOrCreatePinnedTab 0%nat scenario_B = Some (tt, w1) ∧
  MaybeAttachOrCreatePinnedTab 0%nat w1 = Some (tt, w1) ∧
  loads 0%nat (trace w1) = 1%nat.
Proof.
  intros w1.
  assert (MaybeAttachOrCreatePinnedTab 0%nat scenario_B = Some (tt, w1))
    as Hfirst by by_computation.
  split; [exact Hfirst|]. split; [|by_computation].
  exact (proj1 (MaybeAttachOrCreatePinnedTab_idempotent
                  scenario_B 0%nat w1 Hfirst)).
Defined.

(** C10.  A strip callback about another surface returns at its first test:
    the world, and with it every member of this record, every observer list
    and the trace of requests, is the one it was given. *)
Theorem strip_callbacks_for_other_surface_do_nothing
    w self strip old_contents new_contents contents index :
  old_contents ≠ self → contents ≠ self →
  TabReplacedAt self strip old_contents new_contents index w = Some (tt, w) ∧
  TabDetachedAt self contents index w = Some (tt, w) ∧
  TabPinnedStateChanged self strip contents index w = Some (tt, w).
Proof.
  intros Ho Hc.
  unfold TabReplacedAt, TabDetachedAt, TabPinnedStateChanged.
  rewrite !bool_decide_eq_true_2 by done. done.
Qed.

Lemma strip_callbacks_for_other_surface_do_nothing_witness :
  3%nat ≠ 0%nat ∧
  TabReplacedAt 0%nat 1%nat 3%nat 4%nat 0 scenario_B = Some (tt, scenario_B) ∧
  TabDetachedAt 0%nat 3%nat 0 scenario_B = Some (tt, scenario_B) ∧
  TabPinnedStateChanged 0%nat 1%nat 3%nat 0 scenario_B = Some (tt, scenario_B).
Proof.
  split; [lia|].
  apply (strip_callbacks_for_other_surface_do_nothing
           scenario_B 0%nat 1%nat 3%nat 4%nat 3%nat 0); lia.
Defined.

(** *** Attach notification *)

Lemma MaybeRequestWindowClose_run w self h :
  helpers w !! self = Some h →
  MaybeRequestWindowClose self w
  = Some (tt, with_trace (trace w ++ close_request h) w).
Proof.
  intros Hh. unfold MaybeRequestWindowClose, close_request. unfold_monad.
  rewrite Hh. cbn.
  destruct (window_closing_ h); [destruct (browser h)|]; cbn;
    rewrite ?app_nil_r; by destruct w.
Qed.

Lemma close_request_closing h b :
  window_closing_ h = true → browser_ h = Some b →
  close_request h = [RequestToClosePage b].
Proof. intros Hc Hb. unfold close_request, browser. by rewrite Hc, Hb. Qed.

Lemma close_request_idle h : window_closing_ h = false → close_request h = [].
Proof. intros Hc. unfold close_request. by rewrite Hc. Qed.

Lemma close_request_only_closes h e :
  e ∈ close_request h → ∃ b, e = RequestToClosePage b.
Proof.
  unfold close_request. repeat case_match; intros He;
    try (by apply not_elem_of_nil in He).
  apply list_elem_of_singleton in He. eauto.
Qed.

Lemma attach_prologue_run w self h g :
  helpers w !! self = Some h → guests w !! self = Some g →
  attach_prologue self w
  = Some (tt, with_guests
                (<[self := set_can_run_in_detached_state false g]> (guests w))
                (with_trace (trace w ++ close_request h) w)).
Proof.
  intros Hh Hg. unfold attach_prologue, bind at 1.
  rewrite (MaybeRequestWindowClose_run w self h Hh).
  unfold_monad. wsimpl. by rewrite Hg.
Qed.

(** C5.  On a placeholder, [DidAttach] takes exactly one of two branches.
    Not pinned and not discarded: the destruction of the surface is posted
    to the task runner, and nothing is destroyed or loaded during the
    notification.  Pinned or discarded: [MaybeAttachOrCreatePinnedTab] runs
    instead, and nothing is posted. *)
Theorem DidAttach_placeholder_branches w self h g :
  helpers w !! self = Some h → guests w !! self = Some g →
  is_placeholder h = true →
  ((pinned_ h = false ∧ self ∉ discarded w) ∨
   (pinned_ h = true ∨ self ∈ discarded w)) ∧
  ¬ ((pinned_ h = false ∧ self ∉ discarded w) ∧
     (pinned_ h = true ∨ self ∈ discarded w)) ∧
  (pinned_ h = false ∧ self ∉ discarded w →
     DidAttach self w
       = (attach_prologue self >> PostTask (DestroyTabTask self)) w ∧
     ∃ w', DidAttach self w = Some (tt, w') ∧
           posted_tasks w' = posted_tasks w ++ [DestroyTabTask self] ∧
           helpers w' = helpers w ∧
           (∀ e, e ∈ trace w' → e ∈ trace w ∨ ∃ b, e = RequestToClosePage b) ∧
           (Destroy self ∈ trace w' → Destroy self ∈ trace w)) ∧
  (pinned_ h = true ∨ self ∈ discarded w →
     DidAttach self w
       = (attach_prologue self >> MaybeAttachOrCreatePinnedTab self) w ∧
     ∃ w', DidAttach self w = Some (tt, w') ∧
           posted_tasks w' = posted_tasks w).
Proof.
  intros Hh Hg Hph.
  pose proof (attach_prologue_run w self h g Hh Hg) as Hpro.
  set (w1 := with_guests
               (<[self := set_can_run_in_detached_state false g]> (guests w))
               (with_trace (trace w ++ close_request h) w)) in *.
  assert (∀ k : M unit, (attach_prologue self >> k) w = k w1) as Hseq.
  { intros k. unfold bind at 1. by rewrite Hpro. }
  assert (DidAttach self w =
          (if negb (pinned_ h) && negb (bool_decide (self ∈ discarded w))
           then PostTask (DestroyTabTask self)
           else MaybeAttachOrCreatePinnedTab self) w1) as Hdid.
  { unfold DidAttach. unfold bind at 1.
    rewrite (MaybeRequestWindowClose_run w self h Hh).
    unfold IsDiscarded. unfold_monad. wsimpl. rewrite Hh. cbv beta iota.
    rewrite Hph. wsimpl. rewrite Hg. cbv beta iota. wsimpl. rewrite Hh.
    reflexivity. }
  split.
  { destruct (pinned_ h); [right; by left|].
    destruct (decide (self ∈ discarded w)); [right; by right|by left]. }
  split.
  { intros [[Hpin Hnd] [Hpin'|Hd]]; [congruence|done]. }
  split.
  - intros [Hpin Hnd]. rewrite Hseq, Hdid, Hpin.
    rewrite bool_decide_eq_false_2 by done. cbn [negb andb]. split; [done|].
    eexists. split; [reflexivity|]. subst w1. wsimpl.
    split; [done|]. split; [done|].
    assert (∀ e, e ∈ trace w ++ close_request h →
                 e ∈ trace w ∨ ∃ b, e = RequestToClosePage b) as Hev.
    { intros e [He|He]%elem_of_app; [by left|right].
      by apply close_request_only_closes in He. }
    split; [done|]. intros Hd. by destruct (Hev _ Hd) as [?|[b [=]]].
  - intros Hor. rewrite Hseq, Hdid.
    assert (negb (pinned_ h) && negb (bool_decide (self ∈ discarded w)) = false)
      as ->.
    { destruct Hor as [->|Hin]; [done|].
      rewrite (bool_decide_eq_true_2 _ Hin). by rewrite andb_false_r. }
    split; [done|].
    assert (helpers w1 !! self = Some h) as Hh1 by done.
    assert (guests w1 !! self = Some (set_can_run_in_detached_state false g))
      as Hg1 by (subst w1; wsimpl; apply lookup_insert_eq).
    destruct (decide (promotion_ready w1 h
                        (set_can_run_in_detached_state false g))).
    + eexists. split; [by apply MaybeAttachOrCreatePinnedTab_ready|]. done.
    + eexists. split; [by eapply MaybeAttachOrCreatePinnedTab_skip|]. done.
Qed.

Lemma DidAttach_placeholder_branches_witness :
  helpers moved_tab_world !! 0%nat = Some move_placeholder ∧
  guests moved_tab_world !! 0%nat = Some attached_guest ∧
  is_placeholder move_placeholder = true ∧
  (pinned_ move_placeholder = false ∧ 0%nat ∉ discarded moved_tab_world) ∧
  ∃ w', DidAttach 0%nat moved_tab_world = Some (tt, w') ∧
        posted_tasks w' = posted_tasks moved_tab_world ++ [DestroyTabTask 0] ∧
        helpers w' = helpers moved_tab_world.
Proof.
  split; [reflexivity|]. split; [reflexivity|]. split; [reflexivity|].
  assert (pinned_ move_placeholder = false ∧ 0%nat ∉ discarded moved_tab_world)
    as Hcase by (split; [reflexivity|set_solver]).
  split; [exact Hcase|].
  destruct (DidAttach_placeholder_branches
              moved_tab_world 0%nat move_placeholder attached_guest
              eq_refl eq_refl eq_refl) as (_ & _ & Hpost & _).
  destruct (Hpost Hcase) as (_ & w' & Hrun & Hposted & Hsame & _).
  exists w'. done.
Defined.

(** A pinned placeholder that attaches in the last-active window is promoted
    by [DidAttach], and nothing is posted. *)
Example DidAttach_scenario_B :
  let w' := world_after (DidAttach 0%nat) scenario_B in
  DidAttach 0%nat scenario_B = Some (tt, w') ∧
  posted_tasks w' = [] ∧ trace w' = [UserGestureDone 0; Load 0].
Proof.
  intros w'. split; [by_computation|]. split; by_computation.
Qed.

(** *** Posted destruction *)

Lemma DestroyTab_run w tab g :
  guests w !! tab = Some g →
  DestroyTab tab w = Some (tt, with_trace (trace w ++ [Destroy tab]) w).
Proof. intros Hg. unfold DestroyTab. unfold_monad. by rewrite Hg. Qed.

(** C3, as the code has it.  A posted destruction task does not look at the
    record when it runs: it asks the guest of its surface to destroy itself,
    whatever [is_placeholder_] says by then.  The flag is read once, by
    [DidAttach], when the task is posted. *)
Theorem posted_destruction_ignores_placeholder_flag w tab rest g :
  posted_tasks w = DestroyTabTask tab :: rest →
  guests w !! tab = Some g →
  RunNextTask w
    = Some (tt, with_trace (trace w ++ [Destroy tab])
                  (with_posted_tasks rest w)) ∧
  ∀ h flag, helpers w !! tab = Some h →
    let w' := with_helpers (<[tab := set_is_placeholder_ flag h]> (helpers w)) w in
    RunNextTask w'
      = Some (tt, with_trace (trace w ++ [Destroy tab])
                    (with_posted_tasks rest w')).
Proof.
  intros Hq Hg. split.
  - unfold RunNextTask, bind at 1, gets. rewrite Hq. unfold bind, modify.
    cbn. by rewrite (DestroyTab_run _ _ g).
  - intros h flag Hh w'. unfold RunNextTask, bind at 1, gets.
    subst w'. cbn [posted_tasks with_helpers]. rewrite Hq.
    unfold bind, modify. cbn. by rewrite (DestroyTab_run _ _ g).
Qed.

Lemma posted_destruction_ignores_placeholder_flag_witness :
  posted_tasks promoted_with_task = DestroyTabTask 0 :: [] ∧
  guests promoted_with_task !! 0%nat = Some attached_guest ∧
  is_placeholder_ <$> helpers promoted_with_task !! 0%nat = Some false ∧
  RunNextTask promoted_with_task
    = Some (tt, with_trace (trace promoted_with_task ++ [Destroy 0])
                  (with_posted_tasks [] promoted_with_task)).
Proof.
  split; [reflexivity|]. split; [reflexivity|]. split; [reflexivity|].
  exact (proj1 (posted_destruction_ignores_placeholder_flag
                  promoted_with_task 0%nat [] attached_guest
                  eq_refl eq_refl)).
Defined.

(** C3, as stated, fails.  The unpinned placeholder 0 attaches and its
    destruction is posted; it is then pinned, which loads it and marks it a
    placeholder again; window 1 becomes last active and reconciliation
    promotes it to real content; the posted task, when it runs, destroys it
    all the same. *)
Lemma posted_destruction_destroys_promoted_tab :
  let w1 := world_after (DidAttach 0%nat) moved_tab_world in
  let w2 := world_after (SetPinned 0%nat true) w1 in
  let w3 := world_after (OnBrowserSetLastActive 0%nat 1%nat) w2 in
  let w4 := world_after RunNextTask w3 in
  DidAttach 0%nat moved_tab_world = Some (tt, w1) ∧
  posted_tasks w1 = [DestroyTabTask 0] ∧
  SetPinned 0%nat true w1 = Some (tt, w2) ∧
  OnBrowserSetLastActive 0%nat 1%nat w2 = Some (tt, w3) ∧
  is_placeholder_ <$> helpers w3 !! 0%nat = Some false ∧
  trace w3 = [SetTabPinned 1 0 true; UserGestureDone 0; Load 0;
              UserGestureDone 0; Load 0] ∧
  posted_tasks w3 = [DestroyTabTask 0] ∧
  RunNextTask w3 = Some (tt, w4) ∧
  trace w4 = [SetTabPinned 1 0 true; UserGestureDone 0; Load 0;
              UserGestureDone 0; Load 0; Destroy 0].
Proof.
  intros w1 w2 w3 w4.
  split; [by_computation|]. split; [by_computation|].
  split; [by_computation|]. split; [by_computation|].
  split; [by_computation|]. split; [by_computation|].
  split; [by_computation|]. split; by_computation.
Qed.

(** *** Window close *)

(** C4, as the code has it.  [WillCloseWindow] always clears the pending
    close of the record and never writes [*prevent_default]: the close is
    not vetoed.  In the protected state it also asks the window to deactivate
    and to hide; otherwise it makes no request.  Nothing else changes, so
    when no close was pending and the tab is not protected the world is the
    one it was given. *)
Theorem WillCloseWindow_hides_without_veto w self h prevent_default :
  helpers w !! self = Some h →
  let w0 := with_helpers (<[self := set_window_closing_ false h]> (helpers w)) w in
  (∀ b, browser h = Some b → close_protected w h →
     WillCloseWindow self prevent_default w
       = Some (prevent_default,
               with_trace (trace w ++ [Deactivate b; Hide b]) w0)) ∧
  (¬ close_protected w h →
     WillCloseWindow self prevent_default w = Some (prevent_default, w0)) ∧
  (window_closing_ h = false → w0 = w).
Proof.
  intros Hh w0. repeat split.
  - intros b Hb (_ & Hp & Hph & Hq & Hn).
    unfold WillCloseWindow, IsTryingToQuit, BrowserList_size. unfold_monad.
    rewrite Hh. cbn -[Nat.ltb]. rewrite lookup_insert_eq. cbn -[Nat.ltb].
    unfold browser in *. cbn -[Nat.ltb]. rewrite Hb.
    unfold is_pinned, is_placeholder in *. cbn -[Nat.ltb]. rewrite Hp, Hph, Hq.
    apply Nat.ltb_lt in Hn. rewrite Hn. cbn.
    unfold with_trace. cbn. by rewrite <- app_assoc.
  - intros Hn.
    unfold WillCloseWindow, IsTryingToQuit, BrowserList_size. unfold_monad.
    rewrite Hh. cbn -[Nat.ltb]. rewrite lookup_insert_eq. cbn -[Nat.ltb].
    unfold browser in *. cbn -[Nat.ltb].
    destruct (browser_ h) as [b|] eqn:Hb; [|done].
    destruct (pinned_ h && negb (is_placeholder_ h) && negb (trying_to_quit w)
              && (1 <? length (browser_list w))%nat) eqn:Hc; [|done].
    exfalso. apply Hn.
    repeat (apply andb_true_iff in Hc as [Hc ?]).
    unfold close_protected, browser, is_pinned, is_placeholder in *. cbn in *.
    rewrite Hb. repeat split; eauto.
    + by apply negb_true_iff.
    + by apply negb_true_iff.
    + by apply Nat.ltb_lt.
  - intros Hc. subst w0.
    replace (set_window_closing_ false h) with h
      by (destruct h; cbn in *; by subst).
    rewrite insert_id by done. apply with_helpers_id.
Qed.

Lemma close_protected_scenario_C : close_protected scenario_C pinned_real_tab.
Proof.
  unfold close_protected. repeat split; try reflexivity; [by eexists|].
  cbn. lia.
Defined.

Lemma WillCloseWindow_hides_without_veto_witness :
  helpers scenario_C !! 0%nat = Some pinned_real_tab ∧
  browser pinned_real_tab = Some 1%nat ∧
  close_protected scenario_C pinned_real_tab ∧
  WillCloseWindow 0%nat false scenario_C
    = Some (false, with_trace [Deactivate 1; Hide 1] scenario_C).
Proof.
  split; [reflexivity|]. split; [reflexivity|].
  split; [exact close_protected_scenario_C|].
  destruct (WillCloseWindow_hides_without_veto
              scenario_C 0%nat pinned_real_tab false eq_refl)
    as (Hprot & _ & Hsame).
  rewrite (Hprot 1%nat eq_refl close_protected_scenario_C).
  rewrite (Hsame eq_refl). by_computation.
Defined.

(** C4, as stated, fails.  In scenario C the protected tab 0 is hidden, but
    [*prevent_default] comes back [false]: the close goes ahead.  Tab 3 is
    not protected, yet the call changes its record: the pending close is
    cleared. *)
Lemma WillCloseWindow_neither_vetoes_nor_leaves_state :
  close_protected scenario_C pinned_real_tab ∧
  fst <$> WillCloseWindow 0%nat false scenario_C = Some false ∧
  ¬ close_protected scenario_C closing_tab ∧
  window_closing_ <$> helpers scenario_C !! 3%nat = Some true ∧
  (∃ w', WillCloseWindow 3%nat false scenario_C = Some (false, w') ∧
         window_closing_ <$> helpers w' !! 3%nat = Some false) ∧
  WillCloseWindow 3%nat false scenario_C ≠ Some (false, scenario_C).
Proof.
  split; [exact close_protected_scenario_C|]. split; [by_computation|].
  split; [intros (_ & Hp & _); discriminate Hp|]. split; [by_computation|].
  split.
  { exists (world_after (WillCloseWindow 3%nat false) scenario_C).
    split; by_computation. }
  intros Heq.
  apply (f_equal (λ r, window_closing_ <$> (r ≫= λ p, helpers p.2 !! 3%nat)))
    in Heq.
  vm_compute in Heq. discriminate Heq.
Qed.

(** *** Pinning *)

Lemma candidate_promotion_ready w h g :
  reconciliation_candidate h → attached g = true → window_closing_ h = false →
  browser_ h = last_active w → promotion_ready w h g.
Proof. intros [??] ???. by unfold promotion_ready. Qed.

(** **** The strip's report of a pin-state change *)

Lemma TabPinnedStateChanged_own w self strip index :
  TabPinnedStateChanged self strip self index w
  = MaybeAttachOrCreatePinnedTab self w.
Proof.
  unfold TabPinnedStateChanged.
  by rewrite bool_decide_eq_false_2 by (intros Hx; by apply Hx).
Qed.

Lemma TabPinnedStateChanged_other w observer strip contents index :
  contents ≠ observer →
  TabPinnedStateChanged observer strip contents index w = Some (tt, w).
Proof.
  intros Hne. unfold TabPinnedStateChanged.
  by rewrite bool_decide_eq_true_2.
Qed.

(** A report that finds nothing to do at the surface it is about finds
    nothing to do at all. *)
Lemma NotifyTabPinnedStateChanged_skip observers strip self index w :
  MaybeAttachOrCreatePinnedTab self w = Some (tt, w) →
  NotifyTabPinnedStateChanged observers strip self index w = Some (tt, w).
Proof.
  intros Hskip. induction observers as [|o rest IH]; [done|].
  cbn [NotifyTabPinnedStateChanged].
  destruct (decide (self = o)) as [<-|Hne].
  - rewrite (bind_run _ _ w tt w); [exact IH|].
    by rewrite TabPinnedStateChanged_own.
  - rewrite (bind_run _ _ w tt w); [exact IH|].
    by apply TabPinnedStateChanged_other.
Qed.

(** A report to observers the surface is not among changes nothing. *)
Lemma NotifyTabPinnedStateChanged_absent observers strip self index w :
  self ∉ observers →
  NotifyTabPinnedStateChanged observers strip self index w = Some (tt, w).
Proof.
  induction observers as [|o rest IH]; intros Hout; [done|].
  apply not_elem_of_cons in Hout as [Hne Hout].
  cbn [NotifyTabPinnedStateChanged].
  rewrite (bind_run _ _ w tt w); [by apply IH|].
  by apply TabPinnedStateChanged_other.
Qed.

Lemma MaybeAttachOrCreatePinnedTab_after_promotion w self h g :
  MaybeAttachOrCreatePinnedTab self (promoted self h g w)
  = Some (tt, promoted self h g w).
Proof.
  unfold MaybeAttachOrCreatePinnedTab. unfold_monad.
  rewrite promoted_helper. cbn. by rewrite !orb_true_r.
Qed.

(** A report that reaches a record ready for a promotion promotes it,
    once. *)
Lemma NotifyTabPinnedStateChanged_promotes observers strip self index w h g :
  self ∈ observers →
  helpers w !! self = Some h → guests w !! self = Some g →
  promotion_ready w h g →
  NotifyTabPinnedStateChanged observers strip self index w
  = Some (tt, promoted self h g w).
Proof.
  intros Hin Hh Hg Hready.
  induction observers as [|o rest IH]; [by apply not_elem_of_nil in Hin|].
  cbn [NotifyTabPinnedStateChanged].
  destruct (decide (self = o)) as [<-|Hne].
  - rewrite (bind_run _ _ w tt (promoted self h g w)).
    + apply NotifyTabPinnedStateChanged_skip.
      apply MaybeAttachOrCreatePinnedTab_after_promotion.
    + rewrite TabPinnedStateChanged_own.
      by apply MaybeAttachOrCreatePinnedTab_ready.
  - rewrite (bind_run _ _ w tt w).
    + apply IH. apply elem_of_cons in Hin as [?|?]; done.
    + by apply TabPinnedStateChanged_other.
Qed.

(** The request reaches the strip, which records it and reports to its
    observers. *)
Lemma TabStripModel_SetTabPinned_run w b br self pinned :
  browsers w !! b = Some br → self ∈ tab_strip br →
  TabStripModel_SetTabPinned b (GetIndexOfWebContents (tab_strip br) self)
    pinned w
  = NotifyTabPinnedStateChanged (strip_observers br) b self
      (GetIndexOfWebContents (tab_strip br) self)
      (with_trace
         (trace w ++ [SetTabPinned b
                        (GetIndexOfWebContents (tab_strip br) self) pinned])
         w).
Proof.
  intros Hbr Hin.
  destruct (GetIndexOfWebContents_contains _ _ Hin) as [Hci Hslot].
  unfold TabStripModel_SetTabPinned.
  rewrite (bind_run _ _ w br w) by (unfold_monad; by rewrite Hbr).
  rewrite Hci. unfold bind at 1, emit, modify. by rewrite Hslot.
Qed.

(** **** What [SetPinned] leaves *)

(** [SetPinned] up to the point where the strip has answered, in terms of
    the world [w2] in which the strip's report ends. *)
Lemma SetPinned_after_report w self h pinned w2 :
  helpers w !! self = Some h → pinned ≠ pinned_ h →
  in_own_strip w self h →
  (∀ b br, browser_ h = Some b → browsers w !! b = Some br →
     NotifyTabPinnedStateChanged (strip_observers br) b self
       (GetIndexOfWebContents (tab_strip br) self)
       (with_trace (trace w ++ pin_request w self h pinned)
          (with_helpers (<[self := set_pinned_ pinned h]> (helpers w)) w))
     = Some (tt, w2)) →
  (browser_ h = None →
     w2 = with_trace (trace w ++ pin_request w self h pinned)
            (with_helpers (<[self := set_pinned_ pinned h]> (helpers w)) w)) →
  SetPinned self pinned w
  = (let* h := helper self in
     if pinned_ h then SetPlaceholder self true
     else SetPlaceholder self false) w2.
Proof.
  intros Hh Hne Hown Hreport Hnone.
  set (w1 := with_helpers (<[self := set_pinned_ pinned h]> (helpers w)) w).
  assert (helpers w1 !! self = Some (set_pinned_ pinned h)) as Hh1
    by (subst w1; wsimpl; apply lookup_insert_eq).
  unfold SetPinned.
  rewrite (bind_run _ _ _ _ _ (helper_run w self h Hh)). cbv beta.
  rewrite bool_decide_eq_false_2 by done.
  rewrite (bind_run _ _ w tt w1) by (unfold_monad; by rewrite Hh).
  rewrite (bind_run _ _ _ _ _ (helper_run w1 self _ Hh1)). cbv beta.
  rewrite (bind_run _ _ w1 tt w2); [reflexivity|].
  unfold browser. cbn [browser_ set_pinned_].
  destruct (browser_ h) as [b|] eqn:Hb.
  - destruct (Hown b Hb) as (br & Hbr & Hin).
    rewrite (bind_run _ _ _ _ _
               (get_tab_strip_index_run w1 self (set_pinned_ pinned h) b br
                  Hh1 Hb Hbr)).
    rewrite (TabStripModel_SetTabPinned_run w1 b br self pinned Hbr Hin).
    rewrite <- (Hreport b br eq_refl Hbr). unfold pin_request.
    by rewrite Hb, Hbr.
  - rewrite (Hnone eq_refl). unfold pin_request. rewrite Hb, app_nil_r.
    unfold ret. by destruct w.
Qed.

Lemma SetPinned_unpin w self h g :
  helpers w !! self = Some h → guests w !! self = Some g →
  in_own_strip w self h → pinned_ h = true →
  SetPinned self false w
  = Some (tt,
      with_guests (<[self := set_can_run_in_detached_state true g]> (guests w))
        (with_helpers
           (<[self := set_is_placeholder_ false (set_pinned_ false h)]>
              (helpers w))
           (with_trace (trace w ++ pin_request w self h false) w))).
Proof.
  intros Hh Hg Hown Hp.
  set (w2 := with_trace (trace w ++ pin_request w self h false)
               (with_helpers (<[self := set_pinned_ false h]> (helpers w)) w)).
  assert (helpers w2 !! self = Some (set_pinned_ false h)) as Hh2
    by (subst w2; wsimpl; apply lookup_insert_eq).
  rewrite (SetPinned_after_report w self h false w2 Hh); [| |done| |done].
  - rewrite (bind_run _ _ _ _ _ (helper_run w2 self _ Hh2)). cbv beta.
    cbn [pinned_ set_pinned_]. unfold SetPlaceholder. unfold_monad.
    rewrite Hh2. subst w2. cbn [negb]. wsimpl. rewrite Hg. wsimpl.
    do 2 f_equal. apply world_eq; wsimpl; try reflexivity.
    by rewrite insert_insert_eq.
  - by rewrite Hp.
  - intros b br Hb Hbr. apply NotifyTabPinnedStateChanged_skip.
    unfold MaybeAttachOrCreatePinnedTab. unfold_monad. rewrite Hh2.
    cbn [is_pinned pinned_ set_pinned_ negb]. by rewrite orb_true_r.
Qed.

(** The record and the guest as the strip's report finds them when the tab
    is being pinned. *)
Lemma report_promotes_ready w self h g t :
  pinned_ h = false →
  (report_promotes w self h g ↔
   promotion_ready
     (with_trace t
        (with_helpers (<[self := set_pinned_ true h]> (helpers w)) w))
     (set_pinned_ true h) g ∧
   ∃ b br, browser_ h = Some b ∧ browsers w !! b = Some br ∧
           self ∈ strip_observers br).
Proof.
  intros Hp. unfold report_promotes, promotion_ready. wsimpl. cbn.
  split.
  - intros (Hph & Ha & Hc & b & br & Hb & Hl & Hbr & Hin).
    split; [|eauto]. repeat (split; [done|]). congruence.
  - intros ((_ & Hph & Ha & Hc & Hl) & b & br & Hb & Hbr & Hin).
    repeat (split; [done|]). exists b, br. repeat (split; [done|]).
    split; [congruence|done].
Qed.

Lemma SetPinned_pin_quiet w self h g :
  helpers w !! self = Some h → guests w !! self = Some g →
  in_own_strip w self h → pinned_ h = false →
  ¬ report_promotes w self h g →
  SetPinned self true w
  = Some (tt,
      with_helpers
        (<[self := set_is_placeholder_ true (set_pinned_ true h)]> (helpers w))
        (with_trace (trace w ++ pin_request w self h true) w)).
Proof.
  intros Hh Hg Hown Hp Hquiet.
  set (w2 := with_trace (trace w ++ pin_request w self h true)
               (with_helpers (<[self := set_pinned_ true h]> (helpers w)) w)).
  assert (helpers w2 !! self = Some (set_pinned_ true h)) as Hh2
    by (subst w2; wsimpl; apply lookup_insert_eq).
  assert (guests w2 !! self = Some g) as Hg2 by done.
  rewrite (SetPinned_after_report w self h true w2 Hh); [| |done| |done].
  - rewrite (bind_run _ _ _ _ _ (helper_run w2 self _ Hh2)). cbv beta.
    cbn [pinned_ set_pinned_]. unfold SetPlaceholder. unfold_monad.
    rewrite Hh2. subst w2. cbn [negb]. wsimpl.
    do 2 f_equal. apply world_eq; wsimpl; try reflexivity.
    by rewrite insert_insert_eq.
  - by rewrite Hp.
  - intros b br Hb Hbr.
    destruct (decide (self ∈ strip_observers br)) as [Hin|Hout];
      [|by apply NotifyTabPinnedStateChanged_absent].
    apply NotifyTabPinnedStateChanged_skip.
    apply (MaybeAttachOrCreatePinnedTab_skip w2 self _ g Hh2 Hg2).
    intros Hready. apply Hquiet.
    apply (report_promotes_ready w self h g
             (trace w ++ pin_request w self h true) Hp).
    split; [exact Hready|eauto].
Qed.

Lemma SetPinned_pin_loads w self h g :
  helpers w !! self = Some h → guests w !! self = Some g →
  in_own_strip w self h → pinned_ h = false →
  report_promotes w self h g →
  SetPinned self true w
  = Some (tt,
      with_guests (<[self := set_can_run_in_detached_state true g]> (guests w))
        (with_helpers
           (<[self := set_is_placeholder_ true (set_pinned_ true h)]>
              (helpers w))
           (with_trace
              (trace w ++ pin_request w self h true
                 ++ [UserGestureDone self; Load self]) w))).
Proof.
  intros Hh Hg Hown Hp Hloud.
  set (w1 := with_trace (trace w ++ pin_request w self h true)
               (with_helpers (<[self := set_pinned_ true h]> (helpers w)) w)).
  assert (helpers w1 !! self = Some (set_pinned_ true h)) as Hh1
    by (subst w1; wsimpl; apply lookup_insert_eq).
  assert (guests w1 !! self = Some g) as Hg1 by done.
  destruct (proj1 (report_promotes_ready w self h g
                     (trace w ++ pin_request w self h true) Hp) Hloud)
    as (Hready & b & br & Hb & Hbr & Hin).
  fold w1 in Hready.
  set (w2 := promoted self (set_pinned_ true h) g w1).
  assert (helpers w2 !! self
          = Some (set_is_placeholder_ false (set_pinned_ true h))) as Hh2
    by apply promoted_helper.
  rewrite (SetPinned_after_report w self h true w2 Hh); [| |done| |].
  - rewrite (bind_run _ _ _ _ _ (helper_run w2 self _ Hh2)). cbv beta.
    cbn [pinned_ set_pinned_ set_is_placeholder_]. unfold SetPlaceholder.
    unfold_monad. rewrite Hh2. subst w2 w1. unfold promoted. cbn [negb].
    wsimpl.
    do 2 f_equal. apply world_eq; wsimpl; try reflexivity.
    + by rewrite !insert_insert_eq.
    + by rewrite <- app_assoc.
  - by rewrite Hp.
  - intros b' br' Hb' Hbr'.
    assert (b' = b) as -> by congruence. assert (br' = br) as -> by congruence.
    by apply NotifyTabPinnedStateChanged_promotes.
  - intros Hnone. congruence.
Qed.

Lemma SetPinned_same w self h :
  helpers w !! self = Some h →
  SetPinned self (pinned_ h) w = Some (tt, w).
Proof.
  intros Hh. unfold SetPinned. unfold_monad. rewrite Hh. cbn.
  by rewrite bool_decide_eq_true_2.
Qed.

Lemma pin_request_only_pins w self h pinned e :
  e ∈ pin_request w self h pinned → ∃ b i, e = SetTabPinned b i pinned.
Proof.
  unfold pin_request.
  destruct (browser_ h) as [b|]; [|by intros ?%not_elem_of_nil].
  destruct (browsers w !! b) as [br|]; [|by intros ?%not_elem_of_nil].
  intros He%list_elem_of_singleton. eauto.
Qed.

Lemma pin_request_loads w self h pinned c :
  loads c (pin_request w self h pinned) = 0%nat.
Proof.
  apply count_occ_not_In. rewrite <- list_elem_of_In.
  intros (b & i & He)%pin_request_only_pins. discriminate He.
Qed.

Lemma report_promotes_dec w self h g :
  report_promotes w self h g ∨ ¬ report_promotes w self h g.
Proof.
  unfold report_promotes.
  destruct (is_placeholder h); [|right; by intros [? _]].
  destruct (attached g); [|right; by intros (_ & ? & _)].
  destruct (window_closing_ h); [right; by intros (_ & _ & ? & _)|].
  destruct (browser_ h) as [b|];
    [|right; by intros (_ & _ & _ & ? & ? & ? & _)].
  destruct (decide (last_active w = Some b)) as [Hl|Hl]; cycle 1.
  { right. intros (_ & _ & _ & b' & br & [= <-] & ? & _). done. }
  destruct (browsers w !! b) as [br|] eqn:Hbr; cycle 1.
  { right. intros (_ & _ & _ & b' & br & [= <-] & _ & ? & _). congruence. }
  destruct (decide (self ∈ strip_observers br)) as [Hin|Hout].
  - left. repeat (split; [done|]). exists b, br. done.
  - right. intros (_ & _ & _ & b' & br' & [= <-] & _ & Hbr' & Hin).
    rewrite Hbr in Hbr'. injection Hbr' as <-. done.
Qed.

(** C9, as the code has it.  On a tab that sits in its window's strip:
    [SetPinned(false)] on a tab that is not a placeholder leaves
    [is_placeholder_] false and creates no surface.  [SetPinned(true)] on a
    tab that is not pinned yet leaves it pinned and a placeholder, which is
    what reconciliation asks of the record, so that the tab is promoted when
    its window is next reported last active (guest attached, no close
    pending).  Whether content is loaded at once is decided by the strip's
    report of the pin-state change, which arrives before the placeholder
    flag is set: a tab that was not a placeholder, or that the report does
    not find ready, is not loaded; a tab that was a placeholder already,
    with its guest attached, no close pending and its window last active,
    is promoted by the report and loaded at once, and is then marked a
    placeholder again.  [SetPinned(true)] on a tab that is pinned already
    changes nothing. *)
Theorem SetPinned_toggles_placeholder w self h g :
  helpers w !! self = Some h → guests w !! self = Some g →
  in_own_strip w self h →
  (is_placeholder h = false →
     ∃ w', SetPinned self false w = Some (tt, w') ∧
           is_placeholder_ <$> helpers w' !! self = Some false ∧
           dom (helpers w') = dom (helpers w) ∧
           (∀ b o n, CreatedNullContents b o n ∈ trace w' →
                     CreatedNullContents b o n ∈ trace w) ∧
           (∀ c, Load c ∈ trace w' → Load c ∈ trace w)) ∧
  (pinned_ h = false →
     ∃ w' h' g',
       SetPinned self true w = Some (tt, w') ∧
       helpers w' !! self = Some h' ∧ guests w' !! self = Some g' ∧
       reconciliation_candidate h' ∧
       (is_placeholder h = false → ¬ report_promotes w self h g) ∧
       (¬ report_promotes w self h g →
          trace w' = trace w ++ pin_request w self h true ∧
          loads self (trace w') = loads self (trace w) ∧
          ∀ c, Load c ∈ trace w' → Load c ∈ trace w) ∧
       (report_promotes w self h g →
          trace w'
            = trace w ++ pin_request w self h true
                ++ [UserGestureDone self; Load self] ∧
          loads self (trace w') = S (loads self (trace w))) ∧
       (∀ b, browser_ h = Some b → last_active w = Some b →
             attached g = true → window_closing_ h = false →
             OnBrowserSetLastActive self b w'
             = Some (tt, promoted self h' g' w'))) ∧
  (pinned_ h = true → SetPinned self true w = Some (tt, w)).
Proof.
  intros Hh Hg Hown. split; [|split].
  - intros Hph. destruct (pinned_ h) eqn:Hp.
    + rewrite (SetPinned_unpin w self h g Hh Hg Hown Hp).
      eexists. split; [reflexivity|]. wsimpl. rewrite lookup_insert_eq.
      split; [done|]. split; [by apply dom_insert_lookup_L|]. split.
      * intros b o n [Hin|Hin]%elem_of_app; [done|].
        apply pin_request_only_pins in Hin as (? & ? & [=]).
      * intros c [Hin|Hin]%elem_of_app; [done|].
        apply pin_request_only_pins in Hin as (? & ? & [=]).
    + exists w. rewrite <- Hp at 1. rewrite (SetPinned_same w self h Hh).
      split; [done|]. rewrite Hh. cbn. unfold is_placeholder in Hph.
      rewrite Hph. done.
  - intros Hp.
    assert (∀ w' h' g',
              helpers w' !! self = Some h' → guests w' !! self = Some g' →
              reconciliation_candidate h' →
              window_closing_ h' = window_closing_ h →
              browser_ h' = browser_ h → attached g' = attached g →
              last_active w' = last_active w →
              ∀ b, browser_ h = Some b → last_active w = Some b →
                   attached g = true → window_closing_ h = false →
                   OnBrowserSetLastActive self b w'
                   = Some (tt, promoted self h' g' w')) as Hnext.
    { intros w' h' g' Hh' Hg' Hcand Hc' Hb' Ha' Hl' b Hb Hlast Ha Hc.
      unfold OnBrowserSetLastActive.
      rewrite (bind_run _ _ _ _ _ (MaybeRequestWindowClose_run w' self h' Hh')).
      rewrite close_request_idle, app_nil_r by congruence.
      replace (with_trace (trace w') w') with w' by (by destruct w').
      apply MaybeAttachOrCreatePinnedTab_ready; [done|done|].
      apply candidate_promotion_ready; [done|congruence|congruence|congruence]. }
    destruct (report_promotes_dec w self h g) as [Hloud|Hquiet].
    + rewrite (SetPinned_pin_loads w self h g Hh Hg Hown Hp Hloud).
      eexists _, _, _. split; [reflexivity|]. wsimpl.
      rewrite !lookup_insert_eq.
      split; [done|]. split; [done|]. split; [done|].
      split; [intros Hph [Hph' _]; unfold is_placeholder in *; congruence|].
      split; [done|]. split.
      * intros _. split; [done|].
        rewrite !loads_app, pin_request_loads. unfold loads at 2.
        rewrite count_occ_cons_neq by discriminate.
        rewrite count_occ_cons_eq by reflexivity. cbn. lia.
      * apply Hnext; wsimpl; try done; apply lookup_insert_eq.
    + rewrite (SetPinned_pin_quiet w self h g Hh Hg Hown Hp Hquiet).
      eexists _, _, _. split; [reflexivity|]. wsimpl.
      rewrite lookup_insert_eq.
      split; [done|]. split; [exact Hg|]. split; [done|].
      split; [done|]. split.
      * intros _. split; [done|]. split.
        -- rewrite loads_app, pin_request_loads. lia.
        -- intros c [Hin|Hin]%elem_of_app; [done|].
           apply pin_request_only_pins in Hin as (? & ? & [=]).
      * split; [done|].
        apply Hnext; wsimpl; try done; apply lookup_insert_eq.
  - intros Hp. rewrite <- Hp at 1. by apply SetPinned_same.
Qed.

Lemma in_own_strip_window_1 h last :
  browser_ h = Some 1%nat → in_own_strip (one_tab_world h last) 0%nat h.
Proof.
  intros Hb b Hb'. rewrite Hb in Hb'. injection Hb' as <-.
  eexists. split; [reflexivity|]. cbn. set_solver.
Defined.

Lemma SetPinned_toggles_placeholder_witness :
  helpers real_tab_world !! 0%nat = Some real_tab ∧
  guests real_tab_world !! 0%nat = Some attached_guest ∧
  in_own_strip real_tab_world 0%nat real_tab ∧
  pinned_ real_tab = false ∧ is_placeholder real_tab = false ∧
  ∃ w' h', SetPinned 0%nat true real_tab_world = Some (tt, w') ∧
           helpers w' !! 0%nat = Some h' ∧ reconciliation_candidate h' ∧
           loads 0%nat (trace w') = loads 0%nat (trace real_tab_world).
Proof.
  split; [reflexivity|]. split; [reflexivity|].
  split; [by apply in_own_strip_window_1|]. split; [reflexivity|].
  split; [reflexivity|].
  destruct (SetPinned_toggles_placeholder
              real_tab_world 0%nat real_tab attached_guest eq_refl eq_refl
              (in_own_strip_window_1 real_tab (Some 1%nat) eq_refl))
    as (_ & Hpin & _).
  destruct (Hpin eq_refl)
    as (w' & h' & g' & Hrun & Hh' & _ & Hcand & Hloaded & Hquiet & _).
  destruct (Hquiet (Hloaded eq_refl)) as (_ & Hloads & _).
  exists w', h'. done.
Defined.

(** C9, as stated, fails.  The tab of [moved_tab_world] is an attached,
    unpinned placeholder in the last-active window.  [SetPinned(true)] asks
    the strip to pin its slot, the strip reports the change of pin state,
    and the report finds the record pinned and still a placeholder:
    reconciliation loads the content at once, inside [SetPinned]. *)
Lemma SetPinned_true_on_placeholder_loads_at_once :
  let w' := world_after (SetPinned 0%nat true) moved_tab_world in
  helpers moved_tab_world !! 0%nat = Some move_placeholder ∧
  pinned_ move_placeholder = false ∧
  attached <$> guests moved_tab_world !! 0%nat = Some true ∧
  SetPinned 0%nat true moved_tab_world = Some (tt, w') ∧
  trace moved_tab_world = [] ∧
  trace w' = [SetTabPinned 1 0 true; UserGestureDone 0; Load 0] ∧
  loads 0%nat (trace w') = 1%nat.
Proof.
  intros w'. split; [by_computation|]. split; [reflexivity|].
  split; [by_computation|]. split; [by_computation|].
  split; [by_computation|]. split; by_computation.
Qed.

(** *** Attaching *)


Lemma AttachGuest_from_skip w self window_id index pre bs :
  no_window_with_id w window_id pre →
  AttachGuest_from (pre ++ bs) self window_id index w
  = AttachGuest_from bs self window_id index w.
Proof.
  induction 1 as [|b pre (br & Hbr & Hid) _ IH]; [done|].
  cbn [app AttachGuest_from]. unfold bind at 1, browser_object. unfold_monad.
  rewrite Hbr. apply Z.eqb_neq in Hid. by rewrite Hid.
Qed.

Lemma GetTabStripIndex_from_finds w window_id index b br c hc tabs :
  helpers w !! c = Some hc → get_index hc = index →
  session_window_id hc = window_id → browser_ hc = Some b →
  browsers w !! b = Some br →
  c ∈ tabs →
  (∀ c' h', c' ∈ tabs → helpers w !! c' = Some h' →
            get_index h' = index → session_window_id h' = window_id →
            c' = c) →
  GetTabStripIndex_from tabs window_id index w
  = Some (GetIndexOfWebContents (tab_strip br) c, w).
Proof.
  intros Hc Hi Hw Hb Hbr. induction tabs as [|c' rest IH]; intros Hin Huniq.
  - by apply not_elem_of_nil in Hin.
  - cbn [GetTabStripIndex_from]. unfold bind at 1, FromWebContents, gets.
    assert (get_tab_strip_index c w
            = Some (GetIndexOfWebContents (tab_strip br) c, w)) as Hfound.
    { unfold get_tab_strip_index. unfold_monad. rewrite Hc. unfold browser.
      by rewrite Hb, Hbr. }
    assert (c' ≠ c → c ∈ rest) as Hrest.
    { intros Hne. apply elem_of_cons in Hin as [->|Hin]; done. }
    assert (∀ c'' h', c'' ∈ rest → helpers w !! c'' = Some h' →
              get_index h' = index → session_window_id h' = window_id →
              c'' = c) as Huniq'.
    { intros c'' h' Hin'. apply Huniq. apply elem_of_cons. by right. }
    destruct (helpers w !! c') as [h'|] eqn:Hh'.
    + destruct ((get_index h' =? index) && (session_window_id h' =? window_id))
        eqn:Htest.
      * apply andb_true_iff in Htest as [Hi'%Z.eqb_eq Hw'%Z.eqb_eq].
        assert (c' ∈ c' :: rest) as Hhere by (apply elem_of_cons; by left).
        rewrite (Huniq c' h' Hhere Hh' Hi' Hw'). exact Hfound.
      * apply IH; [|done]. apply Hrest. intros ->.
        rewrite Hc in Hh'. injection Hh' as <-.
        rewrite Hi, Hw, !Z.eqb_refl in Htest. discriminate Htest.
    + apply IH; [|done]. apply Hrest. intros ->. congruence.
Qed.

Lemma elem_of_all_tabs w b br c :
  b ∈ browser_list w → browsers w !! b = Some br → c ∈ tab_strip br →
  c ∈ all_tabs w.
Proof.
  intros Hb Hbr Hc. unfold all_tabs. apply list_elem_of_In, in_flat_map.
  exists b. split; [by apply list_elem_of_In|].
  rewrite Hbr. by apply list_elem_of_In.
Qed.

Lemma GetTabStripIndex_from_absent tabs window_id index w :
  (∀ c h, c ∈ tabs → helpers w !! c = Some h →
          get_index h ≠ index ∨ session_window_id h ≠ window_id) →
  GetTabStripIndex_from tabs window_id index w = Some (kNoTab, w).
Proof.
  induction tabs as [|c rest IH]; intros Hno; [done|].
  cbn [GetTabStripIndex_from]. unfold bind at 1, FromWebContents, gets.
  assert (GetTabStripIndex_from rest window_id index w = Some (kNoTab, w))
    as Hrest.
  { apply IH. intros c' h' Hin. apply Hno. apply elem_of_cons. by right. }
  destruct (helpers w !! c) as [h|] eqn:Hh; [|exact Hrest].
  destruct ((get_index h =? index) && (session_window_id h =? window_id))
    eqn:Htest; [|exact Hrest].
  apply andb_true_iff in Htest as [Hi%Z.eqb_eq Hw%Z.eqb_eq].
  assert (c ∈ c :: rest) as Hhere by (apply elem_of_cons; by left).
  destruct (Hno c h Hhere Hh); done.
Qed.

(** What [AttachGuest] does once it has found its window, in terms of the
    slot its helper resolves. *)
Lemma AttachGuest_run w self g h window_id index pre b post br slot :
  guests w !! self = Some g → attached g = false →
  helpers w !! self = Some h →
  browser_list w = pre ++ b :: post →
  no_window_with_id w window_id pre →
  browsers w !! b = Some br → session_id br = window_id →
  let w1 := with_helpers (<[self := set_index_ index h]> (helpers w)) w in
  GetTabStripIndex window_id index w1 = Some (Z.of_nat slot, w1) →
  (slot < length (tab_strip br))%nat →
  AttachGuest self window_id index w
  = Some (true,
          with_browsers
            (<[b := set_tab_strip (<[slot := self]> (tab_strip br)) br]>
               (browsers w)) w1).
Proof.
  intros Hg Ha Hh Hlist Hpre Hbr Hid w1 Hslot Hlt.
  unfold AttachGuest. unfold bind at 1, guest. unfold_monad.
  rewrite Hg, Ha, Hlist. rewrite AttachGuest_from_skip by done.
  cbn [AttachGuest_from]. unfold ReplaceWebContentsAt.
  assert (ContainsIndex (tab_strip br) (Z.of_nat slot) = true) as Hci.
  { unfold ContainsIndex. apply andb_true_iff.
    split; [apply Z.leb_le|apply Z.ltb_lt]; lia. }
  unfold_monad. rewrite Hbr. apply Z.eqb_eq in Hid. rewrite Hid, Hh. wsimpl.
  rewrite lookup_insert_eq. cbn [index_ set_index_]. subst w1.
  rewrite Hslot. wsimpl. rewrite Hbr. cbv beta iota. rewrite Hci. wsimpl.
  rewrite Hbr, Nat2Z.id. reflexivity.
Qed.




Lemma slot_occupant_attach_world : slot_occupant attach_world 11 5 1%nat 0%nat.
Proof.
  split.
  - exists real_tab, (window_1 [0%nat]).
    repeat split; try reflexivity. cbn. apply elem_of_cons. by left.
  - intros c' h' Hin _ _ _. vm_compute in Hin.
    apply list_elem_of_singleton in Hin. exact Hin.
Defined.

Lemma not_in_all_tabs_attach_world : 5%nat ∉ all_tabs attach_world.
Proof.
  intros Hin. vm_compute in Hin. apply list_elem_of_singleton in Hin.
  discriminate Hin.
Defined.



(** *** Detaching *)

(** C2, as the code has it.  On a tab whose guest is not attached,
    [DetachGuest] returns null and the world it was given.  On an attached
    tab that sits in the strip of its window, it creates a new surface with
    a copy of the navigation history, gives its record the index, the pin
    flag and the pending close of the detaching record, clears the pending
    close of the detaching record, marks the new record a placeholder, puts
    the new surface in the slot the tab held, and returns the new surface,
    the placeholder, not the detaching one. *)
Theorem DetachGuest_returns_placeholder w self h g :
  helpers w !! self = Some h → guests w !! self = Some g →
  (attached g = false → DetachGuest self w = Some (None, w)) ∧
  (attached g = true →
   ∀ b br, browser_ h = Some b → browsers w !! b = Some br →
     self ∈ tab_strip br →
     let p := fresh_contents w in
     let slot := Z.to_nat (GetIndexOfWebContents (tab_strip br) self) in
     ∃ w', DetachGuest self w = Some (Some p, w') ∧
       p ≠ self ∧ helpers w !! p = None ∧
       helpers w' !! p
         = Some (mkTabHelper (index_ h) (pinned_ h) true (window_closing_ h)
                             None (-1)) ∧
       controllers w' !! p = Some (default [] (controllers w !! self)) ∧
       window_closing_ <$> helpers w' !! self = Some false ∧
       tab_strip br !! slot = Some self ∧
       tab_strip <$> browsers w' !! b = Some (<[slot := p]> (tab_strip br)) ∧
       <[slot := p]> (tab_strip br) !! slot = Some p).
Proof.
  intros Hh Hg. split.
  - intros Ha. unfold DetachGuest. unfold_monad. rewrite Hg. cbn. by rewrite Ha.
  - intros Ha b br Hb Hbr Hin p slot.
    destruct (fresh_contents_fresh w) as (Hph & Hpg & Hpc).
    fold p in Hph, Hpg, Hpc.
    assert (p ≠ self) as Hne by congruence.
    destruct (GetIndexOfWebContents_contains _ _ Hin) as [Hci Hslot].
    fold slot in Hslot.
    unfold DetachGuest, CreateNullContents, CopyStateFrom, SetPlaceholder,
      get_tab_strip_index, ReplaceWebContentsAt.
    unfold_monad. rewrite Hg. cbn. rewrite Ha, Hh. cbn. rewrite Hb. cbn.
    fold p. run. rewrite Hci. cbn. rewrite Hbr. cbn.
    eexists. split; [reflexivity|]. cbn. simplify_map_eq.
    repeat split; try done.
    apply list_lookup_insert_eq. by eapply lookup_lt_Some.
Qed.

Lemma DetachGuest_returns_placeholder_witness :
  helpers real_tab_world !! 0%nat = Some real_tab ∧
  guests real_tab_world !! 0%nat = Some attached_guest ∧
  attached attached_guest = true ∧
  browser_ real_tab = Some 1%nat ∧
  browsers real_tab_world !! 1%nat = Some (window_1 [0%nat]) ∧
  0%nat ∈ tab_strip (window_1 [0%nat]) ∧
  ∃ w', DetachGuest 0%nat real_tab_world
          = Some (Some (fresh_contents real_tab_world), w') ∧
        helpers w' !! fresh_contents real_tab_world
          = Some (mkTabHelper 5 false true false None (-1)).
Proof.
  assert (0%nat ∈ tab_strip (window_1 [0%nat])) as Hin by (cbn; set_solver).
  split; [reflexivity|]. split; [reflexivity|]. split; [reflexivity|].
  split; [reflexivity|]. split; [reflexivity|]. split; [exact Hin|].
  destruct (DetachGuest_returns_placeholder
              real_tab_world 0%nat real_tab attached_guest eq_refl eq_refl)
    as [_ Hdetach].
  destruct (Hdetach eq_refl 1%nat (window_1 [0%nat]) eq_refl eq_refl Hin)
    as (w' & Hrun & _ & _ & Hp & _).
  exists w'. done.
Defined.

(** C2, as stated, fails.  Detaching the loaded tab 0 of window 1 returns
    surface 1, the placeholder that now holds slot 0, not surface 0. *)
Lemma DetachGuest_does_not_return_original :
  let w' := world_after (DetachGuest 0%nat) real_tab_world in
  DetachGuest 0%nat real_tab_world = Some (Some 1%nat, w') ∧
  is_placeholder_ <$> helpers w' !! 1%nat = Some true ∧
  tab_strip <$> browsers w' !! 1%nat = Some [1%nat] ∧
  fst <$> DetachGuest 0%nat real_tab_world ≠ Some (Some 0%nat).
Proof.
  intros w'. split; [by_computation|]. split; [by_computation|].
  split; [by_computation|]. vm_compute. discriminate.
Qed.

(** *** Replacement in the strip *)

Lemma TabReplacedAt_transfer_run w self new_contents h g hn gn b br :
  helpers w !! self = Some h → guests w !! self = Some g →
  helpers w !! new_contents = Some hn → guests w !! new_contents = Some gn →
  new_contents ≠ self →
  browser_ h = Some b → browsers w !! b = Some br →
  TabReplacedAt_transfer self self new_contents w
  = Some (tt, bookkeeping_done w self new_contents h g hn gn b br).
Proof.
  intros Hh Hg Hhn Hgn Hne Hb Hbr.
  unfold TabReplacedAt_transfer, OnBrowserRemoved, UpdateBrowser,
    MaybeRequestWindowClose.
  unfold_monad. unfold browser, close_request, bookkeeping_done.
  run.
  destruct (window_closing_ h) eqn:Hc; run;
    rewrite bool_decide_eq_true_2 by done; run;
    do 2 f_equal; apply world_eq; wsimpl; try reflexivity.
  - map_cases i new_contents self.
  - do 3 rewrite insert_insert_eq. reflexivity.
  - rewrite (close_request_closing h b) by done.
    rewrite <- !app_assoc. reflexivity.
  - map_cases i new_contents self.
  - do 3 rewrite insert_insert_eq. reflexivity.
  - rewrite close_request_idle by done.
    rewrite <- !app_assoc. reflexivity.
Qed.

Lemma TabReplacedAt_handover_run w self new_contents gn :
  guests w !! new_contents = Some gn →
  TabReplacedAt_handover self new_contents w
  = Some (tt, with_trace
                (trace w ++ [GuestDetachGuest self;
                             GuestAttachGuest new_contents
                               (guest_instance_id gn)]) w).
Proof.
  intros Hgn. unfold TabReplacedAt_handover. unfold_monad. wsimpl.
  rewrite Hgn. wsimpl. by rewrite <- app_assoc.
Qed.

Lemma TabReplacedAt_run w self strip new_contents index h g hn gn b br :
  helpers w !! self = Some h → guests w !! self = Some g →
  helpers w !! new_contents = Some hn → guests w !! new_contents = Some gn →
  new_contents ≠ self →
  browser_ h = Some b → browsers w !! b = Some br →
  let w1 := bookkeeping_done w self new_contents h g hn gn b br in
  TabReplacedAt self strip self new_contents index w
  = Some (tt, with_trace
                (trace w1 ++ [GuestDetachGuest self;
                              GuestAttachGuest new_contents
                                (guest_instance_id gn)]) w1).
Proof.
  intros Hh Hg Hhn Hgn Hne Hb Hbr w1. unfold TabReplacedAt.
  rewrite bool_decide_eq_false_2 by (intros Hx; by apply Hx).
  rewrite (bind_run _ _ _ _ _
             (TabReplacedAt_transfer_run w self new_contents h g hn gn b br
                Hh Hg Hhn Hgn Hne Hb Hbr)).
  fold w1. apply (TabReplacedAt_handover_run w1 self new_contents
                    (set_attach_params (attach_params g) gn)).
  subst w1. unfold bookkeeping_done. wsimpl. apply lookup_insert_eq.
Qed.






(** ** Rules of the program logic *)

Lemma hoare_ret {A} (P : World → Prop) (a : A) (Q : A → World → Prop) :
  (∀ w, P w → Q a w) → hoare P (ret a) Q.
Proof. intros H w a' w' HP [= <- <-]. by apply H. Qed.

Lemma hoare_bind {A B} (P : World → Prop) (m : M A) (k : A → M B)
    (Q : A → World → Prop) (R : B → World → Prop) :
  hoare P m Q → (∀ a, hoare (Q a) (k a) R) → hoare P (bind m k) R.
Proof.
  intros Hm Hk w b w' HP Hrun. unfold bind in Hrun.
  destruct (m w) as [[a w1]|] eqn:Hmw; [|done].
  eapply Hk; [|exact Hrun]. by eapply Hm.
Qed.

Lemma hoare_crash {A} (P : World → Prop) (Q : A → World → Prop) :
  hoare P crash Q.
Proof. intros w a w' _ [=]. Qed.

Lemma hoare_gets {A} (P : World → Prop) (f : World → A) :
  hoare P (gets f) (λ _, P).
Proof. intros w a w' HP [= _ <-]. done. Qed.

Lemma hoare_modify (P Q : World → Prop) (f : World → World) :
  (∀ w, P w → Q (f w)) → hoare P (modify f) (λ _, Q).
Proof. intros H w a w' HP [= _ <-]. by apply H. Qed.

Lemma hoare_pure {A} (P : World → Prop) (φ : Prop) (m : M A)
    (Q : A → World → Prop) :
  (φ → hoare P m Q) → hoare (λ w, P w ∧ φ) m Q.
Proof. intros H w a w' [HP Hφ]. by apply H. Qed.

Lemma hoare_weaken {A} (P P' : World → Prop) (m : M A)
    (Q Q' : A → World → Prop) :
  hoare P' m Q' → (∀ w, P w → P' w) → (∀ a w, Q' a w → Q a w) →
  hoare P m Q.
Proof. intros H HP HQ w a w' Hw Hrun. apply HQ. eapply H; eauto. Qed.

(** Reading a record: the invariant still holds, and the record read is one
    a world of the invariant holds. *)
Lemma hoare_helper (P : World → Prop) c :
  hoare P (helper c)
    (λ h w, P w ∧ ∃ w0, P w0 ∧ helpers w0 !! c = Some h).
Proof.
  intros w h w' HP Hrun. unfold helper, FromWebContents, bind, gets in Hrun.
  destruct (helpers w !! c) as [h0|] eqn:Hh; [|done].
  injection Hrun as <- <-. eauto.
Qed.

Lemma hoare_FromWebContents (P : World → Prop) c :
  hoare P (FromWebContents c)
    (λ o w, P w ∧ ∀ h, o = Some h → ∃ w0, P w0 ∧ helpers w0 !! c = Some h).
Proof.
  intros w o w' HP [= <- <-]. split; [done|]. intros h Hh. eauto.
Qed.

Lemma hoare_guest (P : World → Prop) c : hoare P (guest c) (λ _, P).
Proof.
  intros w g w' HP Hrun. unfold guest, bind, gets in Hrun.
  destruct (guests w !! c); [|done]. by injection Hrun as _ <-.
Qed.

Lemma hoare_browser_object (P : World → Prop) b :
  hoare P (browser_object b) (λ _, P).
Proof.
  intros w br w' HP Hrun. unfold browser_object, bind, gets in Hrun.
  destruct (browsers w !! b); [|done]. by injection Hrun as _ <-.
Qed.

Lemma hoare_update_helper (P Q : World → Prop) c f :
  (∀ w h, P w → helpers w !! c = Some h →
          Q (with_helpers (<[c := f h]> (helpers w)) w)) →
  hoare P (update_helper c f) (λ _, Q).
Proof.
  intros H w a w' HP Hrun.
  unfold update_helper, helper, FromWebContents, bind, gets, modify in Hrun.
  destruct (helpers w !! c) as [h|] eqn:Hh; [|done].
  injection Hrun as _ <-. by apply H.
Qed.

Lemma hoare_update_guest (P Q : World → Prop) c f :
  (∀ w g, P w → guests w !! c = Some g →
          Q (with_guests (<[c := f g]> (guests w)) w)) →
  hoare P (update_guest c f) (λ _, Q).
Proof.
  intros H w a w' HP Hrun. unfold update_guest, guest, bind, gets, modify in Hrun.
  destruct (guests w !! c) as [g|] eqn:Hg; [|done].
  injection Hrun as _ <-. by apply H.
Qed.

Lemma hoare_update_browser (P Q : World → Prop) b f :
  (∀ w br, P w → browsers w !! b = Some br →
           Q (with_browsers (<[b := f br]> (browsers w)) w)) →
  hoare P (update_browser b f) (λ _, Q).
Proof.
  intros H w a w' HP Hrun.
  unfold update_browser, browser_object, bind, gets, modify in Hrun.
  destruct (browsers w !! b) as [br|] eqn:Hb; [|done].
  injection Hrun as _ <-. by apply H.
Qed.

Lemma hoare_emit (P Q : World → Prop) e :
  (∀ w, P w → Q (with_trace (trace w ++ [e]) w)) →
  hoare P (emit e) (λ _, Q).
Proof. intros H. by apply hoare_modify. Qed.

Lemma hoare_PostTask (P Q : World → Prop) t :
  (∀ w, P w → Q (with_posted_tasks (posted_tasks w ++ [t]) w)) →
  hoare P (PostTask t) (λ _, Q).
Proof. intros H. by apply hoare_modify. Qed.

Ltac hstep :=
  lazymatch goal with
  | |- hoare _ (bind (helper _) _) _ =>
      eapply hoare_bind;
      [apply hoare_helper|intros ?; apply hoare_pure; intros (? & ? & ?)]
  | |- hoare _ (bind _ _) _ => eapply hoare_bind; [|intros ?]
  | |- hoare _ (ret _) _ => apply hoare_ret; intros; assumption
  | |- hoare _ crash _ => apply hoare_crash
  | |- hoare _ (if ?b then _ else _) _ => destruct b eqn:?
  | |- hoare _ (match ?o with _ => _ end) _ => destruct o eqn:?
  end.

(** ** Invariants every entry point keeps

    An invariant that is stable under the elementary updates of the
    embedding is kept by every function built from them.  The hypotheses say
    under which updates [I] is stable; each lemma depends on the ones its
    function performs. *)
Section Stable.
Context (I : World → Prop).

Hypothesis I_index : ∀ w c h v, I w → helpers w !! c = Some h →
  I (with_helpers (<[c := set_index_ v h]> (helpers w)) w).
Hypothesis I_pinned : ∀ w c h v, I w → helpers w !! c = Some h →
  I (with_helpers (<[c := set_pinned_ v h]> (helpers w)) w).
Hypothesis I_placeholder : ∀ w c h v, I w → helpers w !! c = Some h →
  I (with_helpers (<[c := set_is_placeholder_ v h]> (helpers w)) w).
Hypothesis I_clear_closing : ∀ w c h, I w → helpers w !! c = Some h →
  I (with_helpers (<[c := set_window_closing_ false h]> (helpers w)) w).
Hypothesis I_transfer_closing : ∀ w0 w c c' h h',
  I w0 → helpers w0 !! c = Some h → I w → helpers w !! c' = Some h' →
  I (with_helpers
       (<[c' := set_window_closing_ (window_closing_ h) h']> (helpers w)) w).
Hypothesis I_browser : ∀ w c h v, I w → helpers w !! c = Some h →
  I (with_helpers (<[c := set_browser_ v h]> (helpers w)) w).
Hypothesis I_new : ∀ w c, I w →
  I (with_helpers (<[c := new_TabHelper]> (helpers w)) w).
Hypothesis I_guests : ∀ w v, I w → I (with_guests v w).
Hypothesis I_controllers : ∀ w v, I w → I (with_controllers v w).
Hypothesis I_posted : ∀ w v, I w → I (with_posted_tasks v w).
Hypothesis I_emit : ∀ w e, I w →
  (∀ b, e ≠ RequestToClosePage b) → (∀ c, e ≠ Destroy c) →
  I (with_trace (trace w ++ [e]) w).
Hypothesis I_destroy : ∀ w c, I w → I (with_trace (trace w ++ [Destroy c]) w).
Hypothesis I_close : ∀ w c h b,
  I w → helpers w !! c = Some h → window_closing_ h = true →
  I (with_trace (trace w ++ [RequestToClosePage b]) w).
Hypothesis I_replace : ∀ w b br i x, I w → browsers w !! b = Some br →
  I (with_browsers
       (<[b := set_tab_strip (<[i := x]> (tab_strip br)) br]> (browsers w)) w).
Hypothesis I_strip_observers : ∀ w b br v,
  I w → browsers w !! b = Some br →
  I (with_browsers (<[b := set_strip_observers v br]> (browsers w)) w).
Hypothesis I_window_observers : ∀ w b br v,
  I w → browsers w !! b = Some br →
  I (with_browsers (<[b := set_window_observers v br]> (browsers w)) w).
Hypothesis I_resize : ∀ w b br v, I w → browsers w !! b = Some br →
  I (with_browsers (<[b := set_tab_strip v br]> (browsers w)) w).
Hypothesis I_unset_browser : ∀ w c h, I w → helpers w !! c = Some h →
  I (with_helpers (<[c := set_browser_ None h]> (helpers w)) w).

Hypothesis I_OnBrowserRemoved : ∀ self brw,
  hoare I (OnBrowserRemoved self brw) (λ _, I).
Hypothesis I_UpdateBrowser : ∀ self brw,
  hoare I (UpdateBrowser self brw) (λ _, I).

Ltac quiet :=
  intros; apply I_emit;
  [assumption|intros ?; discriminate|intros ?; discriminate].

Lemma SetPlaceholder_keeps self v : hoare I (SetPlaceholder self v) (λ _, I).
Proof using I_placeholder I_guests.
  unfold SetPlaceholder. hstep.
  - apply hoare_update_helper. intros. by apply I_placeholder.
  - hstep; [|hstep]. apply hoare_update_guest. intros. by apply I_guests.
Qed.

Lemma MaybeAttachOrCreatePinnedTab_keeps self :
  hoare I (MaybeAttachOrCreatePinnedTab self) (λ _, I).
Proof using I_placeholder I_guests I_emit.
  unfold MaybeAttachOrCreatePinnedTab. hstep. hstep; [hstep|].
  hstep; [apply hoare_guest|]. hstep; [apply hoare_gets|].
  hstep; [hstep|]. hstep; [apply SetPlaceholder_keeps|].
  hstep; apply hoare_emit; quiet.
Qed.

Lemma MaybeRequestWindowClose_keeps self :
  hoare I (MaybeRequestWindowClose self) (λ _, I).
Proof using I_close.
  intros w a w' HI Hrun. unfold MaybeRequestWindowClose in Hrun.
  unfold_monad. destruct (helpers w !! self) as [h|] eqn:Hh; [|done].
  cbn in Hrun. destruct (window_closing_ h) eqn:Hc.
  - destruct (browser h) as [b|]; simplify_eq; [|done].
    by eapply I_close.
  - by simplify_eq.
Qed.

Lemma DestroyTab_keeps tab : hoare I (DestroyTab tab) (λ _, I).
Proof using I_destroy.
  unfold DestroyTab. hstep; [apply hoare_guest|].
  apply hoare_emit. intros. by apply I_destroy.
Qed.

Lemma RunNextTask_keeps : hoare I RunNextTask (λ _, I).
Proof using I_destroy I_posted.
  unfold RunNextTask. hstep; [apply hoare_gets|]. hstep; [hstep|].
  hstep; [apply hoare_modify; intros; by apply I_posted|].
  destruct t. apply DestroyTab_keeps.
Qed.

Lemma DidAttach_keeps self : hoare I (DidAttach self) (λ _, I).
Proof using I_placeholder I_guests I_emit I_close I_posted.
  unfold DidAttach. hstep; [apply MaybeRequestWindowClose_keeps|].
  hstep. hstep; [|hstep].
  hstep; [apply hoare_update_guest; intros; by apply I_guests|].
  hstep. hstep; [apply hoare_gets|]. hstep.
  - apply hoare_PostTask. intros. by apply I_posted.
  - apply MaybeAttachOrCreatePinnedTab_keeps.
Qed.

Lemma WillCloseWindow_keeps self pd :
  hoare I (WillCloseWindow self pd) (λ _, I).
Proof using I_clear_closing I_emit.
  unfold WillCloseWindow.
  hstep; [apply hoare_update_helper; intros; by apply I_clear_closing|].
  hstep. hstep; [apply hoare_gets|]. hstep; [apply hoare_gets|].
  hstep; [|hstep]. hstep; [|hstep].
  hstep; [apply hoare_emit; quiet|]. hstep; [apply hoare_emit; quiet|]. hstep.
Qed.

Lemma OnBrowserRemoved_stable self brw :
  hoare I (OnBrowserRemoved self brw) (λ _, I).
Proof using I_close I_index I_browser I_strip_observers I_window_observers.
  unfold OnBrowserRemoved. hstep; [apply MaybeRequestWindowClose_keeps|].
  hstep. hstep; [|hstep]. hstep; [|hstep].
  hstep; [apply hoare_update_browser; intros; by apply I_window_observers|].
  hstep; [apply hoare_update_browser; intros; by apply I_strip_observers|].
  hstep; [apply hoare_update_helper; intros; by apply I_browser|].
  apply hoare_update_helper; intros; by apply I_index.
Qed.

Lemma OnBrowserSetLastActive_keeps self brw :
  hoare I (OnBrowserSetLastActive self brw) (λ _, I).
Proof using I_placeholder I_guests I_emit I_close.
  unfold OnBrowserSetLastActive. hstep; [apply MaybeRequestWindowClose_keeps|].
  apply MaybeAttachOrCreatePinnedTab_keeps.
Qed.

Lemma UpdateBrowser_stable self brw : hoare I (UpdateBrowser self brw) (λ _, I).
Proof using I_browser I_strip_observers I_window_observers.
  unfold UpdateBrowser.
  hstep; [apply hoare_update_helper; intros; by apply I_browser|].
  hstep; [|hstep].
  hstep; [apply hoare_update_browser; intros; by apply I_strip_observers|].
  apply hoare_update_browser; intros; by apply I_window_observers.
Qed.

Lemma ReplaceWebContentsAt_keeps b i c :
  hoare I (ReplaceWebContentsAt b i c) (λ _, I).
Proof using I_replace.
  unfold ReplaceWebContentsAt. hstep; [apply hoare_browser_object|].
  hstep; [|hstep]. apply hoare_update_browser. intros. by apply I_replace.
Qed.

Lemma get_tab_strip_index_keeps c :
  hoare I (get_tab_strip_index c) (λ _, I).
Proof.
  intros w i w' HI Hrun. by rewrite (get_tab_strip_index_pure _ _ _ _ Hrun).
Qed.

Lemma GetTabStripIndex_keeps window_id index :
  hoare I (GetTabStripIndex window_id index) (λ _, I).
Proof.
  intros w i w' HI Hrun. by rewrite (GetTabStripIndex_pure _ _ _ _ _ Hrun).
Qed.

Lemma AttachGuest_from_keeps bs self window_id index :
  hoare I (AttachGuest_from bs self window_id index) (λ _, I).
Proof using I_index I_replace.
  induction bs as [|b rest IH]; cbn [AttachGuest_from]; [hstep|].
  hstep; [apply hoare_browser_object|]. hstep; [|exact IH].
  hstep; [apply hoare_update_helper; intros; by apply I_index|].
  hstep. hstep; [apply GetTabStripIndex_keeps|].
  hstep; [apply ReplaceWebContentsAt_keeps|]. hstep.
Qed.

Lemma AttachGuest_keeps self window_id index :
  hoare I (AttachGuest self window_id index) (λ _, I).
Proof using I_index I_replace.
  unfold AttachGuest. hstep; [apply hoare_guest|]. hstep; [hstep|].
  hstep; [apply hoare_gets|]. apply AttachGuest_from_keeps.
Qed.

Lemma CreateNullContents_keeps b old :
  hoare I (CreateNullContents b old) (λ _, I).
Proof using I_new I_guests I_controllers I_emit.
  unfold CreateNullContents. hstep; [apply hoare_gets|].
  hstep; [apply hoare_modify; intros; by apply I_new|].
  hstep; [apply hoare_modify; intros; by apply I_guests|].
  hstep; [apply hoare_modify; intros; by apply I_controllers|].
  hstep; [apply hoare_emit; quiet|]. hstep.
Qed.

Lemma DetachGuest_keeps self : hoare I (DetachGuest self) (λ _, I).
Proof using I_new I_guests I_controllers I_emit I_index I_pinned
  I_transfer_closing I_clear_closing I_placeholder I_replace.
  unfold DetachGuest. hstep; [apply hoare_guest|]. hstep; [|hstep].
  hstep. hstep; [|hstep]. hstep; [apply CreateNullContents_keeps|].
  hstep; [apply hoare_modify; intros; by apply I_controllers|].
  hstep.
  hstep. hstep; [apply hoare_update_helper; intros; by apply I_index|].
  hstep. hstep; [apply hoare_update_helper; intros; by apply I_pinned|].
  hstep.
  eapply (hoare_bind I _ _ (λ _, I)); [|intros ?].
  { apply hoare_update_helper; intros. eauto using I_transfer_closing. }
  hstep; [apply hoare_update_helper; intros; by apply I_clear_closing|].
  hstep; [apply SetPlaceholder_keeps|].
  hstep. hstep; [|hstep]. hstep; [apply get_tab_strip_index_keeps|].
  hstep; [apply ReplaceWebContentsAt_keeps|]. hstep.
Qed.

Lemma TabReplacedAt_transfer_keeps self old new :
  hoare I (TabReplacedAt_transfer self old new) (λ _, I).
Proof using I_index I_pinned I_guests I_emit I_OnBrowserRemoved
  I_UpdateBrowser.
  unfold TabReplacedAt_transfer.
  hstep. hstep; [apply hoare_guest|].
  hstep.
  hstep. hstep; [apply hoare_update_helper; intros; by apply I_index|].
  hstep. hstep; [apply hoare_update_helper; intros; by apply I_pinned|].
  hstep; [apply I_OnBrowserRemoved|].
  hstep; [apply I_UpdateBrowser|].
  hstep; [apply hoare_guest|]. hstep; [apply hoare_emit; quiet|].
  hstep; [apply hoare_guest|].
  hstep; [apply hoare_update_guest; intros; by apply I_guests|].
  apply hoare_emit; quiet.
Qed.

Lemma TabReplacedAt_handover_keeps self new :
  hoare I (TabReplacedAt_handover self new) (λ _, I).
Proof using I_emit.
  unfold TabReplacedAt_handover. hstep; [apply hoare_emit; quiet|].
  hstep; [apply hoare_guest|]. apply hoare_emit; quiet.
Qed.

Lemma TabReplacedAt_keeps self strip old new index :
  hoare I (TabReplacedAt self strip old new index) (λ _, I).
Proof using I_index I_pinned I_guests I_emit I_OnBrowserRemoved
  I_UpdateBrowser.
  unfold TabReplacedAt. hstep; [hstep|].
  eapply (hoare_bind I _ _ (λ _, I)); [|intros ?].
  - apply TabReplacedAt_transfer_keeps.
  - apply TabReplacedAt_handover_keeps.
Qed.

Lemma TabDetachedAt_keeps self contents index :
  hoare I (TabDetachedAt self contents index) (λ _, I).
Proof using I_OnBrowserRemoved.
  unfold TabDetachedAt. hstep; [hstep|]. hstep. apply I_OnBrowserRemoved.
Qed.

Lemma TabPinnedStateChanged_keeps self strip contents index :
  hoare I (TabPinnedStateChanged self strip contents index) (λ _, I).
Proof using I_placeholder I_guests I_emit.
  unfold TabPinnedStateChanged. hstep; [hstep|].
  apply MaybeAttachOrCreatePinnedTab_keeps.
Qed.

Lemma NotifyTabPinnedStateChanged_keeps observers strip contents index :
  hoare I (NotifyTabPinnedStateChanged observers strip contents index)
    (λ _, I).
Proof using I_placeholder I_guests I_emit.
  induction observers as [|o rest IH]; cbn [NotifyTabPinnedStateChanged];
    [hstep|].
  eapply (hoare_bind I _ _ (λ _, I)); [|intros ?; exact IH].
  apply TabPinnedStateChanged_keeps.
Qed.

Lemma TabStripModel_SetTabPinned_keeps b i v :
  hoare I (TabStripModel_SetTabPinned b i v) (λ _, I).
Proof using I_placeholder I_guests I_emit.
  unfold TabStripModel_SetTabPinned. hstep; [apply hoare_browser_object|].
  hstep; [|hstep].
  eapply (hoare_bind I _ _ (λ _, I)); [apply hoare_emit; quiet|intros ?].
  hstep; [|hstep]. apply NotifyTabPinnedStateChanged_keeps.
Qed.

Lemma SetPinned_keeps self pinned : hoare I (SetPinned self pinned) (λ _, I).
Proof using I_pinned I_placeholder I_guests I_emit.
  unfold SetPinned. hstep. hstep; [hstep|].
  hstep; [apply hoare_update_helper; intros; by apply I_pinned|].
  hstep. hstep.
  - hstep.
    + hstep; [apply get_tab_strip_index_keeps|].
      apply TabStripModel_SetTabPinned_keeps.
    + hstep.
  - hstep. hstep; apply SetPlaceholder_keeps.
Qed.

Lemma SetTabIndex_keeps self index : hoare I (SetTabIndex self index) (λ _, I).
Proof using I_index.
  unfold SetTabIndex. apply hoare_update_helper. intros. by apply I_index.
Qed.

Lemma DetachWebContentsAt_keeps b i : hoare I (DetachWebContentsAt b i) (λ _, I).
Proof using I_resize.
  unfold DetachWebContentsAt. hstep; [apply hoare_browser_object|].
  hstep; [hstep|]. hstep; [|hstep].
  apply hoare_update_browser. intros. by apply I_resize.
Qed.

Lemma AppendWebContents_keeps b c fg :
  hoare I (AppendWebContents b c fg) (λ _, I).
Proof using I_resize.
  unfold AppendWebContents. apply hoare_update_browser. intros.
  by apply I_resize.
Qed.

Lemma SetBrowser_keeps self brw : hoare I (SetBrowser self brw) (λ _, I).
Proof using I_resize I_unset_browser I_OnBrowserRemoved I_UpdateBrowser.
  unfold SetBrowser. hstep. hstep; [hstep|]. hstep.
  - hstep.
    + hstep; [apply get_tab_strip_index_keeps|]. hstep.
      * hstep.
        -- hstep; [apply get_tab_strip_index_keeps|].
           apply DetachWebContentsAt_keeps.
        -- hstep.
      * hstep. apply I_OnBrowserRemoved.
    + hstep.
  - hstep.
    + hstep; [apply I_UpdateBrowser|]. hstep. hstep; [|hstep].
      apply AppendWebContents_keeps.
    + apply hoare_update_helper. intros. by apply I_unset_browser.
Qed.

(** Every call but [SetBrowser] and a posted task keeps an invariant that
    need not survive a change of the number of slots. *)
Lemma call_keeps_in_place c :
  moves_tab c = false → hoare I (call c) (λ _, I).
Proof using I_index I_pinned I_placeholder I_clear_closing I_transfer_closing
  I_new I_guests I_controllers I_posted I_emit I_close I_replace
  I_OnBrowserRemoved I_UpdateBrowser.
  destruct c; cbn [call moves_tab]; intros Hm; try discriminate Hm.
  - hstep; [apply AttachGuest_keeps|hstep].
  - hstep; [apply DetachGuest_keeps|hstep].
  - apply DidAttach_keeps.
  - hstep; [apply WillCloseWindow_keeps|hstep].
  - apply I_OnBrowserRemoved.
  - apply OnBrowserSetLastActive_keeps.
  - apply TabReplacedAt_keeps.
  - apply TabDetachedAt_keeps.
  - apply TabPinnedStateChanged_keeps.
  - apply SetPinned_keeps.
  - apply SetPlaceholder_keeps.
  - apply SetTabIndex_keeps.
Qed.

Lemma call_keeps c : hoare I (call c) (λ _, I).
Proof using I_index I_pinned I_placeholder I_clear_closing I_transfer_closing
  I_new I_guests I_controllers I_posted I_emit I_destroy I_close I_replace
  I_OnBrowserRemoved I_UpdateBrowser I_resize I_unset_browser.
  destruct (moves_tab c) eqn:Hm; [|by apply call_keeps_in_place].
  destruct c; try discriminate Hm.
  - apply SetBrowser_keeps.
  - apply RunNextTask_keeps.
Qed.

Lemma calls_keep_in_place cs :
  Forall (λ c, moves_tab c = false) cs → hoare I (calls cs) (λ _, I).
Proof using I_index I_pinned I_placeholder I_clear_closing I_transfer_closing
  I_new I_guests I_controllers I_posted I_emit I_close I_replace
  I_OnBrowserRemoved I_UpdateBrowser.
  induction 1 as [|c cs Hc _ IH]; cbn [calls]; [hstep|].
  hstep; [by apply call_keeps_in_place|exact IH].
Qed.

Lemma calls_keep cs : hoare I (calls cs) (λ _, I).
Proof using I_index I_pinned I_placeholder I_clear_closing I_transfer_closing
  I_new I_guests I_controllers I_posted I_emit I_destroy I_close I_replace
  I_OnBrowserRemoved I_UpdateBrowser I_resize I_unset_browser.
  induction cs as [|c cs IH]; cbn [calls]; [hstep|].
  hstep; [apply call_keeps|exact IH].
Qed.
End Stable.

(** *** No close is ever pending *)

(** What every update of a record by the helper keeps: the updated record
    has no close pending when the old one and the source of a transfer had
    none. *)
Lemma no_pending_close_update w c h' :
  no_pending_close w → window_closing_ h' = false →
  no_pending_close (with_helpers (<[c := h']> (helpers w)) w).
Proof.
  intros Hn Hc c' h. wsimpl. destruct (decide (c = c')) as [->|Hne].
  - rewrite lookup_insert_eq. by intros [= <-].
  - rewrite lookup_insert_ne by done. apply Hn.
Qed.

Lemma quiet_close_update w c h h' :
  quiet_close w → helpers w !! c = Some h →
  (window_closing_ h = false → window_closing_ h' = false) →
  quiet_close (with_helpers (<[c := h']> (helpers w)) w).
Proof.
  intros [Hn Hq] Hh Hc. split; [|done].
  apply no_pending_close_update; [done|]. apply Hc. by eapply Hn.
Qed.

Lemma quiet_close_emit w e :
  quiet_close w → (∀ b, e ≠ RequestToClosePage b) →
  quiet_close (with_trace (trace w ++ [e]) w).
Proof.
  intros [Hn Hq] He. split; [done|]. intros b. wsimpl.
  intros [Hin|Hin%list_elem_of_singleton]%elem_of_app; [by apply (Hq b)|].
  by apply (He b).
Qed.

Lemma quiet_close_OnBrowserRemoved self brw :
  hoare quiet_close (OnBrowserRemoved self brw) (λ _, quiet_close).
Proof.
  apply OnBrowserRemoved_stable.
  - intros. by eapply quiet_close_update.
  - intros. by eapply quiet_close_update.
  - intros w c h b [Hn _] Hh Hc. rewrite (Hn c h Hh) in Hc. discriminate Hc.
  - by intros w b br v [??].
  - by intros w b br v [??].
Qed.

Lemma quiet_close_UpdateBrowser self brw :
  hoare quiet_close (UpdateBrowser self brw) (λ _, quiet_close).
Proof.
  apply UpdateBrowser_stable.
  - intros. by eapply quiet_close_update.
  - by intros w b br v [??].
  - by intros w b br v [??].
Qed.

(** X1.  No entry point of the helper ever raises a pending close, and so
    none ever asks a window to close its page: from a world in which no
    record has a close pending and no close was requested, every sequence of
    calls that runs to its end leaves such a world. *)
Theorem calls_never_request_close cs w w' :
  no_pending_close w → no_close_request w →
  calls cs w = Some (tt, w') →
  no_pending_close w' ∧ no_close_request w'.
Proof.
  intros Hn Hq Hrun.
  cut (hoare quiet_close (calls cs) (λ _, quiet_close)).
  { intros Hkeep. exact (Hkeep w tt w' (conj Hn Hq) Hrun). }
  apply calls_keep.
  - intros. by eapply quiet_close_update.
  - intros. by eapply quiet_close_update.
  - intros. by eapply quiet_close_update.
  - intros. by eapply quiet_close_update.
  - intros w0 w1 c c' h h' [Hn0 _] Hh HI Hh'.
    eapply quiet_close_update; [done|done|]. intros _. cbn. by eapply Hn0.
  - intros w0 c [Hn0 Hq0]. split; [|done].
    by apply no_pending_close_update.
  - by intros w0 v [??].
  - by intros w0 v [??].
  - by intros w0 v [??].
  - intros w0 e HI He _. by apply quiet_close_emit.
  - intros w0 c HI. by apply quiet_close_emit.
  - intros w0 c h b [Hn0 _] Hh Hc. rewrite (Hn0 c h Hh) in Hc. discriminate Hc.
  - by intros w0 b br i x [??].
  - by intros w0 b br v [??].
  - intros. by eapply quiet_close_update.
  - apply quiet_close_OnBrowserRemoved.
  - apply quiet_close_UpdateBrowser.
Qed.

Lemma calls_never_request_close_witness :
  no_pending_close real_tab_world ∧ no_close_request real_tab_world ∧
  calls pin_and_detach real_tab_world
    = Some (tt, world_after (calls pin_and_detach) real_tab_world) ∧
  no_pending_close (world_after (calls pin_and_detach) real_tab_world) ∧
  no_close_request (world_after (calls pin_and_detach) real_tab_world).
Proof.
  assert (no_pending_close real_tab_world) as Hn.
  { intros c h Hh. unfold real_tab_world, one_tab_world in Hh. wsimpl.
    apply lookup_singleton_Some in Hh as [_ <-]. reflexivity. }
  assert (no_close_request real_tab_world) as Hq.
  { intros b. apply not_elem_of_nil. }
  assert (calls pin_and_detach real_tab_world
          = Some (tt, world_after (calls pin_and_detach) real_tab_world))
    as Hrun by by_computation.
  exact (conj Hn (conj Hq (conj Hrun
           (calls_never_request_close _ _ _ Hn Hq Hrun)))).
Defined.

(** *** The number of slots *)

Lemma strip_sizes_update w b br br' :
  browsers w !! b = Some br →
  length (tab_strip br') = length (tab_strip br) →
  strip_sizes (with_browsers (<[b := br']> (browsers w)) w) = strip_sizes w.
Proof.
  intros Hbr Hlen. unfold strip_sizes. wsimpl. rewrite fmap_insert.
  apply insert_id. by rewrite lookup_fmap, Hbr, Hlen.
Qed.

Lemma in_place_update w w0 c h h' :
  in_place w w0 → helpers w0 !! c = Some h →
  (window_closing_ h = false → window_closing_ h' = false) →
  in_place w (with_helpers (<[c := h']> (helpers w0)) w0).
Proof.
  intros (Hs & Hn & Ht) Hh Hc. split; [done|]. split; [|done].
  apply no_pending_close_update; [done|]. apply Hc. by eapply Hn.
Qed.

Lemma in_place_browsers w w0 b br br' :
  in_place w w0 → browsers w0 !! b = Some br →
  length (tab_strip br') = length (tab_strip br) →
  in_place w (with_browsers (<[b := br']> (browsers w0)) w0).
Proof.
  intros (Hs & Hn & Ht) Hb Hlen. split; [|done].
  by rewrite (strip_sizes_update w0 b br br').
Qed.

Lemma in_place_emit w w0 e :
  in_place w w0 → removes_slots e = false →
  in_place w (with_trace (trace w0 ++ [e]) w0).
Proof.
  intros (Hs & Hn & t & Ht & Hall) He. split; [done|]. split; [done|].
  exists (t ++ [e]). wsimpl. rewrite Ht, <- app_assoc. split; [done|].
  apply Forall_app. split; [done|]. by constructor.
Qed.

Lemma in_place_OnBrowserRemoved w self brw :
  hoare (in_place w) (OnBrowserRemoved self brw) (λ _, in_place w).
Proof.
  apply OnBrowserRemoved_stable.
  - intros. by eapply in_place_update.
  - intros. by eapply in_place_update.
  - intros w0 c h b (_ & Hn & _) Hh Hc. rewrite (Hn c h Hh) in Hc.
    discriminate Hc.
  - intros w0 b br v HI Hb. by eapply in_place_browsers.
  - intros w0 b br v HI Hb. by eapply in_place_browsers.
Qed.

Lemma in_place_UpdateBrowser w self brw :
  hoare (in_place w) (UpdateBrowser self brw) (λ _, in_place w).
Proof.
  apply UpdateBrowser_stable.
  - intros. by eapply in_place_update.
  - intros w0 b br v HI Hb. by eapply in_place_browsers.
  - intros w0 b br v HI Hb. by eapply in_place_browsers.
Qed.

(** X2.  Attaching, detaching, pinning, reconciling and the strip and window
    notifications never add a slot to a strip or remove one, and never ask
    a collaborator for something that would: from a world in which no close
    is pending, over any sequence of calls without [SetBrowser] and without
    a posted task, every window keeps the number of slots it had, no close
    is pending at the end, and the requests made on the way include neither
    the destruction of a surface nor the close of a window's page. *)
Theorem calls_keep_strip_sizes cs w w' :
  no_pending_close w →
  Forall (λ c, moves_tab c = false) cs →
  calls cs w = Some (tt, w') →
  strip_sizes w' = strip_sizes w ∧ no_pending_close w' ∧
  ∃ t, trace w' = trace w ++ t ∧ Forall (λ e, removes_slots e = false) t.
Proof.
  intros Hn Hcs Hrun.
  cut (hoare (in_place w) (calls cs) (λ _, in_place w)).
  { intros Hkeep. apply (Hkeep w tt w'); [|exact Hrun].
    split; [done|]. split; [done|]. exists []. by rewrite app_nil_r. }
  apply calls_keep_in_place; try done.
  - intros. by eapply in_place_update.
  - intros. by eapply in_place_update.
  - intros. by eapply in_place_update.
  - intros. by eapply in_place_update.
  - intros w0 w1 c c' h h' (_ & Hn0 & _) Hh HI Hh'.
    eapply in_place_update; [done|done|]. intros _. cbn. by eapply Hn0.
  - intros w0 c (Hs & Hn0 & Ht). split; [done|]. split; [|done].
    by apply no_pending_close_update.
  - intros w0 e HI Hclose Hdestroy. apply in_place_emit; [done|].
    destruct e; try done; [by destruct (Hdestroy c)|by destruct (Hclose b)].
  - intros w0 c h b (_ & Hn0 & _) Hh Hc. rewrite (Hn0 c h Hh) in Hc.
    discriminate Hc.
  - intros w0 b br i x HI Hb. eapply in_place_browsers; [done|done|].
    cbn. apply length_insert.
  - apply in_place_OnBrowserRemoved.
  - apply in_place_UpdateBrowser.
Qed.

Lemma calls_keep_strip_sizes_witness :
  no_pending_close attach_world ∧
  Forall (λ c, moves_tab c = false) attach_and_pin ∧
  calls attach_and_pin attach_world
    = Some (tt, world_after (calls attach_and_pin) attach_world) ∧
  strip_sizes (world_after (calls attach_and_pin) attach_world)
    = strip_sizes attach_world.
Proof.
  assert (no_pending_close attach_world) as Hn.
  { intros c h Hh. unfold attach_world in Hh. wsimpl.
    apply lookup_insert_Some in Hh as [[_ <-]|[_ Hh]]; [reflexivity|].
    apply lookup_singleton_Some in Hh as [_ <-]. reflexivity. }
  assert (Forall (λ c, moves_tab c = false) attach_and_pin) as Hcs
    by (repeat constructor).
  assert (calls attach_and_pin attach_world
          = Some (tt, world_after (calls attach_and_pin) attach_world))
    as Hrun by by_computation.
  exact (conj Hn (conj Hcs (conj Hrun
           (proj1 (calls_keep_strip_sizes _ _ _ Hn Hcs Hrun))))).
Defined.

(** *** Owners observe their window *)

Lemma owners_observe_update w c h' :
  owners_observe w →
  (∀ b, browser_ h' = Some b →
        ∃ h, helpers w !! c = Some h ∧ browser_ h = Some b) →
  owners_observe (with_helpers (<[c := h']> (helpers w)) w).
Proof.
  intros HK Hb c' h b. wsimpl. destruct (decide (c = c')) as [->|Hne].
  - rewrite lookup_insert_eq. intros [= <-] Hb'.
    destruct (Hb b Hb') as (h0 & Hh0 & Hb0). by apply (HK c' h0 b).
  - rewrite lookup_insert_ne by done. apply HK.
Qed.

Lemma owners_observe_browsers w b br br' :
  owners_observe w → browsers w !! b = Some br →
  (∀ c, c ∈ strip_observers br → c ∈ strip_observers br'
        ∨ ∀ h, helpers w !! c = Some h → browser_ h ≠ Some b) →
  (∀ c, c ∈ window_observers br → c ∈ window_observers br'
        ∨ ∀ h, helpers w !! c = Some h → browser_ h ≠ Some b) →
  owners_observe (with_browsers (<[b := br']> (browsers w)) w).
Proof.
  intros HK Hbr Hs Hw c h b' Hh Hb'. wsimpl.
  destruct (HK c h b' Hh Hb') as (br0 & Hbr0 & Hso & Hwo).
  destruct (decide (b = b')) as [->|Hne].
  - rewrite lookup_insert_eq. assert (br0 = br) as -> by congruence.
    exists br'. split; [done|]. split.
    + destruct (Hs c Hso) as [?|Hno]; [done|]. by destruct (Hno h Hh).
    + destruct (Hw c Hwo) as [?|Hno]; [done|]. by destruct (Hno h Hh).
  - rewrite lookup_insert_ne by done. eauto.
Qed.

Lemma owners_observe_same_observers w b br br' :
  owners_observe w → browsers w !! b = Some br →
  strip_observers br' = strip_observers br →
  window_observers br' = window_observers br →
  owners_observe (with_browsers (<[b := br']> (browsers w)) w).
Proof.
  intros HK Hbr Hs Hw. apply (owners_observe_browsers w b br br'); [done|done|..].
  - intros c Hc. left. by rewrite Hs.
  - intros c Hc. left. by rewrite Hw.
Qed.

Lemma elem_of_RemoveObserver self l c :
  c ∈ RemoveObserver self l ↔ c ∈ l ∧ c ≠ self.
Proof. unfold RemoveObserver. rewrite list_elem_of_filter. tauto. Qed.

Lemma elem_of_AddObserver self l c :
  c ∈ AddObserver self l ↔ c ∈ l ∨ c = self.
Proof.
  unfold AddObserver. case_bool_decide as Hin.
  - split; [by left|]. intros [?| ->]; done.
  - rewrite elem_of_app, list_elem_of_singleton. tauto.
Qed.

Lemma owners_observe_trace w t : owners_observe w → owners_observe (with_trace t w).
Proof. done. Qed.

Lemma owners_observe_OnBrowserRemoved self brw :
  hoare owners_observe (OnBrowserRemoved self brw) (λ _, owners_observe).
Proof.
  unfold OnBrowserRemoved. eapply hoare_bind.
  { apply MaybeRequestWindowClose_keeps. intros. by apply owners_observe_trace. }
  intros _ w a w' HK Hrun. unfold_monad.
  destruct (helpers w !! self) as [h|] eqn:Hh; [|done]. cbn in Hrun.
  destruct (browser_ h) as [b|] eqn:Hb; [|by simplify_eq].
  case_bool_decide as Hbrw; [|by simplify_eq].
  destruct (browsers w !! b) as [br|] eqn:Hbr; [|done].
  revert Hrun. run. intros [= Hw']. subst w'.
  intros c hc b'. wsimpl. destruct (decide (c = self)) as [->|Hne].
  - rewrite lookup_insert_eq. by intros [= <-].
  - rewrite !lookup_insert_ne by done. intros Hc Hb'.
    destruct (HK c hc b' Hc Hb') as (br0 & Hbr0 & Hso & Hwo).
    destruct (decide (b' = b)) as [->|Hneb].
    + rewrite lookup_insert_eq. assert (br0 = br) as -> by congruence.
      eexists. split; [done|]. cbn.
      split; by apply elem_of_RemoveObserver.
    + rewrite !lookup_insert_ne by done. eauto.
Qed.

Lemma owners_observe_UpdateBrowser self brw :
  hoare owners_observe (UpdateBrowser self brw) (λ _, owners_observe).
Proof.
  intros w a w' HK Hrun. unfold UpdateBrowser in Hrun. unfold_monad.
  destruct (helpers w !! self) as [h|] eqn:Hh; [|done]. cbn in Hrun.
  destruct brw as [b|]; [|done].
  wsimpl.
  destruct (browsers w !! b) as [br|] eqn:Hbr; [|done].
  revert Hrun. run. intros [= Hw']. subst w'.
  intros c hc b'. wsimpl. destruct (decide (c = self)) as [->|Hne].
  - rewrite lookup_insert_eq. intros [= <-]. cbn. intros [= <-].
    rewrite lookup_insert_eq. eexists. split; [done|]. cbn.
    split; apply elem_of_AddObserver; by right.
  - rewrite !lookup_insert_ne by done. intros Hc Hb'.
    destruct (HK c hc b' Hc Hb') as (br0 & Hbr0 & Hso & Hwo).
    destruct (decide (b' = b)) as [->|Hneb].
    + rewrite lookup_insert_eq. assert (br0 = br) as -> by congruence.
      eexists. split; [done|]. cbn.
      split; apply elem_of_AddObserver; by left.
    + rewrite !lookup_insert_ne by done. eauto.
Qed.

(** X3.  A record that names a window is always registered with it: if
    every tab whose record names a window observes that window's strip and
    native window, the same holds after any sequence of calls.  The strip
    and the window therefore reach every tab they own with their
    notifications. *)
Theorem calls_keep_owners_observing cs w w' :
  owners_observe w → calls cs w = Some (tt, w') → owners_observe w'.
Proof.
  intros HK Hrun.
  cut (hoare owners_observe (calls cs) (λ _, owners_observe)).
  { intros Hkeep. exact (Hkeep w tt w' HK Hrun). }
  assert (∀ w0 c h h', owners_observe w0 → helpers w0 !! c = Some h →
            browser_ h' = browser_ h ∨ browser_ h' = None →
            owners_observe (with_helpers (<[c := h']> (helpers w0)) w0))
    as Hupd.
  { intros w0 c h h' HK0 Hh Hb. apply owners_observe_update; [done|].
    intros b Hb'. destruct Hb as [Hb|Hb]; [|congruence].
    exists h. split; [done|congruence]. }
  apply calls_keep; try done.
  - intros. eapply Hupd; eauto.
  - intros. eapply Hupd; eauto.
  - intros. eapply Hupd; eauto.
  - intros. eapply Hupd; eauto.
  - intros w0 w1 c c' h h' _ _ HK1 Hh'. eapply Hupd; eauto.
  - intros w0 c HK0. apply owners_observe_update; [done|]. by intros b [=].
  - intros w0 b br i x HK0 Hb. by eapply owners_observe_same_observers.
  - intros w0 b br v HK0 Hb. by eapply owners_observe_same_observers.
  - intros. eapply Hupd; eauto.
  - apply owners_observe_OnBrowserRemoved.
  - apply owners_observe_UpdateBrowser.
Qed.

Lemma calls_keep_owners_observing_witness :
  owners_observe scenario_C ∧
  calls move_between_windows scenario_C
    = Some (tt, world_after (calls move_between_windows) scenario_C) ∧
  owners_observe (world_after (calls move_between_windows) scenario_C).
Proof.
  assert (owners_observe scenario_C) as HK.
  { intros c h b Hh Hb. unfold scenario_C in *. wsimpl.
    apply lookup_insert_Some in Hh as [[<- <-]|[_ Hh]].
    - injection Hb as <-. eexists. split; [reflexivity|].
      split; apply list_elem_of_singleton; reflexivity.
    - apply lookup_singleton_Some in Hh as [<- <-].
      injection Hb as <-. eexists. split; [reflexivity|].
      split; apply list_elem_of_singleton; reflexivity. }
  assert (calls move_between_windows scenario_C
          = Some (tt, world_after (calls move_between_windows) scenario_C))
    as Hrun by by_computation.
  exact (conj HK (conj Hrun (calls_keep_owners_observing _ _ _ HK Hrun))).
Defined.

(** *** Leaving a window *)

Lemma OnBrowserRemoved_run w self h b br :
  helpers w !! self = Some h → browser_ h = Some b →
  browsers w !! b = Some br →
  OnBrowserRemoved self (Some b) w
  = Some (tt,
      with_helpers (<[self := set_index_ kNoTab (set_browser_ None h)]> (helpers w))
        (with_browsers
           (<[b := mkBrowser (session_id br) (tab_strip br)
                     (RemoveObserver self (strip_observers br))
                     (RemoveObserver self (window_observers br))]> (browsers w))
           (with_trace (trace w ++ close_request h) w))).
Proof.
  intros Hh Hb Hbr.
  unfold OnBrowserRemoved, MaybeRequestWindowClose. unfold_monad.
  unfold browser, close_request. run.
  destruct (window_closing_ h) eqn:Hc; run;
    rewrite bool_decide_eq_true_2 by done; run;
    do 2 f_equal; apply world_eq; wsimpl; try reflexivity.
  - by rewrite insert_insert_eq.
  - by rewrite insert_insert_eq.
  - by rewrite insert_insert_eq.
  - by rewrite insert_insert_eq.
  - by rewrite app_nil_r.
Qed.

Lemma OnBrowserRemoved_skip w self h brw :
  helpers w !! self = Some h →
  browser_ h = None ∨ browser_ h ≠ brw →
  OnBrowserRemoved self brw w
  = Some (tt, with_trace (trace w ++ close_request h) w).
Proof.
  intros Hh Hb.
  unfold OnBrowserRemoved. unfold bind at 1.
  rewrite (MaybeRequestWindowClose_run w self h Hh).
  unfold_monad. wsimpl. rewrite Hh. cbn.
  destruct (browser_ h) as [b|] eqn:Hbh; [|done].
  rewrite bool_decide_eq_false_2; [done|]. by destruct Hb.
Qed.

(** X4.  When the window a tab belongs to is removed, the tab's record
    forgets the window and its index and the tab stops observing the strip
    and the native window, while every other observer stays registered.
    The strip itself is not touched: the surface keeps the slot it had,
    although the record now answers [kNoTab] for its strip index. *)
Theorem OnBrowserRemoved_unregisters_but_keeps_slot w self h b br :
  helpers w !! self = Some h → browser_ h = Some b →
  browsers w !! b = Some br →
  ∃ w' br',
    OnBrowserRemoved self (Some b) w = Some (tt, w') ∧
    helpers w' !! self = Some (set_index_ kNoTab (set_browser_ None h)) ∧
    browsers w' !! b = Some br' ∧
    tab_strip br' = tab_strip br ∧
    (∀ c, c ∈ strip_observers br' ↔ c ∈ strip_observers br ∧ c ≠ self) ∧
    (∀ c, c ∈ window_observers br' ↔ c ∈ window_observers br ∧ c ≠ self) ∧
    get_tab_strip_index self w' = Some (kNoTab, w').
Proof.
  intros Hh Hb Hbr. eexists _, _.
  split; [by apply (OnBrowserRemoved_run w self h b br)|].
  wsimpl. rewrite !lookup_insert_eq.
  split; [done|]. split; [done|]. cbn. split; [done|].
  split; [intros c; apply elem_of_RemoveObserver|].
  split; [intros c; apply elem_of_RemoveObserver|].
  unfold get_tab_strip_index. unfold_monad. wsimpl.
  by rewrite lookup_insert_eq.
Qed.

Lemma OnBrowserRemoved_unregisters_but_keeps_slot_witness :
  helpers scenario_C !! 3%nat = Some closing_tab ∧
  browser_ closing_tab = Some 2%nat ∧
  browsers scenario_C !! 2%nat = Some (mkBrowser 12 [3%nat] [3%nat] [3%nat]) ∧
  ∃ w' br',
    OnBrowserRemoved 3%nat (Some 2%nat) scenario_C = Some (tt, w') ∧
    browsers w' !! 2%nat = Some br' ∧
    tab_strip br' = [3%nat] ∧
    get_tab_strip_index 3%nat w' = Some (kNoTab, w').
Proof.
  split; [reflexivity|]. split; [reflexivity|]. split; [reflexivity|].
  destruct (OnBrowserRemoved_unregisters_but_keeps_slot
              scenario_C 3%nat closing_tab 2%nat
              (mkBrowser 12 [3%nat] [3%nat] [3%nat]) eq_refl eq_refl eq_refl)
    as (w' & br' & Hrun & _ & Hbr' & Hstrip & _ & _ & Hidx).
  exists w', br'. done.
Defined.

(** X5.  The removal of a window the tab does not belong to, or of any
    window when the tab belongs to none, leaves every record, every strip
    and every observer list as they were: all the call can do is repeat a
    pending close request to the tab's own window. *)
Theorem OnBrowserRemoved_of_other_window w self h brw :
  helpers w !! self = Some h →
  browser_ h = None ∨ browser_ h ≠ brw →
  ∃ w', OnBrowserRemoved self brw w = Some (tt, w') ∧
    helpers w' = helpers w ∧ guests w' = guests w ∧
    browsers w' = browsers w ∧ posted_tasks w' = posted_tasks w ∧
    (∀ e, e ∈ trace w' →
          e ∈ trace w ∨
          ∃ b, e = RequestToClosePage b ∧ browser_ h = Some b ∧
               window_closing_ h = true).
Proof.
  intros Hh Hb. eexists. split; [by apply OnBrowserRemoved_skip|].
  wsimpl. repeat (split; [done|]).
  intros e He. apply elem_of_app in He as [He|He]; [by left|right].
  unfold close_request, browser in He.
  destruct (window_closing_ h); [|by apply not_elem_of_nil in He].
  destruct (browser_ h) as [b|]; [|by apply not_elem_of_nil in He].
  apply list_elem_of_singleton in He. eauto.
Qed.

Lemma OnBrowserRemoved_of_other_window_witness :
  helpers scenario_C !! 3%nat = Some closing_tab ∧
  (browser_ closing_tab = None ∨ browser_ closing_tab ≠ Some 1%nat) ∧
  ∃ w', OnBrowserRemoved 3%nat (Some 1%nat) scenario_C = Some (tt, w') ∧
    helpers w' = helpers scenario_C ∧ browsers w' = browsers scenario_C.
Proof.
  assert (browser_ closing_tab = None ∨ browser_ closing_tab ≠ Some 1%nat)
    as Hb by (right; discriminate).
  split; [reflexivity|]. split; [exact Hb|].
  destruct (OnBrowserRemoved_of_other_window
              scenario_C 3%nat closing_tab (Some 1%nat) eq_refl Hb)
    as (w' & Hrun & Hh & _ & Hbr & _).
  exists w'. done.
Defined.

(** *** What reconciliation leaves alone *)

(** X6.  Reconciliation of a pinned tab never moves, pins, unpins, closes
    or destroys anything: the strips, the observer lists, the task queue,
    the navigation histories and the records and guests of all other tabs
    are as before, the tab's own record keeps its index, pin flag, window
    and pending close, a loaded tab never becomes a placeholder, and the
    only requests it can add are the end of the user gesture and the load
    of the tab itself. *)
Theorem MaybeAttachOrCreatePinnedTab_frame w self w' :
  MaybeAttachOrCreatePinnedTab self w = Some (tt, w') →
  browsers w' = browsers w ∧ posted_tasks w' = posted_tasks w ∧
  controllers w' = controllers w ∧
  (∀ c, c ≠ self →
        helpers w' !! c = helpers w !! c ∧ guests w' !! c = guests w !! c) ∧
  (∀ h, helpers w !! self = Some h →
        ∃ h', helpers w' !! self = Some h' ∧
              index_ h' = index_ h ∧ pinned_ h' = pinned_ h ∧
              browser_ h' = browser_ h ∧
              window_closing_ h' = window_closing_ h ∧
              (is_placeholder_ h' = true → is_placeholder_ h = true)) ∧
  (∀ e, e ∈ trace w' →
        e ∈ trace w ∨ e = UserGestureDone self ∨ e = Load self).
Proof.
  intros Hrun.
  destruct (MaybeAttachOrCreatePinnedTab_cases w self w' Hrun)
    as [->|(h & g & Hh & Hg & Hr & ->)].
  - repeat (split; [done|]). split; [|by left].
    intros h Hh. exists h. done.
  - unfold promoted. wsimpl. repeat (split; [done|]).
    split; [|split].
    + intros c Hne. by rewrite !lookup_insert_ne.
    + intros h0 Hh0. assert (h0 = h) as -> by congruence.
      rewrite lookup_insert_eq. eexists. split; [done|]. cbn.
      repeat (split; [done|]). discriminate.
    + intros e He. apply elem_of_app in He as [He|He]; [by left|right].
      apply elem_of_cons in He as [->|He]; [by left|right].
      by apply list_elem_of_singleton in He.
Qed.

Lemma MaybeAttachOrCreatePinnedTab_frame_witness :
  MaybeAttachOrCreatePinnedTab 0%nat scenario_B
    = Some (tt, world_after (MaybeAttachOrCreatePinnedTab 0%nat) scenario_B) ∧
  browsers (world_after (MaybeAttachOrCreatePinnedTab 0%nat) scenario_B)
    = browsers scenario_B.
Proof.
  assert (MaybeAttachOrCreatePinnedTab 0%nat scenario_B
          = Some (tt, world_after (MaybeAttachOrCreatePinnedTab 0%nat)
                        scenario_B)) as Hrun by by_computation.
  exact (conj Hrun (proj1 (MaybeAttachOrCreatePinnedTab_frame _ _ _ Hrun))).
Defined.

(** *** Resolving a slot *)

Lemma index_from_first i c strip j :
  c ∈ strip → (j < Z.to_nat (index_from i c strip - i))%nat →
  strip !! j ≠ Some c.
Proof.
  revert i j. induction strip as [|x rest IH]; intros i j Hin Hj.
  - by apply not_elem_of_nil in Hin.
  - cbn [index_from] in *. case_bool_decide as Hx.
    + rewrite Z.sub_diag in Hj. cbn in Hj. lia.
    + apply elem_of_cons in Hin as [->|Hin]; [done|].
      destruct j as [|j]; [cbn; congruence|]. cbn. apply (IH (i + 1)); [done|].
      pose proof (index_from_range (i + 1) c rest Hin) as [Hr _]. lia.
Qed.

(** X7.  The strip index a tab reports for itself is the first slot of its
    window's strip that holds it: the slot exists, holds the tab, and no
    earlier slot does.  A tab that is in no slot of the strip of the window
    its record names reports [kNoTab].  Asking changes nothing. *)
Theorem get_tab_strip_index_first_slot w self h b br :
  helpers w !! self = Some h → browser_ h = Some b →
  browsers w !! b = Some br →
  ∃ r, get_tab_strip_index self w = Some (r, w) ∧
    (self ∉ tab_strip br → r = kNoTab) ∧
    (self ∈ tab_strip br →
       ContainsIndex (tab_strip br) r = true ∧
       tab_strip br !! Z.to_nat r = Some self ∧
       ∀ j, (j < Z.to_nat r)%nat → tab_strip br !! j ≠ Some self).
Proof.
  intros Hh Hb Hbr. exists (GetIndexOfWebContents (tab_strip br) self).
  split; [|split].
  - unfold get_tab_strip_index. unfold_monad. rewrite Hh. unfold browser.
    by rewrite Hb, Hbr.
  - apply index_from_absent.
  - intros Hin. destruct (GetIndexOfWebContents_contains _ _ Hin) as [Hc Hl].
    split; [done|]. split; [done|]. intros j Hj.
    apply (index_from_first 0 self (tab_strip br) j Hin).
    unfold GetIndexOfWebContents in Hj. by rewrite Z.sub_0_r.
Qed.

Lemma get_tab_strip_index_first_slot_witness :
  helpers third_slot_world !! 1%nat
    = Some (set_browser_ (Some 1%nat) new_TabHelper) ∧
  browser_ (set_browser_ (Some 1%nat) new_TabHelper) = Some 1%nat ∧
  browsers third_slot_world !! 1%nat
    = Some (window_1 [7%nat; 8%nat; 1%nat; 1%nat]) ∧
  1%nat ∈ [7%nat; 8%nat; 1%nat; 1%nat] ∧
  ∃ r, get_tab_strip_index 1%nat third_slot_world
         = Some (r, third_slot_world) ∧
       [7%nat; 8%nat; 1%nat; 1%nat] !! Z.to_nat r = Some 1%nat ∧
       ∀ j, (j < Z.to_nat r)%nat →
            [7%nat; 8%nat; 1%nat; 1%nat] !! j ≠ Some 1%nat.
Proof.
  assert (1%nat ∈ [7%nat; 8%nat; 1%nat; 1%nat]) as Hin.
  { apply elem_of_cons; right. apply elem_of_cons; right.
    apply elem_of_cons; by left. }
  split; [reflexivity|]. split; [reflexivity|]. split; [reflexivity|].
  split; [exact Hin|].
  destruct (get_tab_strip_index_first_slot
              third_slot_world 1%nat (set_browser_ (Some 1%nat) new_TabHelper)
              1%nat (window_1 [7%nat; 8%nat; 1%nat; 1%nat])
              eq_refl eq_refl eq_refl)
    as (r & Hrun & _ & Hfound).
  exists r. split; [exact Hrun|]. exact (proj2 (Hfound Hin)).
Defined.

Lemma GetTabStripIndex_from_sound tabs window_id index w r w' :
  GetTabStripIndex_from tabs window_id index w = Some (r, w') →
  r = kNoTab ∨
  ∃ c h b br,
    c ∈ tabs ∧ helpers w !! c = Some h ∧
    get_index h = index ∧ session_window_id h = window_id ∧
    browser_ h = Some b ∧ browsers w !! b = Some br ∧
    ContainsIndex (tab_strip br) r = true ∧
    tab_strip br !! Z.to_nat r = Some c.
Proof.
  induction tabs as [|c rest IH]; cbn [GetTabStripIndex_from].
  - unfold ret. intros [= <- _]. by left.
  - unfold bind at 1, FromWebContents, gets.
    assert (GetTabStripIndex_from rest window_id index w = Some (r, w') →
            r = kNoTab ∨
            ∃ c' h b br,
              c' ∈ c :: rest ∧ helpers w !! c' = Some h ∧
              get_index h = index ∧ session_window_id h = window_id ∧
              browser_ h = Some b ∧ browsers w !! b = Some br ∧
              ContainsIndex (tab_strip br) r = true ∧
              tab_strip br !! Z.to_nat r = Some c') as Hrest.
    { intros Hrun. destruct (IH Hrun) as [?|(c' & h & b & br & Hin & H)];
        [by left|right].
      exists c', h, b, br. split; [|done]. apply elem_of_cons. by right. }
    destruct (helpers w !! c) as [h|] eqn:Hh; [|exact Hrest].
    destruct ((get_index h =? index) && (session_window_id h =? window_id))
      eqn:Htest; [|exact Hrest].
    apply andb_true_iff in Htest as [Hi%Z.eqb_eq Hw%Z.eqb_eq].
    unfold get_tab_strip_index. unfold_monad. rewrite Hh. unfold browser.
    destruct (browser_ h) as [b|] eqn:Hb; [|intros [= <- _]; by left].
    destruct (browsers w !! b) as [br|] eqn:Hbr; [|done].
    intros [= <- _].
    destruct (decide (c ∈ tab_strip br)) as [Hin|Hout].
    + right. exists c, h, b, br.
      destruct (GetIndexOfWebContents_contains _ _ Hin) as [Hc Hl].
      split; [apply elem_of_cons; by left|]. done.
    + left. by apply index_from_absent.
Qed.

(** X8.  Whatever [GetTabStripIndex] answers for a window id and a logical
    index is either [kNoTab] or a slot that exists and holds a tab of some
    strip whose record carries that index and that window id; the slot is
    in the strip of the window that record names.  The search changes
    nothing. *)
Theorem GetTabStripIndex_answers_a_matching_slot window_id index w r w' :
  GetTabStripIndex window_id index w = Some (r, w') →
  w' = w ∧
  (r = kNoTab ∨
   ∃ c h b br,
     c ∈ all_tabs w ∧ helpers w !! c = Some h ∧
     get_index h = index ∧ session_window_id h = window_id ∧
     browser_ h = Some b ∧ browsers w !! b = Some br ∧
     ContainsIndex (tab_strip br) r = true ∧
     tab_strip br !! Z.to_nat r = Some c).
Proof.
  intros Hrun. split; [by eapply GetTabStripIndex_pure|].
  unfold GetTabStripIndex, bind, TabContentsIterator, gets in Hrun.
  by eapply GetTabStripIndex_from_sound.
Qed.

Lemma GetTabStripIndex_answers_a_matching_slot_witness :
  GetTabStripIndex 11 5 attach_world = Some (0, attach_world) ∧
  (0 = kNoTab ∨
   ∃ c h b br,
     c ∈ all_tabs attach_world ∧ helpers attach_world !! c = Some h ∧
     get_index h = 5 ∧ session_window_id h = 11 ∧
     browser_ h = Some b ∧ browsers attach_world !! b = Some br ∧
     ContainsIndex (tab_strip br) 0 = true ∧
     tab_strip br !! Z.to_nat 0 = Some c).
Proof.
  assert (GetTabStripIndex 11 5 attach_world = Some (0, attach_world))
    as Hrun by by_computation.
  exact (conj Hrun
           (proj2 (GetTabStripIndex_answers_a_matching_slot _ _ _ _ _ Hrun))).
Defined.

(** X9.  When no tab of any strip has a record with the given logical
    index and window id, [GetTabStripIndex] answers [kNoTab]: it neither
    fails nor changes anything, whatever else the strips hold, tabs without
    a record included. *)
Theorem GetTabStripIndex_without_match window_id index w :
  (∀ c h, c ∈ all_tabs w → helpers w !! c = Some h →
          get_index h ≠ index ∨ session_window_id h ≠ window_id) →
  GetTabStripIndex window_id index w = Some (kNoTab, w).
Proof.
  intros Hno. unfold GetTabStripIndex, bind, TabContentsIterator, gets.
  by apply GetTabStripIndex_from_absent.
Qed.

Lemma GetTabStripIndex_without_match_witness :
  (∀ c h, c ∈ all_tabs scenario_D → helpers scenario_D !! c = Some h →
          get_index h ≠ 5 ∨ session_window_id h ≠ 11) ∧
  GetTabStripIndex 11 5 scenario_D = Some (kNoTab, scenario_D).
Proof.
  assert (∀ c h, c ∈ all_tabs scenario_D → helpers scenario_D !! c = Some h →
            get_index h ≠ 5 ∨ session_window_id h ≠ 11) as Hno.
  { intros c h Hin Hh.
    change (all_tabs scenario_D) with [7%nat; 8%nat; 1%nat] in Hin.
    apply elem_of_cons in Hin as [->|Hin]; [discriminate Hh|].
    apply elem_of_cons in Hin as [->|Hin]; [discriminate Hh|].
    apply list_elem_of_singleton in Hin as ->.
    injection Hh as <-. left. discriminate. }
  exact (conj Hno (GetTabStripIndex_without_match 11 5 scenario_D Hno)).
Defined.

(** *** Moving a tab between windows *)

Lemma DetachWebContentsAt_run w b br index :
  browsers w !! b = Some br → ContainsIndex (tab_strip br) index = true →
  DetachWebContentsAt b index w
  = Some (tt,
      with_browsers
        (<[b := set_tab_strip (delete (Z.to_nat index) (tab_strip br)) br]>
           (browsers w)) w).
Proof.
  intros Hbr Hc. unfold DetachWebContentsAt. unfold_monad. rewrite Hbr.
  destruct (tab_strip br) as [|x rest] eqn:Hstrip.
  - unfold ContainsIndex in Hc. cbn in Hc.
    apply andb_true_iff in Hc as [?%Z.leb_le ?%Z.ltb_lt]. lia.
  - rewrite Hc, Hbr. by rewrite Hstrip.
Qed.

Lemma UpdateBrowser_run w self h b br :
  helpers w !! self = Some h → browsers w !! b = Some br →
  UpdateBrowser self (Some b) w
  = Some (tt,
      with_helpers (<[self := set_browser_ (Some b) h]> (helpers w))
        (with_browsers
           (<[b := mkBrowser (session_id br) (tab_strip br)
                     (AddObserver self (strip_observers br))
                     (AddObserver self (window_observers br))]> (browsers w))
           w)).
Proof.
  intros Hh Hbr. unfold UpdateBrowser. unfold_monad. run.
  do 2 f_equal. apply world_eq; wsimpl; try reflexivity.
  by rewrite insert_insert_eq.
Qed.

Lemma AppendWebContents_run w b br c foreground :
  browsers w !! b = Some br →
  AppendWebContents b c foreground w
  = Some (tt,
      with_browsers
        (<[b := set_tab_strip (tab_strip br ++ [c]) br]> (browsers w)) w).
Proof. intros Hbr. unfold AppendWebContents. unfold_monad. by rewrite Hbr. Qed.

Lemma SetBrowser_attach_run w self h b br :
  helpers w !! self = Some h → browser_ h = None →
  browsers w !! b = Some br →
  SetBrowser self (Some b) w
  = Some (tt,
      with_helpers (<[self := set_browser_ (Some b) h]> (helpers w))
        (with_browsers
           (<[b := mkBrowser (session_id br) (tab_strip br ++ [self])
                     (AddObserver self (strip_observers br))
                     (AddObserver self (window_observers br))]> (browsers w))
           w)).
Proof.
  intros Hh Hb Hbr.
  unfold SetBrowser, UpdateBrowser, AppendWebContents. unfold_monad.
  rewrite Hh. cbn. rewrite Hb.
  rewrite bool_decide_eq_false_2 by discriminate. run.
  do 2 f_equal. apply world_eq; wsimpl; try reflexivity.
  by rewrite !insert_insert_eq.
Qed.

Lemma SetBrowser_move_run w self h b1 br1 b2 br2 :
  helpers w !! self = Some h → browser_ h = Some b1 → b1 ≠ b2 →
  browsers w !! b1 = Some br1 → browsers w !! b2 = Some br2 →
  self ∈ tab_strip br1 →
  SetBrowser self (Some b2) w
  = Some (tt,
      with_helpers
        (<[self := set_browser_ (Some b2) (set_index_ kNoTab h)]> (helpers w))
        (with_browsers
           (<[b2 := mkBrowser (session_id br2) (tab_strip br2 ++ [self])
                      (AddObserver self (strip_observers br2))
                      (AddObserver self (window_observers br2))]>
              (<[b1 := mkBrowser (session_id br1)
                         (delete
                            (Z.to_nat
                               (GetIndexOfWebContents (tab_strip br1) self))
                            (tab_strip br1))
                         (RemoveObserver self (strip_observers br1))
                         (RemoveObserver self (window_observers br1))]>
                 (browsers w)))
           (with_trace (trace w ++ close_request h) w))).
Proof.
  intros Hh Hb Hne Hbr1 Hbr2 Hin.
  destruct (GetIndexOfWebContents_contains _ _ Hin) as [Hc Hl].
  assert (GetIndexOfWebContents (tab_strip br1) self ≠ kNoTab) as Hidx.
  { unfold ContainsIndex in Hc. apply andb_true_iff in Hc as [Hc _].
    apply Z.leb_le in Hc. unfold kNoTab. lia. }
  pose proof (get_tab_strip_index_run w self h b1 br1 Hh Hb Hbr1) as Hslot.
  unfold SetBrowser.
  rewrite (bind_run _ _ _ _ _ (helper_run w self h Hh)). cbv beta.
  rewrite Hb, bool_decide_eq_false_2 by congruence.
  rewrite (bind_run _ _ w tt
             (with_helpers
                (<[self := set_index_ kNoTab (set_browser_ None h)]> (helpers w))
                (with_browsers
                   (<[b1 := mkBrowser (session_id br1)
                              (delete
                                 (Z.to_nat
                                    (GetIndexOfWebContents (tab_strip br1) self))
                                 (tab_strip br1))
                              (RemoveObserver self (strip_observers br1))
                              (RemoveObserver self (window_observers br1))]>
                      (browsers w))
                   (with_trace (trace w ++ close_request h) w)))).
  - erewrite bind_run; cycle 1.
    { apply (UpdateBrowser_run _ self (set_index_ kNoTab (set_browser_ None h))
               b2 br2); wsimpl.
      - by rewrite lookup_insert_eq.
      - by rewrite lookup_insert_ne. }
    erewrite bind_run; cycle 1.
    { apply helper_run. wsimpl. by rewrite lookup_insert_eq. }
    cbn [browser_ set_browser_].
    erewrite AppendWebContents_run; cycle 1.
    { wsimpl. by rewrite lookup_insert_eq. }
    do 2 f_equal. apply world_eq; wsimpl; try reflexivity.
    + by rewrite insert_insert_eq.
    + by rewrite insert_insert_eq.
  - cbv beta. rewrite (bind_run _ _ _ _ _ Hslot).
    rewrite bool_decide_eq_true_2 by done.
    assert ((let* strip_index := get_tab_strip_index self in
             DetachWebContentsAt b1 strip_index) w
            = Some (tt,
                with_browsers
                  (<[b1 := set_tab_strip
                             (delete
                                (Z.to_nat
                                   (GetIndexOfWebContents (tab_strip br1) self))
                                (tab_strip br1)) br1]> (browsers w)) w))
      as Hdetach.
    { rewrite (bind_run _ _ _ _ _ Hslot). by apply DetachWebContentsAt_run. }
    rewrite (bind_run _ _ _ _ _ Hdetach).
    erewrite bind_run; cycle 1.
    { apply helper_run. wsimpl. exact Hh. }
    rewrite Hb. erewrite OnBrowserRemoved_run; cycle 1.
    { wsimpl. exact Hh. }
    { exact Hb. }
    { wsimpl. by rewrite lookup_insert_eq. }
    do 2 f_equal. apply world_eq; wsimpl; try reflexivity.
    by rewrite insert_insert_eq.
Qed.

Lemma SetBrowser_clear_run w self h b br :
  helpers w !! self = Some h → browser_ h = Some b →
  browsers w !! b = Some br → self ∈ tab_strip br →
  SetBrowser self None w
  = Some (tt,
      with_helpers
        (<[self := set_index_ kNoTab (set_browser_ None h)]> (helpers w))
        (with_browsers
           (<[b := mkBrowser (session_id br)
                     (delete
                        (Z.to_nat (GetIndexOfWebContents (tab_strip br) self))
                        (tab_strip br))
                     (RemoveObserver self (strip_observers br))
                     (RemoveObserver self (window_observers br))]>
              (browsers w))
           (with_trace (trace w ++ close_request h) w))).
Proof.
  intros Hh Hb Hbr Hin.
  destruct (GetIndexOfWebContents_contains _ _ Hin) as [Hc Hl].
  assert (GetIndexOfWebContents (tab_strip br) self ≠ kNoTab) as Hidx.
  { unfold ContainsIndex in Hc. apply andb_true_iff in Hc as [Hc _].
    apply Z.leb_le in Hc. unfold kNoTab. lia. }
  pose proof (get_tab_strip_index_run w self h b br Hh Hb Hbr) as Hslot.
  unfold SetBrowser.
  rewrite (bind_run _ _ _ _ _ (helper_run w self h Hh)). cbv beta.
  rewrite Hb, bool_decide_eq_false_2 by congruence.
  rewrite (bind_run _ _ w tt
             (with_helpers
                (<[self := set_index_ kNoTab (set_browser_ None h)]> (helpers w))
                (with_browsers
                   (<[b := mkBrowser (session_id br)
                             (delete
                                (Z.to_nat
                                   (GetIndexOfWebContents (tab_strip br) self))
                                (tab_strip br))
                             (RemoveObserver self (strip_observers br))
                             (RemoveObserver self (window_observers br))]>
                      (browsers w))
                   (with_trace (trace w ++ close_request h) w)))).
  - unfold_monad. wsimpl. rewrite lookup_insert_eq. cbn.
    do 2 f_equal. apply world_eq; wsimpl; try reflexivity.
    by rewrite insert_insert_eq.
  - cbv beta. rewrite (bind_run _ _ _ _ _ Hslot).
    rewrite bool_decide_eq_true_2 by done.
    assert ((let* strip_index := get_tab_strip_index self in
             DetachWebContentsAt b strip_index) w
            = Some (tt,
                with_browsers
                  (<[b := set_tab_strip
                            (delete
                               (Z.to_nat
                                  (GetIndexOfWebContents (tab_strip br) self))
                               (tab_strip br)) br]> (browsers w)) w))
      as Hdetach.
    { rewrite (bind_run _ _ _ _ _ Hslot). by apply DetachWebContentsAt_run. }
    rewrite (bind_run _ _ _ _ _ Hdetach).
    erewrite bind_run; cycle 1.
    { apply helper_run. wsimpl. exact Hh. }
    rewrite Hb. erewrite OnBrowserRemoved_run; cycle 1.
    { wsimpl. exact Hh. }
    { exact Hb. }
    { wsimpl. by rewrite lookup_insert_eq. }
    do 2 f_equal. apply world_eq; wsimpl; try reflexivity.
    by rewrite insert_insert_eq.
Qed.

Lemma index_from_app_last i c strip :
  c ∉ strip → index_from i c (strip ++ [c]) = i + Z.of_nat (length strip).
Proof.
  revert i. induction strip as [|x rest IH]; intros i Hn; cbn [app index_from].
  - rewrite bool_decide_eq_true_2 by done. cbn. lia.
  - apply not_elem_of_cons in Hn as [Hne Hn].
    rewrite bool_decide_eq_false_2 by done. rewrite IH by done.
    cbn [length]. lia.
Qed.

(** X10.  [SetBrowser] on a tab that belongs to no window puts the tab in a
    new slot at the end of the window's strip, makes its record name the
    window and registers it with the strip and the native window.  The
    logical index, the pin flag and the placeholder flag of the record are
    as before, nothing is requested of any collaborator other than the
    strip, and a tab the strip did not hold yet now reports the new last
    slot as its strip index. *)
Theorem SetBrowser_appends_unattached_tab w self h b br :
  helpers w !! self = Some h → browser_ h = None →
  browsers w !! b = Some br →
  ∃ w' br',
    SetBrowser self (Some b) w = Some (tt, w') ∧
    helpers w' !! self = Some (set_browser_ (Some b) h) ∧
    browsers w' !! b = Some br' ∧
    tab_strip br' = tab_strip br ++ [self] ∧
    self ∈ strip_observers br' ∧ self ∈ window_observers br' ∧
    trace w' = trace w ∧
    (self ∉ tab_strip br →
     get_tab_strip_index self w'
     = Some (Z.of_nat (length (tab_strip br)), w')).
Proof.
  intros Hh Hb Hbr. eexists _, _.
  split; [by apply (SetBrowser_attach_run w self h b br)|].
  wsimpl. rewrite !lookup_insert_eq.
  split; [done|]. split; [done|]. cbn. split; [done|].
  split; [apply elem_of_AddObserver; by right|].
  split; [apply elem_of_AddObserver; by right|].
  split; [done|]. intros Hout.
  erewrite get_tab_strip_index_run; cycle 1.
  { wsimpl. by rewrite lookup_insert_eq. }
  { reflexivity. }
  { wsimpl. by rewrite lookup_insert_eq. }
  cbn. unfold GetIndexOfWebContents. by rewrite index_from_app_last.
Qed.

Lemma SetBrowser_appends_unattached_tab_witness :
  helpers attach_world !! 5%nat = Some new_TabHelper ∧
  browser_ new_TabHelper = None ∧
  browsers attach_world !! 1%nat = Some (window_1 [0%nat]) ∧
  ∃ w' br',
    SetBrowser 5%nat (Some 1%nat) attach_world = Some (tt, w') ∧
    helpers w' !! 5%nat = Some (set_browser_ (Some 1%nat) new_TabHelper) ∧
    browsers w' !! 1%nat = Some br' ∧
    tab_strip br' = [0%nat; 5%nat].
Proof.
  split; [reflexivity|]. split; [reflexivity|]. split; [reflexivity|].
  destruct (SetBrowser_appends_unattached_tab
              attach_world 5%nat new_TabHelper 1%nat (window_1 [0%nat])
              eq_refl eq_refl eq_refl)
    as (w' & br' & Hrun & Hh & Hbr & Hstrip & _).
  exists w', br'. done.
Defined.

(** X11.  [SetBrowser] on a tab that sits in the strip of another window
    takes the tab out of the first slot that holds it there, unregisters it
    from that window, appends it to the strip of the new window and
    registers it there.  The record names the new window, and its logical
    index is reset to [kNoTab]; its pin flag and placeholder flag travel
    with it, but the new strip is not asked to pin anything: the only
    request the move can add is a pending close request. *)
Theorem SetBrowser_moves_tab_and_resets_index w self h b1 br1 b2 br2 :
  helpers w !! self = Some h → browser_ h = Some b1 → b1 ≠ b2 →
  browsers w !! b1 = Some br1 → browsers w !! b2 = Some br2 →
  self ∈ tab_strip br1 →
  ∃ w' br1' br2',
    SetBrowser self (Some b2) w = Some (tt, w') ∧
    helpers w' !! self
      = Some (mkTabHelper kNoTab (pinned_ h) (is_placeholder_ h)
                          (window_closing_ h) (Some b2) (session_window_id h)) ∧
    browsers w' !! b1 = Some br1' ∧ browsers w' !! b2 = Some br2' ∧
    tab_strip br1'
      = delete (Z.to_nat (GetIndexOfWebContents (tab_strip br1) self))
               (tab_strip br1) ∧
    length (tab_strip br1) = S (length (tab_strip br1')) ∧
    (self ∉ strip_observers br1') ∧ (self ∉ window_observers br1') ∧
    tab_strip br2' = tab_strip br2 ++ [self] ∧
    self ∈ strip_observers br2' ∧ self ∈ window_observers br2' ∧
    trace w' = trace w ++ close_request h.
Proof.
  intros Hh Hb Hne Hbr1 Hbr2 Hin. eexists _, _, _.
  split; [by apply (SetBrowser_move_run w self h b1 br1 b2 br2)|].
  wsimpl. rewrite lookup_insert_eq, lookup_insert_ne, !lookup_insert_eq by done.
  split; [done|]. split; [done|]. split; [done|]. cbn. split; [done|].
  destruct (GetIndexOfWebContents_contains _ _ Hin) as [_ Hl].
  apply lookup_lt_Some in Hl.
  split.
  { rewrite length_delete by (by apply lookup_lt_is_Some). lia. }
  split; [rewrite elem_of_RemoveObserver; by intros [_ ?]|].
  split; [rewrite elem_of_RemoveObserver; by intros [_ ?]|].
  split; [done|].
  split; [apply elem_of_AddObserver; by right|].
  split; [apply elem_of_AddObserver; by right|]. done.
Qed.

Lemma SetBrowser_moves_tab_and_resets_index_witness :
  helpers real_tab_world !! 0%nat = Some real_tab ∧
  browser_ real_tab = Some 1%nat ∧ 1%nat ≠ 2%nat ∧
  browsers real_tab_world !! 1%nat = Some (window_1 [0%nat]) ∧
  browsers real_tab_world !! 2%nat = Some window_2 ∧
  0%nat ∈ tab_strip (window_1 [0%nat]) ∧
  ∃ w' br1' br2',
    SetBrowser 0%nat (Some 2%nat) real_tab_world = Some (tt, w') ∧
    helpers w' !! 0%nat
      = Some (mkTabHelper kNoTab false false false (Some 2%nat) 11) ∧
    browsers w' !! 1%nat = Some br1' ∧ browsers w' !! 2%nat = Some br2' ∧
    tab_strip br1' = [] ∧ tab_strip br2' = [0%nat].
Proof.
  assert (1%nat ≠ 2%nat) as Hne by discriminate.
  assert (0%nat ∈ tab_strip (window_1 [0%nat])) as Hin
    by (apply list_elem_of_singleton; reflexivity).
  split; [reflexivity|]. split; [reflexivity|]. split; [exact Hne|].
  split; [reflexivity|]. split; [reflexivity|]. split; [exact Hin|].
  destruct (SetBrowser_moves_tab_and_resets_index
              real_tab_world 0%nat real_tab 1%nat (window_1 [0%nat])
              2%nat window_2 eq_refl eq_refl Hne eq_refl eq_refl Hin)
    as (w' & br1' & br2' & Hrun & Hh & Hb1 & Hb2 & Hs1 & _ & _ & _ & Hs2 & _).
  exists w', br1', br2'. done.
Defined.

(** X12.  [SetBrowser] with no window on a tab that sits in the strip of
    its window takes the tab out of the first slot that holds it, which
    shortens the strip by one slot, unregisters it from the strip and the
    native window, and leaves a record without window and without logical
    index. *)
Theorem SetBrowser_null_removes_tab w self h b br :
  helpers w !! self = Some h → browser_ h = Some b →
  browsers w !! b = Some br → self ∈ tab_strip br →
  ∃ w' br',
    SetBrowser self None w = Some (tt, w') ∧
    helpers w' !! self = Some (set_index_ kNoTab (set_browser_ None h)) ∧
    browsers w' !! b = Some br' ∧
    tab_strip br'
      = delete (Z.to_nat (GetIndexOfWebContents (tab_strip br) self))
               (tab_strip br) ∧
    length (tab_strip br) = S (length (tab_strip br')) ∧
    (∀ c, c ∈ strip_observers br' ↔ c ∈ strip_observers br ∧ c ≠ self) ∧
    (∀ c, c ∈ window_observers br' ↔ c ∈ window_observers br ∧ c ≠ self) ∧
    get_tab_strip_index self w' = Some (kNoTab, w').
Proof.
  intros Hh Hb Hbr Hin. eexists _, _.
  split; [by apply (SetBrowser_clear_run w self h b br)|].
  wsimpl. rewrite !lookup_insert_eq.
  split; [done|]. split; [done|]. cbn. split; [done|].
  destruct (GetIndexOfWebContents_contains _ _ Hin) as [_ Hl].
  apply lookup_lt_Some in Hl.
  split.
  { rewrite length_delete by (by apply lookup_lt_is_Some). lia. }
  split; [intros c; apply elem_of_RemoveObserver|].
  split; [intros c; apply elem_of_RemoveObserver|].
  unfold get_tab_strip_index. unfold_monad. wsimpl.
  by rewrite lookup_insert_eq.
Qed.

Lemma SetBrowser_null_removes_tab_witness :
  helpers third_slot_world !! 1%nat
    = Some (set_browser_ (Some 1%nat) new_TabHelper) ∧
  browser_ (set_browser_ (Some 1%nat) new_TabHelper) = Some 1%nat ∧
  browsers third_slot_world !! 1%nat
    = Some (window_1 [7%nat; 8%nat; 1%nat; 1%nat]) ∧
  1%nat ∈ tab_strip (window_1 [7%nat; 8%nat; 1%nat; 1%nat]) ∧
  ∃ w' br',
    SetBrowser 1%nat None third_slot_world = Some (tt, w') ∧
    browsers w' !! 1%nat = Some br' ∧
    tab_strip br' = [7%nat; 8%nat; 1%nat].
Proof.
  assert (1%nat ∈ tab_strip (window_1 [7%nat; 8%nat; 1%nat; 1%nat])) as Hin.
  { apply elem_of_cons; right. apply elem_of_cons; right.
    apply elem_of_cons; by left. }
  split; [reflexivity|]. split; [reflexivity|]. split; [reflexivity|].
  split; [exact Hin|].
  destruct (SetBrowser_null_removes_tab
              third_slot_world 1%nat (set_browser_ (Some 1%nat) new_TabHelper)
              1%nat (window_1 [7%nat; 8%nat; 1%nat; 1%nat])
              eq_refl eq_refl eq_refl Hin)
    as (w' & br' & Hrun & _ & Hbr & Hstrip & _).
  exists w', br'. done.
Defined.

Lemma UpdateBrowser_names_window w self brw w' :
  UpdateBrowser self brw w = Some (tt, w') →
  ∃ h', helpers w' !! self = Some h' ∧ browser_ h' = brw.
Proof.
  unfold UpdateBrowser. intros Hrun.
  apply bind_inv in Hrun as ([] & w1 & Hupd & Hrun).
  apply update_helper_inv in Hupd as (h & Hh & ->).
  destruct brw as [b|]; [|done].
  apply bind_inv in Hrun as ([] & w2 & Hs & Hw).
  apply update_browser_inv in Hs as (br & _ & ->).
  apply update_browser_inv in Hw as (br' & _ & ->).
  wsimpl. rewrite lookup_insert_eq. eauto.
Qed.

Lemma SetBrowser_names_window w self brw w' :
  SetBrowser self brw w = Some (tt, w') →
  ∃ h', helpers w' !! self = Some h' ∧ browser_ h' = brw.
Proof.
  intros Hrun. unfold SetBrowser in Hrun.
  apply bind_inv in Hrun as (h & w0 & Hh & Hrun).
  apply helper_inv in Hh as [-> Hh].
  case_bool_decide as Hsame.
  { injection Hrun as <-. eauto. }
  apply bind_inv in Hrun as ([] & w1 & _ & Hrun).
  destruct brw as [b|].
  - apply bind_inv in Hrun as ([] & w2 & Hupd & Hrun).
    apply UpdateBrowser_names_window in Hupd as (h2 & Hh2 & Hb2).
    apply bind_inv in Hrun as (h3 & w3 & Hh3 & Hrun).
    apply helper_inv in Hh3 as [-> Hh3].
    assert (h3 = h2) as -> by congruence. rewrite Hb2 in Hrun.
    unfold AppendWebContents in Hrun.
    apply update_browser_inv in Hrun as (br & _ & ->). wsimpl. eauto.
  - apply update_helper_inv in Hrun as (h1 & Hh1 & ->). wsimpl.
    rewrite lookup_insert_eq. eauto.
Qed.

(** X13.  [SetBrowser] settles: after a call that returned, the record
    names exactly the window that was asked for, so that asking for the
    same window again changes nothing; in particular the strip does not
    get a second slot for the tab. *)
Theorem SetBrowser_twice_is_once w self brw w' :
  SetBrowser self brw w = Some (tt, w') →
  (∃ h', helpers w' !! self = Some h' ∧ browser_ h' = brw) ∧
  SetBrowser self brw w' = Some (tt, w').
Proof.
  intros Hrun.
  destruct (SetBrowser_names_window w self brw w' Hrun) as (h' & Hh' & Hb').
  split; [eauto|].
  unfold SetBrowser. rewrite (bind_run _ _ _ _ _ (helper_run w' self h' Hh')).
  cbv beta. by rewrite bool_decide_eq_true_2.
Qed.

Lemma SetBrowser_twice_is_once_witness :
  SetBrowser 0%nat (Some 2%nat) real_tab_world
    = Some (tt, world_after (SetBrowser 0%nat (Some 2%nat)) real_tab_world) ∧
  SetBrowser 0%nat (Some 2%nat)
    (world_after (SetBrowser 0%nat (Some 2%nat)) real_tab_world)
    = Some (tt, world_after (SetBrowser 0%nat (Some 2%nat)) real_tab_world).
Proof.
  assert (SetBrowser 0%nat (Some 2%nat) real_tab_world
          = Some (tt, world_after (SetBrowser 0%nat (Some 2%nat))
                        real_tab_world)) as Hrun by by_computation.
  exact (conj Hrun (proj2 (SetBrowser_twice_is_once _ _ _ _ Hrun))).
Defined.

(** *** A detach and the strip's report of it *)

Lemma DetachGuest_run w self h g b br :
  helpers w !! self = Some h → guests w !! self = Some g →
  attached g = true → browser_ h = Some b → browsers w !! b = Some br →
  self ∈ tab_strip br →
  let p := fresh_contents w in
  DetachGuest self w
  = Some (Some p,
      with_browsers
        (<[b := set_tab_strip
                  (<[Z.to_nat (GetIndexOfWebContents (tab_strip br) self) := p]>
                     (tab_strip br)) br]> (browsers w))
        (with_helpers
           (<[self := set_window_closing_ false h]>
              (<[p := mkTabHelper (index_ h) (pinned_ h) true
                                  (window_closing_ h) None (-1)]> (helpers w)))
           (with_guests (<[p := mkGuest false false (Z.of_nat p) []]> (guests w))
              (with_controllers
                 (<[p := default [] (controllers w !! self)]> (controllers w))
                 (with_trace (trace w ++ [CreatedNullContents b self p]) w))))).
Proof.
  intros Hh Hg Ha Hb Hbr Hin p.
  destruct (fresh_contents_fresh w) as (Hph & Hpg & Hpc).
  fold p in Hph, Hpg, Hpc.
  assert (p ≠ self) as Hne by congruence.
  destruct (GetIndexOfWebContents_contains _ _ Hin) as [Hci Hslot].
  unfold DetachGuest, CreateNullContents, CopyStateFrom, SetPlaceholder,
    get_tab_strip_index, ReplaceWebContentsAt.
  unfold_monad. rewrite Hg. cbn. rewrite Ha, Hh. cbn. rewrite Hb. cbn.
  fold p. run. rewrite Hci. cbn. rewrite Hbr. cbn.
  do 2 f_equal. apply world_eq; wsimpl; try reflexivity.
  - map_cases i self p.
  - by rewrite insert_insert_eq.
Qed.

(** X14.  A detach followed by the strip's report that the surface was
    replaced hands the tab over to the placeholder completely.  The
    placeholder holds the slot the tab held, observes the strip and the
    native window in its place, and its record carries the tab's logical
    index, pin flag, window and pending close; it inherits the attach
    parameters of the tab's guest.  The tab's record is left without
    window, without index and without pending close, so that the pending
    close, if there was one, is handed on without any close request being
    made.  The index reported by the strip plays no part. *)
Theorem DetachGuest_then_TabReplacedAt_hands_over w self h g b br index :
  helpers w !! self = Some h → guests w !! self = Some g →
  attached g = true → browser_ h = Some b → browsers w !! b = Some br →
  self ∈ tab_strip br →
  ∃ w' br',
    calls [CallDetachGuest self;
           CallTabReplacedAt self b self (fresh_contents w) index] w
      = Some (tt, w') ∧
    helpers w' !! fresh_contents w
      = Some (mkTabHelper (index_ h) (pinned_ h) true (window_closing_ h)
                          (Some b) (-1)) ∧
    helpers w' !! self
      = Some (mkTabHelper kNoTab (pinned_ h) (is_placeholder_ h) false None
                          (session_window_id h)) ∧
    browsers w' !! b = Some br' ∧
    tab_strip br'
      = <[Z.to_nat (GetIndexOfWebContents (tab_strip br) self)
          := fresh_contents w]> (tab_strip br) ∧
    fresh_contents w ∈ strip_observers br' ∧
    fresh_contents w ∈ window_observers br' ∧
    (self ∉ strip_observers br') ∧ (self ∉ window_observers br') ∧
    attach_params <$> guests w' !! fresh_contents w = Some (attach_params g) ∧
    trace w'
      = trace w ++ [CreatedNullContents b self (fresh_contents w);
                    WasHidden self; TabIdChanged (fresh_contents w);
                    GuestDetachGuest self;
                    GuestAttachGuest (fresh_contents w)
                      (Z.of_nat (fresh_contents w))].
Proof.
  intros Hh Hg Ha Hb Hbr Hin.
  destruct (fresh_contents_fresh w) as (Hph & Hpg & Hpc).
  assert (fresh_contents w ≠ self) as Hne by congruence.
  pose proof (DetachGuest_run w self h g b br Hh Hg Ha Hb Hbr Hin) as Hdetach.
  cbv zeta in Hdetach.
  set (p := fresh_contents w) in *.
  cbn [calls call].
  rewrite (bind_run _ _ _ _ _ (bind_run _ _ _ _ _ Hdetach)).
  unfold ret at 1.
  erewrite bind_run; cycle 1.
  { eapply (TabReplacedAt_run _ self b p index
              (set_window_closing_ false h) g
              (mkTabHelper (index_ h) (pinned_ h) true (window_closing_ h)
                           None (-1))
              (mkGuest false false (Z.of_nat p) []) b);
      wsimpl; try done.
    - by rewrite lookup_insert_eq.
    - by rewrite lookup_insert_ne.
    - by rewrite lookup_insert_ne, lookup_insert_eq.
    - by rewrite lookup_insert_eq.
    - by rewrite lookup_insert_eq. }
  eexists _, _. split; [reflexivity|].
  unfold bookkeeping_done, replaced_browser. wsimpl.
  rewrite lookup_insert_eq, lookup_insert_ne, !lookup_insert_eq by done.
  cbn -[AddObserver RemoveObserver].
  split; [done|]. split; [done|]. split; [done|]. split; [done|].
  split; [apply elem_of_AddObserver; by right|].
  split; [apply elem_of_AddObserver; by right|].
  split.
  { cbn [strip_observers].
    rewrite elem_of_AddObserver, elem_of_RemoveObserver.
    intros [[_ ?]|?]; congruence. }
  split.
  { cbn [window_observers].
    rewrite elem_of_AddObserver, elem_of_RemoveObserver.
    intros [[_ ?]|?]; congruence. }
  split; [done|].
  by rewrite <- !app_assoc.
Qed.

Lemma DetachGuest_then_TabReplacedAt_hands_over_witness :
  helpers scenario_C !! 3%nat = Some closing_tab ∧
  guests scenario_C !! 3%nat = Some attached_guest ∧
  attached attached_guest = true ∧ browser_ closing_tab = Some 2%nat ∧
  browsers scenario_C !! 2%nat = Some (mkBrowser 12 [3%nat] [3%nat] [3%nat]) ∧
  3%nat ∈ tab_strip (mkBrowser 12 [3%nat] [3%nat] [3%nat]) ∧
  ∃ w',
    calls [CallDetachGuest 3%nat;
           CallTabReplacedAt 3%nat 2%nat 3%nat (fresh_contents scenario_C) 9]
      scenario_C
      = Some (tt, w') ∧
    helpers w' !! fresh_contents scenario_C
      = Some (mkTabHelper 0 false true true (Some 2%nat) (-1)) ∧
    helpers w' !! 3%nat = Some (mkTabHelper kNoTab false false false None 12).
Proof.
  assert (3%nat ∈ tab_strip (mkBrowser 12 [3%nat] [3%nat] [3%nat])) as Hin
    by (apply list_elem_of_singleton; reflexivity).
  split; [reflexivity|]. split; [reflexivity|]. split; [reflexivity|].
  split; [reflexivity|]. split; [reflexivity|]. split; [exact Hin|].
  destruct (DetachGuest_then_TabReplacedAt_hands_over
              scenario_C 3%nat closing_tab attached_guest 2%nat
              (mkBrowser 12 [3%nat] [3%nat] [3%nat]) 9
              eq_refl eq_refl eq_refl eq_refl eq_refl Hin)
    as (w' & br' & Hrun & Hp & Hself & _).
  exists w'. done.
Defined.

(** *** An attach and the strip's report of it *)

Lemma GetTabStripIndex_of_occupant w self h window_id index b br c :
  helpers w !! self = Some h → self ∉ all_tabs w →
  b ∈ browser_list w → browsers w !! b = Some br →
  slot_occupant w window_id index b c →
  let w1 := with_helpers (<[self := set_index_ index h]> (helpers w)) w in
  c ≠ self ∧ c ∈ tab_strip br ∧
  GetTabStripIndex window_id index w1
  = Some (GetIndexOfWebContents (tab_strip br) c, w1).
Proof.
  intros Hh Hself Hlist Hbr
    [(hc & br' & Hc & Hi & Hw & Hb & Hbr' & Hin) Huniq] w1.
  assert (br' = br) as -> by congruence.
  assert (c ∈ all_tabs w) as Hall by by apply (elem_of_all_tabs w b br).
  assert (c ≠ self) as Hne by (by intros ->).
  split; [done|]. split; [done|].
  unfold GetTabStripIndex, bind, TabContentsIterator, gets.
  change (all_tabs w1) with (all_tabs w).
  apply (GetTabStripIndex_from_finds w1 window_id index b br c hc);
    try done.
  - subst w1. wsimpl. by rewrite lookup_insert_ne.
  - intros c' h' Hin' Hh'. apply (Huniq c' h' Hin').
    subst w1. wsimpl. rewrite lookup_insert_ne in Hh'; [done|].
    by intros <-.
Qed.

(** X15.  An attach followed by the strip's report that the occupant of
    the slot was replaced makes the attached surface the tab of that slot.
    Its record carries the requested index, names the window and takes the
    pin flag of the occupant; it observes the strip and the native window
    where the occupant did; its guest gets the attach parameters of the
    occupant's guest.  The occupant's record is left without window and
    without index, and the occupant's guest is the one asked to detach. *)
Theorem AttachGuest_then_TabReplacedAt_takes_over
    w self g h window_id index pre b post br c hc gc reported :
  guests w !! self = Some g → attached g = false →
  helpers w !! self = Some h → self ∉ all_tabs w →
  browser_list w = pre ++ b :: post →
  no_window_with_id w window_id pre →
  browsers w !! b = Some br → session_id br = window_id →
  slot_occupant w window_id index b c →
  helpers w !! c = Some hc → guests w !! c = Some gc →
  ∃ w' br',
    calls [CallAttachGuest self window_id index;
           CallTabReplacedAt c b c self reported] w
      = Some (tt, w') ∧
    helpers w' !! self
      = Some (mkTabHelper index (pinned_ hc) (is_placeholder_ h)
                          (window_closing_ h) (Some b) (session_window_id h)) ∧
    helpers w' !! c = Some (set_index_ kNoTab (set_browser_ None hc)) ∧
    browsers w' !! b = Some br' ∧
    tab_strip br'
      = <[Z.to_nat (GetIndexOfWebContents (tab_strip br) c) := self]>
          (tab_strip br) ∧
    self ∈ strip_observers br' ∧ self ∈ window_observers br' ∧
    (c ∉ strip_observers br') ∧ (c ∉ window_observers br') ∧
    attach_params <$> guests w' !! self = Some (attach_params gc) ∧
    trace w'
      = trace w ++ close_request hc ++
        [WasHidden c; TabIdChanged self; GuestDetachGuest c;
         GuestAttachGuest self (guest_instance_id g)].
Proof.
  intros Hg Ha Hh Hself Hlist Hpre Hbr Hid Hocc Hhc Hgc.
  assert (b ∈ browser_list w) as Hb.
  { rewrite Hlist. apply elem_of_app. right. apply elem_of_cons. by left. }
  destruct (GetTabStripIndex_of_occupant w self h window_id index b br c
              Hh Hself Hb Hbr Hocc) as (Hne & Hin & Hget).
  destruct Hocc as [(hc' & br' & Hc' & Hi & _ & Hbc & _) _].
  assert (hc' = hc) as -> by congruence. clear br' Hc'.
  destruct (GetIndexOfWebContents_contains _ _ Hin) as [Hci Hslot].
  set (slot := Z.to_nat (GetIndexOfWebContents (tab_strip br) c)) in *.
  assert (GetIndexOfWebContents (tab_strip br) c = Z.of_nat slot) as Hz.
  { subst slot. rewrite Z2Nat.id; [done|].
    unfold ContainsIndex in Hci. apply andb_true_iff in Hci as [Hge _].
    by apply Z.leb_le. }
  rewrite Hz in Hget.
  assert (slot < length (tab_strip br))%nat as Hlt by by eapply lookup_lt_Some.
  pose proof (AttachGuest_run w self g h window_id index pre b post br slot
                Hg Ha Hh Hlist Hpre Hbr Hid Hget Hlt) as Hattach.
  cbn [calls call].
  rewrite (bind_run _ _ _ _ _ (bind_run _ _ _ _ _ Hattach)).
  unfold ret at 1.
  erewrite bind_run; cycle 1.
  { eapply (TabReplacedAt_run _ c b self reported hc gc (set_index_ index h) g b);
      wsimpl; try done.
    - by rewrite lookup_insert_ne.
    - by rewrite lookup_insert_eq.
    - by rewrite lookup_insert_eq. }
  eexists _, _. split; [reflexivity|].
  unfold bookkeeping_done, replaced_browser. wsimpl.
  rewrite lookup_insert_eq, lookup_insert_ne, !lookup_insert_eq by done.
  cbn -[AddObserver RemoveObserver]. unfold get_index in Hi. rewrite Hi.
  split; [done|]. split; [done|]. split; [done|]. split; [done|].
  split; [apply elem_of_AddObserver; by right|].
  split; [apply elem_of_AddObserver; by right|].
  split.
  { cbn [strip_observers].
    rewrite elem_of_AddObserver, elem_of_RemoveObserver.
    intros [[_ ?]|?]; congruence. }
  split.
  { cbn [window_observers].
    rewrite elem_of_AddObserver, elem_of_RemoveObserver.
    intros [[_ ?]|?]; congruence. }
  split; [done|].
  by rewrite <- !app_assoc.
Qed.

Lemma AttachGuest_then_TabReplacedAt_takes_over_witness :
  guests attach_world !! 5%nat = Some detached_guest ∧
  attached detached_guest = false ∧
  helpers attach_world !! 5%nat = Some new_TabHelper ∧
  (5%nat ∉ all_tabs attach_world) ∧
  browser_list attach_world = [] ++ 1%nat :: [2%nat] ∧
  no_window_with_id attach_world 11 [] ∧
  browsers attach_world !! 1%nat = Some (window_1 [0%nat]) ∧
  session_id (window_1 [0%nat]) = 11 ∧
  slot_occupant attach_world 11 5 1%nat 0%nat ∧
  helpers attach_world !! 0%nat = Some real_tab ∧
  guests attach_world !! 0%nat = Some attached_guest ∧
  ∃ w' br',
    calls [CallAttachGuest 5%nat 11 5;
           CallTabReplacedAt 0%nat 1%nat 0%nat 5%nat 0] attach_world
      = Some (tt, w') ∧
    helpers w' !! 5%nat
      = Some (mkTabHelper 5 false false false (Some 1%nat) (-1)) ∧
    browsers w' !! 1%nat = Some br' ∧
    tab_strip br' = [5%nat].
Proof.
  split; [reflexivity|]. split; [reflexivity|]. split; [reflexivity|].
  split; [exact not_in_all_tabs_attach_world|]. split; [reflexivity|].
  split; [exact (Forall_nil_2 _)|]. split; [reflexivity|].
  split; [reflexivity|]. split; [exact slot_occupant_attach_world|].
  split; [reflexivity|]. split; [reflexivity|].
  destruct (AttachGuest_then_TabReplacedAt_takes_over
              attach_world 5%nat detached_guest new_TabHelper 11 5 []
              1%nat [2%nat] (window_1 [0%nat]) 0%nat real_tab attached_guest 0
              eq_refl eq_refl eq_refl not_in_all_tabs_attach_world eq_refl
              (Forall_nil_2 _) eq_refl eq_refl slot_occupant_attach_world
              eq_refl eq_refl)
    as (w' & br' & Hrun & Hh & _ & Hbr & Hstrip & _).
  exists w', br'. done.
Defined.



(** *** Creation parameters and tab values *)

(** X17.  Whatever the caller puts in the creation parameters, the guest is
    created in the partition of the browser context: a partition the caller
    supplied never reaches the guest manager.  The parent partition is that
    of the context the profile was derived from; only for a profile that
    was derived from no other context does a parent partition supplied by
    the caller go through.  Every other parameter is handed on as it
    came. *)
Theorem CreateTab_forces_profile_partition `{BaseValue Value}
    (profile : Profile) (create_params params : gmap string Value) :
  CreateTab profile create_params = Some params →
  params !! "partition"%string
    = Some (VString (partition_with_prefix profile)) ∧
  params !! "parent_partition"%string
    = match original_context profile with
      | Some parent => Some (VString parent)
      | None => create_params !! "parent_partition"%string
      end ∧
  ∀ k, k ≠ "partition"%string → k ≠ "parent_partition"%string →
       params !! k = create_params !! k.
Proof.
  unfold CreateTab. destruct (GetGuestManager profile); [|done].
  intros [= <-]. destruct (original_context profile) as [parent|].
  - split; [by rewrite lookup_insert_ne, lookup_insert_eq|].
    split; [by rewrite lookup_insert_eq|].
    intros k H1 H2. by rewrite !lookup_insert_ne.
  - split; [by rewrite lookup_insert_eq|].
    split; [by rewrite lookup_insert_ne|].
    intros k H1 H2. by rewrite lookup_insert_ne.
Qed.

Lemma CreateTab_forces_profile_partition_witness :
  CreateTab private_profile requested_params
    = Some (<["parent_partition"%string := SString "persist:default"]>
              (<["partition"%string := SString "persist:private"]>
                 requested_params)) ∧
  (<["parent_partition"%string := SString "persist:default"]>
     (<["partition"%string := SString "persist:private"]> requested_params))
    !! "partition"%string
    = Some (SString "persist:private").
Proof.
  assert (CreateTab private_profile requested_params
          = Some (<["parent_partition"%string := SString "persist:default"]>
                    (<["partition"%string := SString "persist:private"]>
                       requested_params))) as Hrun by reflexivity.
  exact (conj Hrun
           (proj1 (CreateTab_forces_profile_partition _ _ _ Hrun))).
Defined.

Lemma is_active_inv facts self w a w' :
  is_active facts self w = Some (a, w') →
  w' = w ∧
  ∃ h, helpers w !! self = Some h ∧
       a = match browser_ h with
           | Some b => bool_decide (GetActiveWebContents facts b = Some self)
           | None => false
           end.
Proof.
  unfold is_active. intros Hrun.
  apply bind_inv in Hrun as (h & w0 & Hh & Hrun).
  apply helper_inv in Hh as [-> Hh]. unfold browser in Hrun.
  destruct (browser_ h) as [b|] eqn:Hb; injection Hrun as <- <-;
    (split; [done|]); exists h; by rewrite Hb.
Qed.

Lemma is_active_run facts self w h :
  helpers w !! self = Some h →
  is_active facts self w
  = Some (match browser_ h with
          | Some b => bool_decide (GetActiveWebContents facts b = Some self)
          | None => false
          end, w).
Proof.
  intros Hh. unfold is_active.
  rewrite (bind_run _ _ _ _ _ (helper_run w self h Hh)). unfold browser.
  by destruct (browser_ h).
Qed.

Lemma IsDiscarded_run self w :
  IsDiscarded self w = Some (bool_decide (self ∈ discarded w), w).
Proof. reflexivity. Qed.

(** X18.  A tab value is built from the values stored with [SetTabValues]
    and the fourteen keys the helper computes, and the computed keys win:
    each of the fourteen keys carries the value the helper computes for it,
    whatever was stored under it, while every stored value under another
    key is reported as stored.  The reported index is the logical index of
    the record and the reported pin flag its own pin flag; [active],
    [highlighted] and [selected] carry the same value, which is false for a
    tab without window.  Building the value changes nothing. *)
Theorem CreateTabValue_computed_keys_win `{BaseValue Value}
    (facts : TabFacts) (values_ values : gmap string Value)
    (contents : WebContents) w d w' :
  CreateTabValue facts (SetTabValues values_ values) contents w = Some (d, w') →
  w' = w ∧
  ∃ h active,
    helpers w !! contents = Some h ∧
    active = match browser_ h with
             | Some b =>
                 bool_decide (GetActiveWebContents facts b = Some contents)
             | None => false
             end ∧
    d !! "id"%string = Some (VInt (IdForTab facts)) ∧
    d !! "windowId"%string = Some (VInt (IdForWindowContainingTab facts)) ∧
    d !! "incognito"%string = Some (VBool (IsOffTheRecord facts)) ∧
    d !! "active"%string = Some (VBool active) ∧
    d !! "url"%string = Some (VString (GetURL facts)) ∧
    d !! "title"%string
      = Some (VString (default ""%string (GetLastCommittedEntry facts))) ∧
    d !! "status"%string
      = Some (VString (if IsLoading facts then "loading" else "complete")) ∧
    d !! "audible"%string = Some (VBool (WasRecentlyAudible facts)) ∧
    d !! "discarded"%string
      = Some (VBool (bool_decide (contents ∈ discarded w))) ∧
    d !! "autoDiscardable"%string
      = Some (VBool (IsTabAutoDiscardable facts)) ∧
    d !! "highlighted"%string = Some (VBool active) ∧
    d !! "index"%string = Some (VInt (index_ h)) ∧
    d !! "pinned"%string = Some (VBool (pinned_ h)) ∧
    d !! "selected"%string = Some (VBool active) ∧
    (∀ k, k ∉ computed_keys → d !! k = SetTabValues values_ values !! k) ∧
    (∀ k v, k ∉ computed_keys → values_ !! k = None →
            values !! k = Some v → d !! k = Some v).
Proof.
  intros Hrun. unfold CreateTabValue in Hrun.
  apply bind_inv in Hrun as (h & w0 & Hh & Hrun).
  apply helper_inv in Hh as [-> Hh].
  apply bind_inv in Hrun as (active & w1 & Hactive & Hrun).
  apply is_active_inv in Hactive as (-> & h1 & Hh1 & Hactive).
  assert (h1 = h) as -> by congruence.
  cbv zeta in Hrun.
  apply bind_inv in Hrun as (is_discarded & w2 & Hdiscarded & Hrun).
  unfold IsDiscarded, gets in Hdiscarded. injection Hdiscarded as <- <-.
  apply bind_inv in Hrun as (h2 & w3 & Hh2 & Hrun).
  apply helper_inv in Hh2 as [-> Hh2].
  assert (h2 = h) as -> by congruence.
  unfold ret in Hrun. injection Hrun as Hd <-.
  split; [done|]. exists h, active. split; [done|]. split; [done|].
  assert (∀ k v, values_ !! k = None → values !! k = Some v →
            SetTabValues values_ values !! k = Some v) as Hmerge.
  { intros k v Hold Hnew. unfold SetTabValues, MergeDictionary.
    by rewrite lookup_union_with, Hold, Hnew. }
  assert (∀ k, k ∉ computed_keys → d !! k = SetTabValues values_ values !! k)
    as Hrest.
  { intros k Hk. unfold computed_keys in Hk.
    rewrite !not_elem_of_cons in Hk. destruct_and!. subst d.
    by rewrite !lookup_insert_ne. }
  subst d. unfold get_index, is_pinned.
  repeat (split;
          [by repeat (rewrite ?lookup_insert_ne by done;
                      rewrite lookup_insert_eq)|]).
  intros k v Hk Hold Hnew. rewrite Hrest by done. by apply Hmerge.
Qed.

Lemma CreateTabValue_computed_keys_win_witness :
  ∃ d,
    CreateTabValue real_tab_facts (SetTabValues stored_values theme_values)
      0%nat real_tab_world
      = Some (d, real_tab_world) ∧
    d !! "id"%string = Some (SInt 42) ∧
    d !! "theme"%string = Some (SString "dark").
Proof.
  assert (∃ d,
            CreateTabValue real_tab_facts
              (SetTabValues stored_values theme_values) 0%nat real_tab_world
            = Some (d, real_tab_world)) as [d Hrun].
  { unfold CreateTabValue.
    rewrite (bind_run _ _ _ _ _
               (helper_run real_tab_world 0%nat real_tab eq_refl)).
    cbv beta.
    rewrite (bind_run _ _ _ _ _
               (is_active_run real_tab_facts 0%nat real_tab_world real_tab
                  eq_refl)).
    cbv beta zeta.
    rewrite (bind_run _ _ _ _ _ (IsDiscarded_run 0%nat real_tab_world)).
    cbv beta.
    rewrite (bind_run _ _ _ _ _
               (helper_run real_tab_world 0%nat real_tab eq_refl)).
    eexists. reflexivity. }
  exists d. split; [exact Hrun|].
  destruct (CreateTabValue_computed_keys_win _ _ _ _ _ _ _ Hrun)
    as (_ & h & active & _ & _ & Hid & _ & _ & _ & _ & _ & _ & _ & _ & _ & _
        & _ & _ & _ & _ & Hnew).
  split; [exact Hid|]. apply Hnew.
  - unfold computed_keys. rewrite !not_elem_of_cons.
    repeat (split; [discriminate|]). apply not_elem_of_nil.
  - apply lookup_singleton_ne. discriminate.
  - apply lookup_singleton_eq.
Defined.

(** *** The table of render views *)

Lemma subscript_spec m k :
  fst (subscript m k) = default (0, 0) (m !! k) ∧
  snd (subscript m k) !! k = Some (default (0, 0) (m !! k)) ∧
  ∀ j, j ≠ k → snd (subscript m k) !! j = m !! j.
Proof.
  unfold subscript. destruct (m !! k) as [v|] eqn:Hk; cbn.
  - done.
  - rewrite lookup_insert_eq. split; [done|]. split; [done|].
    intros j Hj. by rewrite lookup_insert_ne.
Qed.

Lemma GetTabById_spec FromID tab_id m :
  fst (GetTabById FromID tab_id m)
    = FromID (fst (default (0, 0) (m !! tab_id)))
             (snd (default (0, 0) (m !! tab_id))) ∧
  snd (GetTabById FromID tab_id m) !! tab_id
    = Some (default (0, 0) (m !! tab_id)) ∧
  ∀ k, k ≠ tab_id → snd (GetTabById FromID tab_id m) !! k = m !! k.
Proof.
  unfold GetTabById.
  destruct (subscript_spec m tab_id) as (Hv1 & Hm1 & Hrest1).
  destruct (subscript m tab_id) as [v1 m1]. cbn in Hv1, Hm1, Hrest1.
  destruct (subscript_spec m1 tab_id) as (Hv2 & Hm2 & Hrest2).
  destruct (subscript m1 tab_id) as [v2 m2]. cbn in Hv2, Hm2, Hrest2. cbn.
  rewrite Hm1 in Hv2, Hm2. cbn in Hv2, Hm2. subst v1 v2.
  split; [done|]. split; [done|].
  intros k Hk. by rewrite Hrest2, Hrest1.
Qed.

(** X19.  Looking a tab up by its id never fails and never changes an
    entry of the table, but it is not free of effect: an id the table does
    not know is entered with the process id 0 and the routing id 0, and the
    answer for such an id is whatever surface the view with these two ids
    hosts.  For an id the table knows, the table is left as it was and the
    answer is the surface hosted by the recorded view. *)
Theorem GetTabById_enters_unknown_ids
    (FromID : Z → Z → option WebContents) (tab_id : Z)
    (render_view_map_ : gmap Z (Z * Z)) :
  tab_id ∈ dom (snd (GetTabById FromID tab_id render_view_map_)) ∧
  (∀ k v, render_view_map_ !! k = Some v →
          snd (GetTabById FromID tab_id render_view_map_) !! k = Some v) ∧
  (∀ k, k ≠ tab_id →
        snd (GetTabById FromID tab_id render_view_map_) !! k
        = render_view_map_ !! k) ∧
  (render_view_map_ !! tab_id = None →
     snd (GetTabById FromID tab_id render_view_map_) !! tab_id = Some (0, 0) ∧
     fst (GetTabById FromID tab_id render_view_map_) = FromID 0 0) ∧
  (∀ process_id routing_id,
     render_view_map_ !! tab_id = Some (process_id, routing_id) →
     snd (GetTabById FromID tab_id render_view_map_) = render_view_map_ ∧
     fst (GetTabById FromID tab_id render_view_map_)
     = FromID process_id routing_id).
Proof.
  destruct (GetTabById_spec FromID tab_id render_view_map_)
    as (Hr & Hk & Hrest).
  split; [apply elem_of_dom; by rewrite Hk|].
  split.
  { intros k v Hv. destruct (decide (k = tab_id)) as [->|Hne].
    - by rewrite Hk, Hv.
    - by rewrite Hrest. }
  split; [exact Hrest|]. split.
  - intros Hnone. rewrite Hnone in Hr, Hk. done.
  - intros process_id routing_id Hsome. rewrite Hsome in Hr, Hk.
    split; [|done]. apply map_eq. intros k.
    destruct (decide (k = tab_id)) as [->|Hne].
    + by rewrite Hk, Hsome.
    + by rewrite Hrest.
Qed.

(** X20.  The lookup that takes a browser context only ever answers a
    surface that the lookup by id alone answers, whose tab id is the id
    asked for and whose context is the one asked for; whatever it answers,
    it leaves the table exactly as the lookup by id alone does, the entry
    for an unknown id included. *)
Theorem GetTabById_in_context_checks_id_and_context
    (FromID : Z → Z → option WebContents)
    (IsSameContext : WebContents → bool) (IdForTab_of : WebContents → Z)
    (tab_id : Z) (render_view_map_ : gmap Z (Z * Z)) :
  snd (GetTabById_in_context FromID IsSameContext IdForTab_of tab_id
         render_view_map_)
    = snd (GetTabById FromID tab_id render_view_map_) ∧
  ∀ c,
    fst (GetTabById_in_context FromID IsSameContext IdForTab_of tab_id
           render_view_map_) = Some c ↔
    fst (GetTabById FromID tab_id render_view_map_) = Some c ∧
    IsSameContext c = true ∧ IdForTab_of c = tab_id.
Proof.
  unfold GetTabById_in_context.
  destruct (GetTabById FromID tab_id render_view_map_) as [[c0|] m]; cbn.
  - destruct (IsSameContext c0) eqn:Hctx; cbn.
    + destruct (tab_id =? IdForTab_of c0) eqn:Hid; cbn.
      * apply Z.eqb_eq in Hid. split; [done|]. intros c. split.
        -- intros [= <-]. done.
        -- intros ([= <-] & _ & _). done.
      * apply Z.eqb_neq in Hid. split; [done|]. intros c. split; [done|].
        intros ([= <-] & _ & Heq). congruence.
    + split; [done|]. intros c. split; [done|].
      intros ([= <-] & Hc & _). congruence.
  - split; [done|]. intros c. split; [done|]. by intros [? _].
Qed.

Lemma WebContentsDestroyed_inv tab_session_id self w m w' m' :
  WebContentsDestroyed tab_session_id self (w, m) = Some (tt, (w', m')) →
  m' = delete tab_session_id m ∧
  ∃ h, helpers w !! self = Some h ∧
       match browser_ h with
       | Some _ => SetBrowser self None w = Some (tt, w')
       | None => w' = w
       end.
Proof.
  unfold WebContentsDestroyed. cbn [fst snd].
  destruct (bind (helper self) _ w) as [[[] w1]|] eqn:Hrun; [|done].
  intros [= <- <-]. split; [done|].
  apply bind_inv in Hrun as (h & w0 & Hh & Hrun).
  apply helper_inv in Hh as [-> Hh]. exists h. split; [done|].
  unfold browser in Hrun. destruct (browser_ h); [done|].
  by injection Hrun as <-.
Qed.

(** X21.  When a surface is destroyed, its record ends up naming no
    window, and its entry is erased from the table of render views while
    every other entry stays; in particular the destruction undoes the
    registration of its render view.  A later lookup of its id therefore
    no longer finds the recorded view: it asks for the view with process id
    0 and routing id 0 and enters the id in the table again. *)
Theorem WebContentsDestroyed_forgets_the_tab
    (FromID : Z → Z → option WebContents)
    tab_session_id self w render_view_map_ w' m' :
  WebContentsDestroyed tab_session_id self (w, render_view_map_)
    = Some (tt, (w', m')) →
  (∃ h', helpers w' !! self = Some h' ∧ browser_ h' = None) ∧
  m' !! tab_session_id = None ∧
  (∀ k, k ≠ tab_session_id → m' !! k = render_view_map_ !! k) ∧
  (∀ process_id routing_id m0,
     render_view_map_
       = RenderViewCreated tab_session_id process_id routing_id m0 →
     m0 !! tab_session_id = None → m' = m0) ∧
  fst (GetTabById FromID tab_session_id m') = FromID 0 0 ∧
  snd (GetTabById FromID tab_session_id m') !! tab_session_id = Some (0, 0).
Proof.
  intros Hrun.
  apply WebContentsDestroyed_inv in Hrun as (-> & h & Hh & Hrun).
  assert (delete tab_session_id render_view_map_ !! tab_session_id = None)
    as Hgone by apply lookup_delete_eq.
  split.
  { destruct (browser_ h) eqn:Hb.
    - by apply SetBrowser_names_window in Hrun.
    - subst w'. eauto. }
  split; [done|].
  split; [intros k Hk; by apply lookup_delete_ne|].
  split.
  { intros process_id routing_id m0 -> Hfresh. unfold RenderViewCreated.
    rewrite delete_insert_eq. by apply delete_id. }
  destruct (GetTabById_spec FromID tab_session_id
              (delete tab_session_id render_view_map_)) as (Hr & Hk & _).
  rewrite Hgone in Hr, Hk. done.
Qed.

Lemma WebContentsDestroyed_forgets_the_tab_witness :
  WebContentsDestroyed 42 0%nat
    (real_tab_world, RenderViewCreated 42 3 7 ∅)
    = Some (tt, (world_after (SetBrowser 0%nat None) real_tab_world, ∅)) ∧
  (∃ h', helpers (world_after (SetBrowser 0%nat None) real_tab_world) !! 0%nat
           = Some h' ∧ browser_ h' = None) ∧
  fst (GetTabById (λ _ _, None) 42 ∅) = None.
Proof.
  assert (WebContentsDestroyed 42 0%nat
            (real_tab_world, RenderViewCreated 42 3 7 ∅)
          = Some (tt, (world_after (SetBrowser 0%nat None) real_tab_world, ∅)))
    as Hrun by by_computation.
  destruct (WebContentsDestroyed_forgets_the_tab (λ _ _, None) _ _ _ _ _ _ Hrun)
    as (Hnames & _ & _ & _ & Hlookup & _).
  exact (conj Hrun (conj Hnames Hlookup)).
Defined.
